(** * geminikit: a shallow embedding of the browser driver

    The development follows the TypeScript sources:
    - [errors.ts]  : the error taxonomy and [getErrorGuidance];
    - [browser.ts] : [GeminiBrowser] (connect / disconnect / page);
    - [client.ts]  : [GeminiClient] (login wait, prompt submission,
                     generation wait, download with retry, watermark
                     removal, image-header inspection);
    - [lib.ts]     : the top-level [generateImage] with its try/finally.

    Asynchronous code is sequential here (every promise is awaited where it
    is created), so it is embedded in a state-and-exception monad.  What the
    browser engine, the page, the external tool and the host's file system
    answer is not decided by the program: it is read from a [World] record
    of oracles.  What the program computes itself -- the paths it joins,
    the texts it builds -- is computed here too.  Console output is not
    modelled. *)

From Stdlib Require Import ZArith Lia Bool Ascii String List DecimalString.
From stdpp Require Import gmap strings list fin_maps.

Local Open Scope string_scope.
Local Open Scope Z_scope.

(** ** Strings the way the JavaScript sources use them *)

Module Js.

Definition dquote : string := String "034"%char EmptyString.
Definition nl : string := String "010"%char EmptyString.

(** [hay.includes(needle)] *)
Fixpoint includes (needle hay : string) : bool :=
  if String.prefix needle hay then true
  else match hay with
       | EmptyString => false
       | String _ rest => includes needle rest
       end.

(** Truthiness of a string value: only the empty string is falsy. *)
Definition truthy_string (s : string) : bool :=
  match s with
  | EmptyString => false
  | String _ _ => true
  end.

(** Truthiness of an optional string ([undefined] is falsy). *)
Definition truthy_opt_string (o : option string) : bool :=
  match o with
  | None => false
  | Some s => truthy_string s
  end.

(** [a ?? b] *)
Definition nullish {A : Type} (o : option A) (d : A) : A :=
  match o with
  | Some a => a
  | None => d
  end.

(** Last character of a string, if any. *)
Fixpoint last_char (s : string) : option ascii :=
  match s with
  | EmptyString => None
  | String c EmptyString => Some c
  | String _ rest => last_char rest
  end.

(** [String(n)] for a whole number [n >= 0]. *)
Definition show_whole (n : Z) : string :=
  NilZero.string_of_uint (N.to_uint (Z.to_N n)).

(** The digits after the point of [r / 1000] for [0 <= r < 1000], without
    trailing zeros; nothing, not even the point, for [r = 0]. *)
Definition show_thousandths (r : Z) : string :=
  if r =? 0 then EmptyString
  else "." ++ show_whole (r / 100)
       ++ (if r mod 100 =? 0 then EmptyString
           else show_whole (r / 10 mod 10)
                ++ (if r mod 10 =? 0 then EmptyString
                    else show_whole (r mod 10))).

(** The text of [ms / 1000] in a template literal, for a whole number [ms]
    of milliseconds: the quotient printed the way [Number.prototype.toString]
    prints it.  For [|ms| < 10^15] the quotient has at most 15 significant
    digits, and these are the digits printed. *)
Definition show_seconds (ms : Z) : string :=
  (if ms <? 0 then "-" else EmptyString)
  ++ show_whole (Z.abs ms / 1000) ++ show_thousandths (Z.abs ms mod 1000).

End Js.

(** ** Node's [path.join] (POSIX) *)

Module Path.

(** [s.split('/')] *)
Fixpoint split (s : string) : list string :=
  match s with
  | EmptyString => [EmptyString]
  | String c rest =>
      if Ascii.eqb c "/" then EmptyString :: split rest
      else match split rest with
           | seg :: segs => String c seg :: segs
           | [] => [String c EmptyString]
           end
  end.

(** One segment more; the segments kept so far come last one first.  Empty
    and [.] segments are dropped, [..] takes the segment before it away
    (above the start of a relative path it is kept). *)
Definition push (allowAboveRoot : bool) (kept : list string) (seg : string)
  : list string :=
  if String.eqb seg EmptyString || String.eqb seg "." then kept
  else if String.eqb seg ".." then
    match kept with
    | top :: below =>
        if String.eqb top ".."
        then (if allowAboveRoot then seg :: kept else kept)
        else below
    | [] => if allowAboveRoot then [seg] else []
    end
  else seg :: kept.

(** [segments.join('/')] *)
Fixpoint unsplit (segs : list string) : string :=
  match segs with
  | [] => EmptyString
  | [seg] => seg
  | seg :: rest => seg ++ "/" ++ unsplit rest
  end.

Definition normalizeString (path : string) (allowAboveRoot : bool) : string :=
  unsplit (rev (fold_left (push allowAboveRoot) (split path) [])).

Definition isAbsolute (path : string) : bool :=
  match path with
  | String c _ => Ascii.eqb c "/"
  | EmptyString => false
  end.

(** [path.normalize(path)] *)
Definition normalize (path : string) : string :=
  if negb (Js.truthy_string path) then "."
  else
    let trailingSeparator :=
      match Js.last_char path with
      | Some c => Ascii.eqb c "/"
      | None => false
      end in
    let body := normalizeString path (negb (isAbsolute path)) in
    if negb (Js.truthy_string body)
    then (if isAbsolute path then "/"
          else if trailingSeparator then "./" else ".")
    else (if isAbsolute path then "/" else EmptyString)
         ++ body ++ (if trailingSeparator then "/" else EmptyString).

(** [path.join(...parts)]: the non-empty parts joined by [/], then
    normalised; [.] when nothing is left. *)
Definition join (parts : list string) : string :=
  let joined := unsplit (List.filter Js.truthy_string parts) in
  if negb (Js.truthy_string joined) then "." else normalize joined.

End Path.

(** ** errors.ts *)

Module Errors.

(** A thrown JavaScript value.  [Gemini] is an instance of [GeminiError]
    (or of a subclass, told apart by [name]); [Other] is anything else: a
    plain [Error], an engine error, a file-system error. *)
Inductive Thrown : Type :=
| Gemini (name message code : string)
| Other (name message : string).

Definition GeminiError (message code : string) : Thrown :=
  Gemini "GeminiError" message code.

Definition AuthenticationError (message : string) : Thrown :=
  Gemini "AuthenticationError" message "AUTH_ERROR".

Definition GenerationError (message : string) : Thrown :=
  Gemini "GenerationError" message "GENERATION_ERROR".

Definition BrowserError (message : string) : Thrown :=
  Gemini "BrowserError" ("Browser error: " ++ message) "BROWSER_ERROR".

(** [new Error(message)] *)
Definition PlainError (message : string) : Thrown := Other "Error" message.

Definition isGeminiError (e : Thrown) : bool :=
  match e with
  | Gemini _ _ _ => true
  | Other _ _ => false
  end.

Definition code_of (e : Thrown) : option string :=
  match e with
  | Gemini _ _ c => Some c
  | Other _ _ => None
  end.

Definition message_of (e : Thrown) : string :=
  match e with
  | Gemini _ m _ => m
  | Other _ m => m
  end.

Definition unexpected_text : string :=
  "An unexpected error occurred. Please try again.".

Definition auth_steps : string :=
  Js.nl ++ Js.nl ++ "Recovery steps:" ++ Js.nl ++
  "1. Clear browser profile: rm -rf ~/.geminikit/browser-profile" ++ Js.nl ++
  "2. Run with headless=false to open browser for login" ++ Js.nl ++
  "3. Log in to Google manually" ++ Js.nl ++
  "4. Session will be saved for future headless use".

Definition generation_steps : string :=
  Js.nl ++ Js.nl ++ "Recovery steps:" ++ Js.nl ++
  "1. Check if Gemini is available at gemini.google.com" ++ Js.nl ++
  "2. Try a different prompt (some content may be blocked)" ++ Js.nl ++
  "3. Verify your Google account has access to Gemini".

Definition browser_steps : string :=
  Js.nl ++ Js.nl ++ "Recovery steps:" ++ Js.nl ++
  "1. Kill any stuck browser processes" ++ Js.nl ++
  "2. Remove browser lock: rm -f ~/.geminikit/browser-profile/SingletonLock" ++ Js.nl ++
  "3. Try again".

Definition getErrorGuidance (error : Thrown) : string :=
  match error with
  | Other _ _ => unexpected_text
  | Gemini _ message code =>
      if String.eqb code "AUTH_ERROR" then message ++ auth_steps
      else if String.eqb code "GENERATION_ERROR" then message ++ generation_steps
      else if String.eqb code "BROWSER_ERROR" then message ++ browser_steps
      else message
  end.

(** The three kinds the switch recognises. *)
Definition recognised (e : Thrown) : bool :=
  match code_of e with
  | Some c => String.eqb c "AUTH_ERROR" || String.eqb c "GENERATION_ERROR"
              || String.eqb c "BROWSER_ERROR"
  | None => false
  end.

End Errors.

(** ** The state-and-exception monad of the embedding *)

Module Run.
Import Errors.

(** The outcome of an awaited call: a value, or a thrown error. *)
Inductive Res (A : Type) : Type :=
| Ok (a : A)
| Throw (e : Thrown).
Arguments Ok {A} a.
Arguments Throw {A} e.

Definition M (S A : Type) : Type := S -> Res A * S.

Definition ret {S A : Type} (a : A) : M S A := fun s => (Ok a, s).

Definition throw {S A : Type} (e : Thrown) : M S A := fun s => (Throw e, s).

Definition bind {S A B : Type} (m : M S A) (k : A -> M S B) : M S B :=
  fun s =>
    match m s with
    | (Ok a, s1) => k a s1
    | (Throw e, s1) => (Throw e, s1)
    end.

(** [try { m } catch (e) { h e }] *)
Definition try_catch {S A : Type} (m : M S A) (h : Thrown -> M S A) : M S A :=
  fun s =>
    match m s with
    | (Ok a, s1) => (Ok a, s1)
    | (Throw e, s1) => h e s1
    end.

(** [try { m } finally { fin }]: [fin] runs on both exits of [m]; an error
    thrown by [fin] replaces the outcome of [m]. *)
Definition try_finally {S A : Type} (m : M S A) (fin : M S unit) : M S A :=
  fun s =>
    match m s with
    | (r, s1) =>
        match fin s1 with
        | (Ok _, s2) => (r, s2)
        | (Throw e, s2) => (Throw e, s2)
        end
    end.

(** [p.catch(() => d)] *)
Definition or_default {S A : Type} (m : M S A) (d : A) : M S A :=
  try_catch m (fun _ => ret d).

Definition get {S : Type} : M S S := fun s => (Ok s, s).
Definition modify {S : Type} (f : S -> S) : M S unit := fun s => (Ok tt, f s).

(** Lift an answer of the world into the monad. *)
Definition answer {S A : Type} (r : Res A) : M S A := fun s => (r, s).

Declare Scope run_scope.
Delimit Scope run_scope with run.
Notation "x <- m ;; k" := (bind m (fun x => k))
  (at level 100, m at next level, right associativity) : run_scope.
Notation "m ;;; k" := (bind m (fun _ => k))
  (at level 100, k at level 200, right associativity) : run_scope.

Definition is_ok {A : Type} (r : Res A) : bool :=
  match r with
  | Ok _ => true
  | Throw _ => false
  end.

End Run.

(** ** What the program observes of its environment *)

Module Env.
Import Errors Run.

(** What the two login probes read from the document. *)
Record PageView : Type := {
  href : string;
  has_rich_textarea : bool;
  has_contenteditable : bool;
  has_ql_editor : bool;
  has_textarea : bool
}.

(** One iteration of the generation wait, as the page answers it. *)
Record GenPoll : Type := {
  body_text : Res (option string);   (* document.body.textContent *)
  image_visible : Res bool;          (* img.image.loaded isVisible() *)
  latency : N                        (* time the two queries take, ms *)
}.

(** A download handed over by the engine. *)
Record Download : Type := {
  content : list Byte.byte;
  save_result : Res unit;            (* saveAs *)
  failure : option string            (* failure() *)
}.

(** One run of the click-and-wait pair, as the page answers it. *)
Record Attempt : Type := {
  primary_visible : Res bool;
  primary_click : Res unit;
  fallback_visible : Res bool;
  fallback_click : Res unit;
  download_event : option Download   (* None: no event within 30 s *)
}.

(** How a run of the external watermark tool ends. *)
Inductive ToolExit : Type :=
| ExitZero (stdout : string)
| ExitNonZero (status : Z)
| TimedOut
| SpawnFailed (message : string).

Record ToolRun : Type := {
  tool_exit : ToolExit;
  tool_files : gmap string (list Byte.byte)   (* what exists after the run *)
}.

Record World : Type := {
  (* host *)
  homedir : string;
  path_resolve : string -> string;
  path_dirname : string -> string;
  (* GeminiBrowser.connect / disconnect *)
  profile_dir_exists : bool;
  mkdir_profile : Res unit;
  launch : Res nat;                  (* tabs the restored context holds *)
  close_existing : nat -> Res unit;
  new_page : Res unit;
  context_close : Res unit;
  (* GeminiClient.connect *)
  goto_connect : Res unit;
  url_after_goto : string;
  accept_visible : Res bool;
  accept_click : Res unit;
  login_initial : Res PageView;
  login_poll : nat -> string * Res PageView;
  (* GeminiClient.generateImage *)
  goto_generate : Res unit;
  overlay_visible : Res bool;
  overlay_click : Res unit;
  input_click : Res unit;
  input_fill : Res unit;
  press_enter : Res unit;
  gen_poll : nat -> GenPoll;
  output_dir_exists : bool;
  mkdir_output : Res unit;
  button_wait : Res unit;
  attempt : nat -> Attempt;
  (* removeWatermark *)
  run_tool : gmap string (list Byte.byte) -> string -> string -> ToolRun;
  (* the file system: the error with which the host refuses to move or to
     remove what exists at a path -- a directory in the way (EISDIR),
     missing rights (EPERM, EACCES) -- if it refuses *)
  rename_failure : string -> string -> option Thrown;
  unlink_failure : string -> option Thrown
}.

(** Scripts passed to [page.evaluate]. *)
Inductive Script : Type :=
| LoginCheck
| ReadyCheck
| RefusalCheck.

(** The interactions with the engine, the page and the host, in order. *)
Inductive Event : Type :=
| EvMkdir (dir : string)
| EvLaunch (dir : string) (headless : bool)
| EvPageClose
| EvNewPage
| EvContextClose
| EvGoto (url : string)
| EvWait (ms : Z)
| EvEvaluate (script : Script)
| EvIsVisible (selector : string)
| EvClick (selector : string)
| EvFill (selector text : string)
| EvPress (key : string)
| EvWaitFor (selector : string) (timeout : Z)
| EvWaitForEvent (name : string) (timeout : Z)
| EvSaveAs (path : string)
| EvExecFile (file : string) (args : list string) (timeout : Z).

Inductive ContextHandle : Type := TheContext.
Inductive PageHandle : Type := ThePage.

(** The fields of a [GeminiBrowser] instance. *)
Record GeminiBrowser : Type := {
  context : option ContextHandle;
  _page : option PageHandle;
  userDataDir : string
}.

(** The state a call runs in. *)
Record St : Type := {
  browser : GeminiBrowser;
  clock : Z;                                  (* Date.now(), ms *)
  files : gmap string (list Byte.byte);       (* what exists, by path *)
  trace : list Event                          (* oldest first *)
}.

Definition emit (ev : Event) : M St unit :=
  modify (fun s => {| browser := browser s; clock := clock s;
                      files := files s; trace := trace s ++ [ev] |}).

Definition set_browser (b : GeminiBrowser) : M St unit :=
  modify (fun s => {| browser := b; clock := clock s;
                      files := files s; trace := trace s |}).

Definition set_files (fs : gmap string (list Byte.byte)) : M St unit :=
  modify (fun s => {| browser := browser s; clock := clock s;
                      files := fs; trace := trace s |}).

Definition advance (ms : Z) : M St unit :=
  modify (fun s => {| browser := browser s; clock := clock s + ms;
                      files := files s; trace := trace s |}).

(** An interaction: recorded, then answered by the world. *)
Definition interact {A : Type} (ev : Event) (r : Res A) : M St A :=
  (emit ev ;;; answer r)%run.

(** [page.waitForTimeout(ms)]: the page is taken to stay open, so the
    wait itself does not throw; it is what moves the clock (the polls of
    the generation wait add their own latency). *)
Definition waitForTimeout (ms : Z) : M St unit :=
  (emit (EvWait ms) ;;; advance ms)%run.

End Env.

(** ** types.ts *)

Module Types.

Record GeminiConfig : Type := {
  cfg_userDataDir : option string
}.

Record GenerateImageOptions : Type := {
  headless : option bool;
  aspectRatio : option string;
  timeout : option Z
}.

Record ImageResult : Type := {
  imagePath : string;
  width : Z;
  height : Z
}.

(** [{}] *)
Definition no_options : GenerateImageOptions :=
  {| headless := None; aspectRatio := None; timeout := None |}.

Definition no_config : GeminiConfig := {| cfg_userDataDir := None |}.

End Types.

(** ** browser.ts *)

Module Browser.
Import Errors Run Env.

Section WithWorld.
Variable w : World.

Definition DEFAULT_PROFILE_DIR : string :=
  Path.join [homedir w; ".geminikit"; "browser-profile"].

(** [new GeminiBrowser(config)]: [config?.userDataDir || DEFAULT_PROFILE_DIR] *)
Definition new_browser (dir : option string) : GeminiBrowser :=
  {| context := None;
     _page := None;
     userDataDir := if Js.truthy_opt_string dir
                    then Js.nullish dir DEFAULT_PROFILE_DIR
                    else DEFAULT_PROFILE_DIR |}.

(** The loop over [context.pages()] closing each restored tab. *)
Fixpoint close_pages (n i : nat) : M St unit :=
  match n with
  | O => ret tt
  | S n' => (interact EvPageClose (close_existing w i) ;;;
             close_pages n' (S i))%run
  end.

Definition connect (headless : option bool) : M St unit :=
  (s <- get ;;
   let dir := userDataDir (browser s) in
   (if profile_dir_exists w then ret tt
    else interact (EvMkdir dir) (mkdir_profile w)) ;;;
   existing <- interact (EvLaunch dir (Js.nullish headless false)) (launch w) ;;
   set_browser {| context := Some TheContext;
                  _page := _page (browser s);
                  userDataDir := dir |} ;;;
   close_pages existing 0 ;;;
   interact EvNewPage (new_page w) ;;;
   set_browser {| context := Some TheContext;
                  _page := Some ThePage;
                  userDataDir := dir |})%run.

Definition disconnect : M St unit :=
  (s <- get ;;
   match context (browser s) with
   | Some _ =>
       interact EvContextClose (context_close w) ;;;
       set_browser {| context := None;
                      _page := None;
                      userDataDir := userDataDir (browser s) |}
   | None => ret tt
   end)%run.

(** The [page] getter. *)
Definition page : M St PageHandle :=
  (s <- get ;;
   match _page (browser s) with
   | Some p => ret p
   | None => throw (PlainError "Not connected - call connect() first")
   end)%run.

End WithWorld.
End Browser.

(** ** Node's [Buffer] reads and the [fs] calls the client makes *)

Module Node.
Import Errors Run Env.

Definition byteZ (b : Byte.byte) : Z := Z.of_N (Byte.to_N b).

(** [buf[i] === v] ([undefined] out of range, never equal) *)
Definition byte_at_is (buf : list Byte.byte) (i : nat) (v : Byte.byte) : bool :=
  match buf !! i with
  | Some b => Byte.eqb b v
  | None => false
  end.

Definition byte_or_zero (buf : list Byte.byte) (i : nat) : Z :=
  match buf !! i with
  | Some b => byteZ b
  | None => 0
  end.

Definition RangeError : Thrown :=
  Other "RangeError" "The value of offset is out of range".

(** [buf.readUInt32BE(off)] *)
Definition readUInt32BE {S : Type} (buf : list Byte.byte) (off : nat) : M S Z :=
  if (off + 4 <=? length buf)%nat
  then ret (byte_or_zero buf off * 2 ^ 24
            + byte_or_zero buf (off + 1) * 2 ^ 16
            + byte_or_zero buf (off + 2) * 2 ^ 8
            + byte_or_zero buf (off + 3))
  else throw RangeError.

(** [buf.readUInt16BE(off)] *)
Definition readUInt16BE {S : Type} (buf : list Byte.byte) (off : nat) : M S Z :=
  if (off + 2 <=? length buf)%nat
  then ret (byte_or_zero buf off * 2 ^ 8 + byte_or_zero buf (off + 1))
  else throw RangeError.

Definition ENOENT (path : string) : Thrown :=
  Other "Error" ("ENOENT: no such file or directory, " ++ path).

Definition existsSync (path : string) : M St bool :=
  (s <- get ;;
   ret (match files s !! path with Some _ => true | None => false end))%run.

(** [openSync] / [readSync(fd, Buffer.alloc(n), 0, n, 0)] / [closeSync]:
    the first [n] bytes, the rest of the buffer left zero. *)
Definition readPrefix (path : string) (n : nat) : M St (list Byte.byte) :=
  (s <- get ;;
   match files s !! path with
   | Some bytes => ret (take n (bytes ++ replicate n Byte.x00))
   | None => throw (ENOENT path)
   end)%run.

Definition readFileSync (path : string) : M St (list Byte.byte) :=
  (s <- get ;;
   match files s !! path with
   | Some bytes => ret bytes
   | None => throw (ENOENT path)
   end)%run.

(** [statSync(path).size] *)
Definition statSize (path : string) : M St Z :=
  (s <- get ;;
   match files s !! path with
   | Some bytes => ret (Z.of_nat (length bytes))
   | None => throw (ENOENT path)
   end)%run.

(** [fs.renameSync(src, dst)]: fails when there is nothing at [src], and
    when the host refuses the move; nothing changes then. *)
Definition renameSync (w : World) (src dst : string) : M St unit :=
  (s <- get ;;
   match files s !! src with
   | Some bytes =>
       match rename_failure w src dst with
       | Some e => throw e
       | None => set_files (<[dst := bytes]> (delete src (files s)))
       end
   | None => throw (ENOENT src)
   end)%run.

(** [fs.unlinkSync(path)]: fails when there is nothing at [path], and when
    the host refuses to remove what is there; nothing changes then. *)
Definition unlinkSync (w : World) (path : string) : M St unit :=
  (s <- get ;;
   match files s !! path with
   | Some _ =>
       match unlink_failure w path with
       | Some e => throw e
       | None => set_files (delete path (files s))
       end
   | None => throw (ENOENT path)
   end)%run.

End Node.

(** ** client.ts *)

Module Client.
Import Errors Run Env Types Node.

Definition GEMINI_URL : string := "https://gemini.google.com/app".

Definition input_selector : string :=
  "div[contenteditable=" ++ Js.dquote ++ "true" ++ Js.dquote ++ "]".
Definition image_selector : string := "img.image.loaded".
Definition download_selector : string :=
  "[data-test-id=" ++ Js.dquote ++ "download-generated-image-button"
  ++ Js.dquote ++ "]".
Definition fallback_selector : string := "role=button[name=/download/i]".
Definition accept_selector : string := "role=button[name=/accept all/i]".
Definition overlay_selector : string := "human-review-disclosure button".

(** The four selector variants of the chat input, or-ed. *)
Definition has_chat_input (v : PageView) : bool :=
  has_rich_textarea v || has_contenteditable v || has_ql_editor v
  || has_textarea v.

(** The callback of the first [page.evaluate] of [ensureLoggedIn]. *)
Definition login_check (v : PageView) : bool :=
  if Js.includes "accounts.google.com" (href v) then false
  else has_chat_input v.

Definition LOGIN_TIMEOUT_MESSAGE : string := "Login timeout after 5 minutes.".

(** The callback of the refusal [page.evaluate]. *)
Definition refusal_check (text : option string) : option string :=
  let body := if Js.truthy_opt_string text then Js.nullish text EmptyString
              else EmptyString in
  if Js.includes "I can't generate" body
     || Js.includes "I'm not able to generate" body
  then Some "Gemini refused to generate this image. Try a different prompt."
  else None.

(** The prompt text typed into the chat input. *)
Definition build_prompt (prompt : string) (aspect : option string) : string :=
  let fullPrompt := "Generate an image: " ++ prompt in
  if Js.truthy_opt_string aspect
  then fullPrompt ++ " (aspect ratio: " ++ Js.nullish aspect EmptyString ++ ")"
  else fullPrompt.

Record Dimensions : Type := { dim_width : Z; dim_height : Z }.

Definition no_dimensions : Dimensions := {| dim_width := 0; dim_height := 0 |}.

Section WithWorld.
Variable w : World.

(** The login polling loop: [n] iterations left, [i] the poll's index. *)
Fixpoint login_loop (n i : nat) : M St unit :=
  match n with
  | O => throw (AuthenticationError LOGIN_TIMEOUT_MESSAGE)
  | S n' =>
      (waitForTimeout 5000 ;;;
       ready <- try_catch
                  (if Js.includes "gemini.google.com" (fst (login_poll w i))
                   then (v <- interact (EvEvaluate ReadyCheck)
                                       (snd (login_poll w i)) ;;
                         ret (has_chat_input v))
                   else ret false)
                  (fun _ => ret false) ;;
       if ready then ret tt else login_loop n' (S i))%run
  end.

Definition ensureLoggedIn : M St unit :=
  (Browser.page ;;;
   v <- interact (EvEvaluate LoginCheck) (login_initial w) ;;
   if login_check v then ret tt else login_loop 60 0)%run.

Definition handleCookieConsent : M St unit :=
  (Browser.page ;;;
   if Js.includes "consent.google.com" (url_after_goto w)
   then try_catch
          (visible <- or_default
                        (interact (EvIsVisible accept_selector)
                                  (accept_visible w)) false ;;
           if visible
           then (interact (EvClick accept_selector) (accept_click w) ;;;
                 waitForTimeout 2000)
           else ret tt)
          (fun _ => ret tt)
   else ret tt)%run.

Definition connect (headless : option bool) : M St unit :=
  (Browser.connect w headless ;;;
   Browser.page ;;;
   interact (EvGoto GEMINI_URL) (goto_connect w) ;;;
   waitForTimeout 3000 ;;;
   handleCookieConsent ;;;
   ensureLoggedIn)%run.

Definition disconnect : M St unit := Browser.disconnect w.

Definition dismissOverlays : M St unit :=
  try_catch
    (visible <- or_default
                  (interact (EvIsVisible overlay_selector)
                            (overlay_visible w)) false ;;
     if visible
     then (interact (EvClick overlay_selector) (overlay_click w) ;;;
           waitForTimeout 500)
     else ret tt)%run
    (fun _ => ret tt).

(** An upper bound on the iterations of the generation wait. *)
Definition GEN_FUEL (timeout : Z) : nat := Z.to_nat (timeout / 3000 + 1).

(** The generation wait: [while (Date.now() - startTime < timeout)].  Every
    iteration advances the clock by at least 3000 ms, so [GEN_FUEL timeout]
    iterations are never used up (see [gen_loop_fuel]); the loop returns
    [imageFound]. *)
Fixpoint gen_loop (fuel : nat) (timeout startTime : Z) (k : nat) : M St bool :=
  fun s =>
    if clock s - startTime <? timeout then
      match fuel with
      | O => (Ok false, s)
      | S fuel' =>
          (waitForTimeout 3000 ;;;
           text <- interact (EvEvaluate RefusalCheck)
                            (body_text (gen_poll w k)) ;;
           advance (Z.of_N (latency (gen_poll w k))) ;;;
           match refusal_check text with
           | Some refusal => throw (GenerationError refusal)
           | None =>
               found <- or_default
                          (interact (EvIsVisible image_selector)
                                    (image_visible (gen_poll w k))) false ;;
               if found then ret true
               else gen_loop fuel' timeout startTime (S k)
           end)%run s
      end
    else (Ok false, s).

Definition clickDownloadButton (k : nat) : M St unit :=
  (visible <- or_default
                (interact (EvIsVisible download_selector)
                          (primary_visible (attempt w k))) false ;;
   if visible
   then interact (EvClick download_selector) (primary_click (attempt w k))
   else
     (fallback <- or_default
                    (interact (EvIsVisible fallback_selector)
                              (fallback_visible (attempt w k))) false ;;
      if fallback
      then interact (EvClick fallback_selector) (fallback_click (attempt w k))
      else throw (GenerationError "Could not find download button")))%run.

(** [Promise.all([page.waitForEvent('download', ...), clickDownloadButton])]:
    the wait is registered, the click runs, and the pair resolves to the
    download when the click went through and the event came in time. *)
Definition download_attempt (k : nat) : M St Download :=
  (emit (EvWaitForEvent "download" 30000) ;;;
   clickDownloadButton k ;;;
   match download_event (attempt w k) with
   | Some d => ret d
   | None => throw (Other "TimeoutError"
                          "Timeout 30000ms exceeded while waiting for event")
   end)%run.

Definition DOWNLOAD_FAILED_MESSAGE : string :=
  "Download button did not trigger a file download".

(** [for (let attempt = 0; attempt < 2; attempt++)]: [n] iterations left. *)
Fixpoint download_loop (n k : nat) : M St Download :=
  match n with
  | O => throw (Other "TypeError"
                      "Cannot read properties of undefined (reading 'saveAs')")
  | S n' =>
      (got <- try_catch
                (d <- download_attempt k ;; ret (Some d))
                (fun _ =>
                   if (k =? 0)%nat
                   then (waitForTimeout 2000 ;;; ret None)
                   else throw (GenerationError DOWNLOAD_FAILED_MESSAGE)) ;;
       match got with
       | Some d => ret d
       | None => download_loop n' (S k)
       end)%run
  end.

(** The scan for the SOF0 marker: [count] iterations left, [i] the index. *)
Fixpoint scan_sof0 (buf : list Byte.byte) (count i : nat)
  : M St (option Dimensions) :=
  match count with
  | O => ret None
  | S count' =>
      if byte_at_is buf i Byte.xff && byte_at_is buf (i + 1) Byte.xc0
      then (h <- readUInt16BE buf (i + 5) ;;
            wd <- readUInt16BE buf (i + 7) ;;
            ret (Some {| dim_width := wd; dim_height := h |}))%run
      else scan_sof0 buf count' (S i)
  end.

(** The body of the [try] of [getImageDimensions]; [None] when it falls
    through to the final [return]. *)
Definition read_dimensions (filePath : string) : M St (option Dimensions) :=
  (header <- readPrefix filePath 24 ;;
   if byte_at_is header 0 Byte.x89 && byte_at_is header 1 Byte.x50
   then (wd <- readUInt32BE header 16 ;;
         h <- readUInt32BE header 20 ;;
         ret (Some {| dim_width := wd; dim_height := h |}))
   else (buf <- readFileSync filePath ;;
         scan_sof0 buf (Z.to_nat (Z.of_nat (length buf) - 9)) 0))%run.

Definition getImageDimensions (filePath : string) : M St Dimensions :=
  (found <- try_catch (read_dimensions filePath) (fun _ => ret None) ;;
   ret (match found with
        | Some d => d
        | None => no_dimensions
        end))%run.

Definition removerDir : string :=
  Path.join [homedir w; "code"; "WatermarkRemover-AI"].
Definition venvPython : string :=
  Path.join [removerDir; "venv"; "bin"; "python"].
Definition script : string := Path.join [removerDir; "remwm.py"].

Definition tmp_path (filePath : string) : string := filePath ++ ".clean.png".

(** [execFileAsync(venvPython, [script, filePath, tmpOut], ...)]: resolves
    with the standard output when the tool exits with status zero, rejects
    otherwise. *)
Definition execFileAsync (filePath tmpOut : string) : M St string :=
  (emit (EvExecFile venvPython [script; filePath; tmpOut] 120000) ;;;
   s <- get ;;
   let run := run_tool w (files s) filePath tmpOut in
   set_files (tool_files run) ;;;
   match tool_exit run with
   | ExitZero stdout => ret stdout
   | ExitNonZero status => throw (Other "Error" "Command failed")
   | TimedOut => throw (Other "Error" "Command failed (killed)")
   | SpawnFailed message => throw (Other "Error" message)
   end)%run.

Definition removeWatermark (filePath : string) : M St unit :=
  (present <- existsSync script ;;
   if negb present then ret tt
   else
     let tmpOut := tmp_path filePath in
     try_catch
       (execFileAsync filePath tmpOut ;;;
        cleaned <- existsSync tmpOut ;;
        if cleaned then renameSync w tmpOut filePath else ret tt)
       (fun _ =>
          partial <- existsSync tmpOut ;;
          if partial then unlinkSync w tmpOut else ret tt))%run.

(** [download.saveAs(absPath)] *)
Definition saveAs (d : Download) (absPath : string) : M St unit :=
  (interact (EvSaveAs absPath) (save_result d) ;;;
   s <- get ;;
   set_files (<[absPath := content d]> (files s)))%run.

Definition generateImage (prompt outputPath : string)
    (options : GenerateImageOptions) : M St ImageResult :=
  (Browser.page ;;;
   let timeout_ms := Js.nullish (timeout options) 120000 in
   interact (EvGoto GEMINI_URL) (goto_generate w) ;;;
   waitForTimeout 3000 ;;;
   let fullPrompt := build_prompt prompt (aspectRatio options) in
   dismissOverlays ;;;
   interact (EvClick input_selector) (input_click w) ;;;
   interact (EvFill input_selector fullPrompt) (input_fill w) ;;;
   waitForTimeout 500 ;;;
   interact (EvPress "Enter") (press_enter w) ;;;
   s <- get ;;
   let startTime := clock s in
   imageFound <- gen_loop (GEN_FUEL timeout_ms) timeout_ms startTime 0 ;;
   if negb imageFound
   then throw (GenerationError ("Image generation timed out after "
                                ++ Js.show_seconds timeout_ms ++ "s"))
   else
     let absPath := path_resolve w outputPath in
     let outputDir := path_dirname w absPath in
     (if output_dir_exists w then ret tt
      else interact (EvMkdir outputDir) (mkdir_output w)) ;;;
     interact (EvWaitFor download_selector 15000) (button_wait w) ;;;
     waitForTimeout 1000 ;;;
     download <- download_loop 2 0 ;;
     saveAs download absPath ;;;
     (if Js.truthy_opt_string (failure download)
      then throw (GenerationError
                    ("Download failed: "
                     ++ Js.nullish (failure download) EmptyString))
      else ret tt) ;;;
     removeWatermark absPath ;;;
     statSize absPath ;;;
     dimensions <- getImageDimensions absPath ;;
     ret {| imagePath := absPath;
            width := dim_width dimensions;
            height := dim_height dimensions |})%run.

End WithWorld.
End Client.

(** ** lib.ts *)

Module Lib.
Import Errors Run Env Types.

Section WithWorld.
Variable w : World.

(** [new GeminiClient()] *)
Definition new_client (config : GeminiConfig) : M St unit :=
  (s <- get ;;
   set_browser (Browser.new_browser w (cfg_userDataDir config)))%run.

Definition generateImage (prompt outputPath : string)
    (options : GenerateImageOptions) : M St ImageResult :=
  (new_client no_config ;;;
   try_finally
     (Client.connect w (headless options) ;;;
      Client.generateImage w prompt outputPath options)
     (Client.disconnect w))%run.

End WithWorld.

(** The state a process starts a call in: nothing recorded yet. *)
Definition start (fs : gmap string (list Byte.byte)) (now : Z) : St :=
  {| browser := {| context := None; _page := None; userDataDir := EmptyString |};
     clock := now;
     files := fs;
     trace := [] |}.

End Lib.

(** ** Vocabulary of the statements *)

Module Spec.
Import Errors Run Env Types Node Client.

(** *** Login wait *)

(** Poll [i] of the login wait ends the wait: the page URL contains
    "gemini.google.com" -- anywhere: the test is [url.includes], so a
    sign-in URL that carries the name in its query passes it too -- and
    the evaluation reports a chat input. *)
Definition poll_ready (w : World) (i : nat) : bool :=
  Js.includes "gemini.google.com" (fst (login_poll w i))
  && match snd (login_poll w i) with
     | Ok v => has_chat_input v
     | Throw _ => false
     end.

(** The interactions of poll [i]. *)
Definition poll_events (w : World) (i : nat) : list Event :=
  EvWait 5000 ::
  (if Js.includes "gemini.google.com" (fst (login_poll w i))
   then [EvEvaluate ReadyCheck] else []).

(** The interactions of the polls [i, i + n). *)
Fixpoint polls_events (w : World) (n i : nat) : list Event :=
  match n with
  | O => []
  | S n' => poll_events w i ++ polls_events w n' (S i)
  end.

(** The number of polls a trace shows: its [waitForTimeout(5000)] calls. *)
Definition polls_made (evs : list Event) : nat :=
  length (List.filter (fun ev => match ev with
                                 | EvWait ms => ms =? 5000
                                 | _ => false
                                 end) evs).

(** What the page does during the login wait: poll [N + 1] (index [N]) is
    the first of the 60 polls that is ready in the sense of [poll_ready],
    or none is. *)
Inductive LoginScenario (w : World) : option nat -> Prop :=
| LoggedInAt (N : nat) :
    (N < 60)%nat ->
    (forall j, (j < N)%nat -> poll_ready w j = false) ->
    poll_ready w N = true ->
    LoginScenario w (Some N)
| NeverLoggedIn :
    (forall j, (j < 60)%nat -> poll_ready w j = false) ->
    LoginScenario w None.

(** The state after [n] polls of the login wait started in [s]. *)
Definition after_polls (w : World) (s : St) (n : nat) : St :=
  {| browser := browser s;
     clock := clock s + 5000 * Z.of_nat n;
     files := files s;
     trace := trace s ++ EvEvaluate LoginCheck :: polls_events w n 0 |}.

(** *** Generation wait *)

(** The page text holds one of the two refusal phrases. *)
Definition has_refusal_phrase (body : string) : bool :=
  Js.includes "I can't generate" body
  || Js.includes "I'm not able to generate" body.

Definition REFUSAL_MESSAGE : string :=
  "Gemini refused to generate this image. Try a different prompt.".

(** Poll [k] shows neither a refusal nor an image. *)
Definition quiet_poll (w : World) (k : nat) : Prop :=
  (exists text, body_text (gen_poll w k) = Ok text
                /\ refusal_check text = None)
  /\ image_visible (gen_poll w k) <> Ok true.

(** Milliseconds on the clock after the first [k] quiet polls. *)
Fixpoint elapsed (w : World) (k : nat) : Z :=
  match k with
  | O => 0
  | S k' => elapsed w k' + 3000 + Z.of_N (latency (gen_poll w k'))
  end.

(** The interactions of [k] polls that run both checks. *)
Fixpoint full_polls (k : nat) : list Event :=
  match k with
  | O => []
  | S k' => full_polls k'
            ++ [EvWait 3000; EvEvaluate RefusalCheck; EvIsVisible image_selector]
  end.

(** Everything up to the start of the generation wait goes through. *)
Record submits (w : World) (s : St) : Prop := {
  sub_page : _page (browser s) = Some ThePage;
  sub_goto : goto_generate w = Ok tt;
  sub_click : input_click w = Ok tt;
  sub_fill : input_fill w = Ok tt;
  sub_press : press_enter w = Ok tt
}.

(** The interactions of [dismissOverlays]. *)
Definition overlay_events (w : World) : list Event :=
  EvIsVisible overlay_selector ::
  match overlay_visible w with
  | Ok true => EvClick overlay_selector ::
               match overlay_click w with
               | Ok _ => [EvWait 500]
               | Throw _ => []
               end
  | _ => []
  end.

(** The interactions from the navigation to the submitted prompt. *)
Definition submit_events (w : World) (fullPrompt : string) : list Event :=
  [EvGoto GEMINI_URL; EvWait 3000] ++ overlay_events w
  ++ [EvClick input_selector; EvFill input_selector fullPrompt;
      EvWait 500; EvPress "Enter"].

(** The texts a trace shows typed into the page, each with the selector
    of its input. *)
Definition fills (evs : list Event) : list (string * string) :=
  flat_map (fun ev => match ev with
                      | EvFill sel text => [(sel, text)]
                      | _ => []
                      end) evs.

(** An interaction of the download phase. *)
Definition download_event_b (ev : Event) : bool :=
  match ev with
  | EvWaitFor _ _ | EvWaitForEvent _ _ | EvSaveAs _ => true
  | EvClick sel => String.eqb sel download_selector
                   || String.eqb sel fallback_selector
  | _ => false
  end.

(** The refusal checks and the image checks a trace shows. *)
Definition refusal_checks (evs : list Event) : nat :=
  length (List.filter (fun ev => match ev with
                                 | EvEvaluate RefusalCheck => true
                                 | _ => false
                                 end) evs).

Definition image_checks (evs : list Event) : nat :=
  length (List.filter (fun ev => match ev with
                                 | EvIsVisible sel => String.eqb sel image_selector
                                 | _ => false
                                 end) evs).

(** *** Download *)

(** Neither download control is found at attempt [k]. *)
Definition no_control (w : World) (k : nat) : Prop :=
  primary_visible (attempt w k) <> Ok true
  /\ fallback_visible (attempt w k) <> Ok true.

(** *** Image headers *)

(** Modelled from the spec: the eight signature bytes of a PNG file. *)
Definition spec_png_signature : list Byte.byte :=
  [Byte.x89; Byte.x50; Byte.x4e; Byte.x47; Byte.x0d; Byte.x0a; Byte.x1a; Byte.x0a].

(** Modelled from the spec: the start of the image-header chunk that
    the PNG standard puts first -- its length, 13, and its type, IHDR. *)
Definition spec_ihdr_start : list Byte.byte :=
  [Byte.x00; Byte.x00; Byte.x00; Byte.x0d; Byte.x49; Byte.x48; Byte.x44; Byte.x52].

Fixpoint starts_with (prefix bytes : list Byte.byte) : bool :=
  match prefix, bytes with
  | [], _ => true
  | p :: prefix', b :: bytes' => Byte.eqb p b && starts_with prefix' bytes'
  | _ :: _, [] => false
  end.

(** Modelled from the spec: the file starts with the PNG signature. *)
Definition spec_is_png (bytes : list Byte.byte) : bool :=
  starts_with spec_png_signature bytes.

(** Modelled from the spec: the file starts with the JPEG start-of-image
    marker. *)
Definition spec_is_jpeg (bytes : list Byte.byte) : bool :=
  starts_with [Byte.xff; Byte.xd8] bytes.

(** The two bytes the code tests before reading a PNG header. *)
Definition starts_89_50 (bytes : list Byte.byte) : bool :=
  byte_at_is bytes 0 Byte.x89 && byte_at_is bytes 1 Byte.x50.

(** The byte pair FF C0 sits at index [i]. *)
Definition marker_at (bytes : list Byte.byte) (i : nat) : bool :=
  byte_at_is bytes i Byte.xff && byte_at_is bytes (i + 1) Byte.xc0.

Definition be16 (bytes : list Byte.byte) (i : nat) : Z :=
  byte_or_zero bytes i * 2 ^ 8 + byte_or_zero bytes (i + 1).

Definition be32 (bytes : list Byte.byte) (i : nat) : Z :=
  byte_or_zero bytes i * 2 ^ 24 + byte_or_zero bytes (i + 1) * 2 ^ 16
  + byte_or_zero bytes (i + 2) * 2 ^ 8 + byte_or_zero bytes (i + 3).

(** What [getImageDimensions] makes of a file ([None]: it cannot be read). *)
Inductive FileShape : option (list Byte.byte) -> Dimensions -> Prop :=
| ShapeUnreadable :
    FileShape None no_dimensions
| ShapePngLike (bytes : list Byte.byte) :
    starts_89_50 bytes = true ->
    FileShape (Some bytes)
              {| dim_width := be32 bytes 16; dim_height := be32 bytes 20 |}
| ShapeMarker (bytes : list Byte.byte) (i : nat) :
    starts_89_50 bytes = false ->
    (i + 9 < length bytes)%nat ->
    marker_at bytes i = true ->
    (forall j, (j < i)%nat -> marker_at bytes j = false) ->
    FileShape (Some bytes)
              {| dim_width := be16 bytes (i + 7); dim_height := be16 bytes (i + 5) |}
| ShapeOther (bytes : list Byte.byte) :
    starts_89_50 bytes = false ->
    (forall i, (i + 9 < length bytes)%nat -> marker_at bytes i = false) ->
    FileShape (Some bytes) no_dimensions.

(** Big-endian encoders, for the headers of the statements. *)
Definition byte_of_Z (z : Z) : Byte.byte :=
  match Byte.of_N (Z.to_N (z mod 256)) with
  | Some b => b
  | None => Byte.x00
  end.

Definition encode_be16 (z : Z) : list Byte.byte :=
  [byte_of_Z (z / 2 ^ 8); byte_of_Z z].

Definition encode_be32 (z : Z) : list Byte.byte :=
  [byte_of_Z (z / 2 ^ 24); byte_of_Z (z / 2 ^ 16); byte_of_Z (z / 2 ^ 8);
   byte_of_Z z].

(** *** Watermark removal *)

(** The run of the tool that [removeWatermark] would start in [s]. *)
Definition tool_run (w : World) (filePath : string) (s : St) : ToolRun :=
  run_tool w (files s) filePath (tmp_path filePath).

(** The tool exits with status zero. *)
Definition tool_succeeds (r : ToolRun) : bool :=
  match tool_exit r with
  | ExitZero _ => true
  | _ => false
  end.

(** The [try] block of [removeWatermark] fails: the tool does, or the
    host refuses to move its output over the original. *)
Definition try_fails (w : World) (filePath : string) (s : St) : Prop :=
  tool_succeeds (tool_run w filePath s) = false
  \/ exists e, rename_failure w (tmp_path filePath) filePath = Some e.

(** *** Errors *)

Definition multi_line (s : string) : bool := Js.includes Js.nl s.

(** *** Runs, traces and states *)

Local Open Scope list_scope.

(** [R] relates the state before a run to the state after it. *)
Definition preserves {A : Type} (R : St -> St -> Prop) (m : M St A) : Prop :=
  forall s, R s (snd (m s)).

(** The browser fields are as before. *)
Definition same_browser (s s' : St) : Prop := browser s' = browser s.

(** The trace is extended, nothing recorded is lost. *)
Definition grows (s s' : St) : Prop :=
  exists evs : list Event, trace s' = (trace s ++ evs)%list.

(** The profile directory is there or can be made, and the engine starts. *)
Definition launches (w : World) : Prop :=
  (profile_dir_exists w = true \/ mkdir_profile w = Ok tt)
  /\ exists tabs, launch w = Ok tabs.

(** What the call records before the engine starts. *)
Definition before_launch (w : World) (dir : string) : list Event :=
  if profile_dir_exists w then [] else [EvMkdir dir].

(** A page handle is only held together with a context. *)
Definition page_within_context (b : GeminiBrowser) : Prop :=
  context b = None -> _page b = None.

(** The state after [new GeminiClient()]. *)
Definition fresh_client (w : World) (fs : gmap string (list Byte.byte))
    (now : Z) : St :=
  {| browser := Browser.new_browser w None; clock := now; files := fs;
     trace := [] |}.

(** The number of polls and the outcome of a login scenario. *)
Definition scenario_polls (sc : option nat) : nat :=
  match sc with
  | Some N => S N
  | None => 60
  end.

Definition scenario_outcome (sc : option nat) : Res unit :=
  match sc with
  | Some _ => Ok tt
  | None => Throw (AuthenticationError "Login timeout after 5 minutes.")
  end.

(** The pause [dismissOverlays] makes after a click that went through. *)
Definition overlay_pause (w : World) : Z :=
  match overlay_visible w, overlay_click w with
  | Ok true, Ok _ => 500
  | _, _ => 0
  end.

(** From [s] to [s'] the trace is extended and nothing is typed. *)
Definition types_nothing (s s' : St) : Prop :=
  exists evs : list Event, trace s' = trace s ++ evs /\ fills evs = [].

(** The state in which the generation wait starts. *)
Definition submitted (w : World) (fullPrompt : string) (s : St) : St :=
  {| browser := browser s;
     clock := clock s + 3000 + overlay_pause w + 500;
     files := files s;
     trace := trace s ++ submit_events w fullPrompt |}.

(** What [generateImage] does from the start of the wait on. *)
Definition from_wait (w : World) (outputPath : string)
    (options : GenerateImageOptions) : M St ImageResult :=
  (s <- get ;;
   imageFound <- gen_loop w (GEN_FUEL (Js.nullish (timeout options) 120000))
                          (Js.nullish (timeout options) 120000) (clock s) 0 ;;
   if negb imageFound
   then throw (GenerationError
                 ("Image generation timed out after "
                  ++ Js.show_seconds (Js.nullish (timeout options) 120000)
                  ++ "s")%string)
   else
     (if output_dir_exists w then ret tt
      else interact (EvMkdir (path_dirname w (path_resolve w outputPath)))
                    (mkdir_output w)) ;;;
     interact (EvWaitFor download_selector 15000) (button_wait w) ;;;
     waitForTimeout 1000 ;;;
     download <- download_loop w 2 0 ;;
     saveAs download (path_resolve w outputPath) ;;;
     (if Js.truthy_opt_string (failure download)
      then throw (GenerationError
                    ("Download failed: "
                     ++ Js.nullish (failure download) EmptyString)%string)
      else ret tt) ;;;
     removeWatermark w (path_resolve w outputPath) ;;;
     Node.statSize (path_resolve w outputPath) ;;;
     dimensions <- getImageDimensions (path_resolve w outputPath) ;;
     ret {| imagePath := path_resolve w outputPath;
            width := dim_width dimensions;
            height := dim_height dimensions |})%run.

(** The state after the pause between the two attempts. *)
Definition paused (s : St) : St :=
  {| browser := browser s; clock := clock s + 2000; files := files s;
     trace := trace s ++ [EvWait 2000] |}.

(** The buffer [readPrefix] fills: the first [n] bytes, zero-padded. *)
Definition padded (n : nat) (bytes : list Byte.byte) : list Byte.byte :=
  take n (bytes ++ replicate n Byte.x00).

End Spec.

(** ** Concrete pages, files and worlds *)

Module Scenario.
Import Errors Run Env Types Node Client.

Definition chat_page : PageView :=
  {| href := "https://gemini.google.com/app";
     has_rich_textarea := true; has_contenteditable := true;
     has_ql_editor := false; has_textarea := false |}.

Definition signin_page : PageView :=
  {| href := "https://accounts.google.com/signin";
     has_rich_textarea := false; has_contenteditable := false;
     has_ql_editor := false; has_textarea := false |}.

(** A PNG header announcing 1024 x 768. *)
Definition png_1024x768 : list Byte.byte :=
  [Byte.x89; Byte.x50; Byte.x4e; Byte.x47; Byte.x0d; Byte.x0a; Byte.x1a; Byte.x0a;
   Byte.x00; Byte.x00; Byte.x00; Byte.x0d; Byte.x49; Byte.x48; Byte.x44; Byte.x52;
   Byte.x00; Byte.x00; Byte.x04; Byte.x00; Byte.x00; Byte.x00; Byte.x03; Byte.x00;
   Byte.x08; Byte.x06; Byte.x00; Byte.x00; Byte.x00].

(** A JPEG start with a baseline frame header announcing 640 x 480. *)
Definition jpeg_640x480 : list Byte.byte :=
  [Byte.xff; Byte.xd8; Byte.xff; Byte.xdb; Byte.x00; Byte.x03; Byte.x00;
   Byte.xff; Byte.xc0; Byte.x00; Byte.x11; Byte.x08;
   Byte.x01; Byte.xe0; Byte.x02; Byte.x80;
   Byte.x03; Byte.x01; Byte.x22; Byte.x00].

(** Twenty-four bytes that are no image: two bytes 89 50, then zeros but
    for a one at offsets 19 and 23. *)
Definition not_an_image : list Byte.byte :=
  [Byte.x89; Byte.x50; Byte.x00; Byte.x00; Byte.x00; Byte.x00; Byte.x00; Byte.x00;
   Byte.x00; Byte.x00; Byte.x00; Byte.x00; Byte.x00; Byte.x00; Byte.x00; Byte.x00;
   Byte.x00; Byte.x00; Byte.x00; Byte.x01; Byte.x00; Byte.x00; Byte.x00; Byte.x01].

Definition image_poll : GenPoll :=
  {| body_text := Ok (Some "Sure, here is your image.");
     image_visible := Ok true; latency := 40 |}.

Definition waiting_poll : GenPoll :=
  {| body_text := Ok (Some "Creating your image...");
     image_visible := Ok false; latency := 40 |}.

(** A refusal phrase and a rendered image in the same poll. *)
Definition refusal_and_image_poll : GenPoll :=
  {| body_text := Ok (Some "Sorry, I can't generate that image.");
     image_visible := Ok true; latency := 40 |}.

Definition png_download : Download :=
  {| content := png_1024x768; save_result := Ok tt; failure := None |}.

Definition working_attempt : Attempt :=
  {| primary_visible := Ok true; primary_click := Ok tt;
     fallback_visible := Ok false; fallback_click := Ok tt;
     download_event := Some png_download |}.

(** No download control on the page. *)
Definition controls_gone : Attempt :=
  {| primary_visible := Ok false; primary_click := Ok tt;
     fallback_visible := Ok false; fallback_click := Ok tt;
     download_event := None |}.

(** A tool run that changes nothing. *)
Definition idle_tool (fs : gmap string (list Byte.byte)) (input output : string)
  : ToolRun :=
  {| tool_exit := ExitZero EmptyString; tool_files := fs |}.

(** A tool run that leaves half an output and exits with status 1. *)
Definition failing_tool (fs : gmap string (list Byte.byte))
    (input output : string) : ToolRun :=
  {| tool_exit := ExitNonZero 1;
     tool_files := <[output := [Byte.x89; Byte.x50]]> fs |}.

(** A tool run that writes a cleaned image and exits with status 0. *)
Definition cleaning_tool (fs : gmap string (list Byte.byte))
    (input output : string) : ToolRun :=
  {| tool_exit := ExitZero "done";
     tool_files := <[output := png_1024x768]> fs |}.

(** A world in which every step goes through, but for the parts given. *)
Definition world
    (initial : Res PageView)
    (polls : nat -> string * Res PageView)
    (gen : nat -> GenPoll)
    (attempts : nat -> Attempt)
    (tool : gmap string (list Byte.byte) -> string -> string -> ToolRun)
  : World :=
  {| homedir := "/home/user";
     path_resolve := fun p => p;
     path_dirname := fun _ => "/tmp";
     profile_dir_exists := true;
     mkdir_profile := Ok tt;
     launch := Ok 1%nat;
     close_existing := fun _ => Ok tt;
     new_page := Ok tt;
     context_close := Ok tt;
     goto_connect := Ok tt;
     url_after_goto := "https://gemini.google.com/app";
     accept_visible := Ok false;
     accept_click := Ok tt;
     login_initial := initial;
     login_poll := polls;
     goto_generate := Ok tt;
     overlay_visible := Ok false;
     overlay_click := Ok tt;
     input_click := Ok tt;
     input_fill := Ok tt;
     press_enter := Ok tt;
     gen_poll := gen;
     output_dir_exists := true;
     mkdir_output := Ok tt;
     button_wait := Ok tt;
     attempt := attempts;
     run_tool := tool;
     rename_failure := fun _ _ => None;
     unlink_failure := fun _ => None |}.

(** Logged in from the start, image at the first poll, download at the
    first attempt. *)
Definition smooth : World :=
  world (Ok chat_page) (fun _ => ("https://gemini.google.com/app", Ok chat_page))
        (fun _ => image_poll) (fun _ => working_attempt) idle_tool.

(** The sign-in page at first; the first poll fails to evaluate, the
    second is still on the sign-in host, the third shows the chat input. *)
Definition late_login : World :=
  world (Ok signin_page)
        (fun i => match i with
                  | O => ("https://gemini.google.com/app",
                          Throw (Other "Error" "Execution context was destroyed"))
                  | S O => ("https://accounts.google.com/signin", Ok signin_page)
                  | _ => ("https://gemini.google.com/app", Ok chat_page)
                  end)
        (fun _ => image_poll) (fun _ => working_attempt) idle_tool.

(** The user never logs in. *)
Definition never_login : World :=
  world (Ok signin_page)
        (fun _ => ("https://accounts.google.com/signin", Ok signin_page))
        (fun _ => image_poll) (fun _ => working_attempt) idle_tool.

(** Two polls without news, then a refusal next to a rendered image. *)
Definition refusal_with_image : World :=
  world (Ok chat_page) (fun _ => ("https://gemini.google.com/app", Ok chat_page))
        (fun k => match k with
                  | O | S O => waiting_poll
                  | _ => refusal_and_image_poll
                  end)
        (fun _ => working_attempt) idle_tool.

(** The image renders, but no download control can be found at either
    attempt. *)
Definition download_controls_gone : World :=
  world (Ok chat_page) (fun _ => ("https://gemini.google.com/app", Ok chat_page))
        (fun _ => image_poll) (fun _ => controls_gone) idle_tool.

(** The sign-in page with the address of the application in its query
    and a text area of its own. *)
Definition signin_with_continue : PageView :=
  {| href := "https://accounts.google.com/v3/signin/identifier?continue=https%3A%2F%2Fgemini.google.com%2Fapp";
     has_rich_textarea := false; has_contenteditable := false;
     has_ql_editor := false; has_textarea := true |}.

(** The user stays on that sign-in page. *)
Definition stays_on_signin : World :=
  world (Ok signin_with_continue)
        (fun _ => (href signin_with_continue, Ok signin_with_continue))
        (fun _ => image_poll) (fun _ => working_attempt) idle_tool.

(** The watermark tool is installed and fails / succeeds. *)
Definition with_failing_tool : World :=
  world (Ok chat_page) (fun _ => ("https://gemini.google.com/app", Ok chat_page))
        (fun _ => image_poll) (fun _ => working_attempt) failing_tool.

Definition with_cleaning_tool : World :=
  world (Ok chat_page) (fun _ => ("https://gemini.google.com/app", Ok chat_page))
        (fun _ => image_poll) (fun _ => working_attempt) cleaning_tool.

(** A tool run that makes a directory where its output should go and
    exits with status 1. *)
Definition stuck_tool (fs : gmap string (list Byte.byte))
    (input output : string) : ToolRun :=
  {| tool_exit := ExitNonZero 1; tool_files := <[output := []]> fs |}.

Definition EISDIR (path : string) : Thrown :=
  Other "Error" ("EISDIR: illegal operation on a directory, unlink '"
                 ++ path ++ "'").

(** [w] on a host that refuses some moves and removals. *)
Definition on_host (w : World)
    (rename : string -> string -> option Thrown)
    (unlink : string -> option Thrown) : World :=
  {| homedir := homedir w;
     path_resolve := path_resolve w;
     path_dirname := path_dirname w;
     profile_dir_exists := profile_dir_exists w;
     mkdir_profile := mkdir_profile w;
     launch := launch w;
     close_existing := close_existing w;
     new_page := new_page w;
     context_close := context_close w;
     goto_connect := goto_connect w;
     url_after_goto := url_after_goto w;
     accept_visible := accept_visible w;
     accept_click := accept_click w;
     login_initial := login_initial w;
     login_poll := login_poll w;
     goto_generate := goto_generate w;
     overlay_visible := overlay_visible w;
     overlay_click := overlay_click w;
     input_click := input_click w;
     input_fill := input_fill w;
     press_enter := press_enter w;
     gen_poll := gen_poll w;
     output_dir_exists := output_dir_exists w;
     mkdir_output := mkdir_output w;
     button_wait := button_wait w;
     attempt := attempt w;
     run_tool := run_tool w;
     rename_failure := rename;
     unlink_failure := unlink |}.

(** The tool is installed, fails, and leaves a directory in the place of
    its output, which [unlink] cannot remove. *)
Definition with_stuck_output : World :=
  on_host (world (Ok chat_page)
                 (fun _ => ("https://gemini.google.com/app", Ok chat_page))
                 (fun _ => image_poll) (fun _ => working_attempt) stuck_tool)
          (fun _ _ => None)
          (fun path => if String.eqb path "/tmp/out.png.clean.png"
                       then Some (EISDIR path) else None).

(** A connected client in a process that has not recorded anything yet. *)
Definition connected (fs : gmap string (list Byte.byte)) : St :=
  {| browser := {| context := Some TheContext; _page := Some ThePage;
                   userDataDir := "/home/user/.geminikit/browser-profile" |};
     clock := 0;
     files := fs;
     trace := [] |}.

(** The files of a host with the watermark tool installed and a downloaded
    image. *)
Definition tool_installed : gmap string (list Byte.byte) :=
  <["/home/user/code/WatermarkRemover-AI/remwm.py" := [Byte.x23]]>
    (<["/tmp/out.png" := jpeg_640x480]> ∅).

End Scenario.

(** ** More vocabulary: the rest of the call *)

Module SpecMore.
Import Errors Run Env Types Node Client Spec.
Local Open Scope list_scope.

(** The interactions of [handleCookieConsent]. *)
Definition consent_events (w : World) : list Event :=
  if Js.includes "consent.google.com" (url_after_goto w)
  then EvIsVisible accept_selector ::
       match accept_visible w with
       | Ok true => EvClick accept_selector ::
                    match accept_click w with
                    | Ok _ => [EvWait 2000]
                    | Throw _ => []
                    end
       | _ => []
       end
  else [].

(** The consent button is clicked: on the consent host, and visible. *)
Definition consent_clicked (w : World) : bool :=
  Js.includes "consent.google.com" (url_after_goto w)
  && match accept_visible w with
     | Ok true => true
     | _ => false
     end.

(** The wait finds an image at poll [k] (index from 0) within [T] ms:
    the polls before show nothing, the time is not up, and poll [k] shows
    an image and no refusal phrase. *)
Record finds_image (w : World) (T : Z) (k : nat) : Prop := {
  fi_quiet : forall j, (j < k)%nat -> quiet_poll w j;
  fi_time : elapsed w k < T;
  fi_body : exists text, body_text (gen_poll w k) = Ok text
                         /\ refusal_check text = None;
  fi_image : image_visible (gen_poll w k) = Ok true
}.

(** The wait runs out of time after [n] polls that show nothing. *)
Record times_out (w : World) (T : Z) (n : nat) : Prop := {
  to_quiet : forall j, (j < n)%nat -> quiet_poll w j;
  to_before : n = 0%nat \/ elapsed w (n - 1) < T;
  to_after : T <= elapsed w n
}.

(** The output directory is there or can be made. *)
Definition output_dir_ready (w : World) : Prop :=
  output_dir_exists w = true \/ mkdir_output w = Ok tt.

(** What the call records when it makes sure of the output directory. *)
Definition before_download (w : World) (outputPath : string) : list Event :=
  if output_dir_exists w then []
  else [EvMkdir (path_dirname w (path_resolve w outputPath))].

(** The state in which the download phase starts, the image found at poll
    [k]. *)
Definition image_found (w : World) (fullPrompt : string) (k : nat) (s : St)
  : St :=
  {| browser := browser s;
     clock := clock (submitted w fullPrompt s) + elapsed w (S k);
     files := files s;
     trace := trace s ++ submit_events w fullPrompt ++ full_polls (S k) |}.

(** What [generateImage] does once the image is found. *)
Definition from_download (w : World) (outputPath : string) : M St ImageResult :=
  ((if output_dir_exists w then ret tt
    else interact (EvMkdir (path_dirname w (path_resolve w outputPath)))
                  (mkdir_output w)) ;;;
   interact (EvWaitFor download_selector 15000) (button_wait w) ;;;
   waitForTimeout 1000 ;;;
   download <- download_loop w 2 0 ;;
   saveAs download (path_resolve w outputPath) ;;;
   (if Js.truthy_opt_string (failure download)
    then throw (GenerationError
                  ("Download failed: "
                   ++ Js.nullish (failure download) EmptyString)%string)
    else ret tt) ;;;
   removeWatermark w (path_resolve w outputPath) ;;;
   Node.statSize (path_resolve w outputPath) ;;;
   dimensions <- getImageDimensions (path_resolve w outputPath) ;;
   ret {| imagePath := path_resolve w outputPath;
          width := dim_width dimensions;
          height := dim_height dimensions |})%run.

(** The designated download control is there and the click on it goes
    through at attempt [k]. *)
Definition primary_clicked (w : World) (k : nat) : Prop :=
  primary_visible (attempt w k) = Ok true
  /\ primary_click (attempt w k) = Ok tt.

(** Only the generic download control is there, and the click on it goes
    through at attempt [k]. *)
Definition fallback_clicked (w : World) (k : nat) : Prop :=
  primary_visible (attempt w k) <> Ok true
  /\ fallback_visible (attempt w k) = Ok true
  /\ fallback_click (attempt w k) = Ok tt.

(** The waits for a download event a trace shows. *)
Definition download_waits (evs : list Event) : nat :=
  length (List.filter (fun ev => match ev with
                                 | EvWaitForEvent _ _ => true
                                 | _ => false
                                 end) evs).

(** The pauses between download attempts a trace shows. *)
Definition retry_pauses (evs : list Event) : nat :=
  length (List.filter (fun ev => match ev with
                                 | EvWait ms => ms =? 2000
                                 | _ => false
                                 end) evs).

(** The runs of the watermark tool a trace shows. *)
Definition tool_runs (evs : list Event) : nat :=
  length (List.filter (fun ev => match ev with
                                 | EvExecFile _ _ _ => true
                                 | _ => false
                                 end) evs).

(** The error of the [page] getter. *)
Definition NOT_CONNECTED : Thrown :=
  PlainError "Not connected - call connect() first".

(** The error of a wait for the download event that runs out. *)
Definition NO_EVENT : Thrown :=
  Other "TimeoutError" "Timeout 30000ms exceeded while waiting for event".

(** The state after the download was saved at the first attempt. *)
Definition saved (w : World) (out : string) (d : Download) (s : St) : St :=
  {| browser := browser s; clock := clock s + 1000;
     files := <[path_resolve w out := content d]> (files s);
     trace := trace s ++ before_download w out
              ++ [EvWaitFor download_selector 15000; EvWait 1000;
                  EvWaitForEvent "download" 30000;
                  EvIsVisible download_selector; EvClick download_selector;
                  EvSaveAs (path_resolve w out)] |}.

(** The message of the generation timeout. *)
Definition timeout_message (T : Z) : string :=
  ("Image generation timed out after " ++ Js.show_seconds T ++ "s")%string.

End SpecMore.

(** ** More concrete worlds *)

Module ScenarioMore.
Import Errors Run Env Types Node Client Scenario.

(** [w] with other answers of the engine to opening the page and to
    closing the context, and of the page to the wait for the download
    button. *)
Definition with_engine (w : World) (opening closing waiting : Res unit)
  : World :=
  {| homedir := homedir w;
     path_resolve := path_resolve w;
     path_dirname := path_dirname w;
     profile_dir_exists := profile_dir_exists w;
     mkdir_profile := mkdir_profile w;
     launch := launch w;
     close_existing := close_existing w;
     new_page := opening;
     context_close := closing;
     goto_connect := goto_connect w;
     url_after_goto := url_after_goto w;
     accept_visible := accept_visible w;
     accept_click := accept_click w;
     login_initial := login_initial w;
     login_poll := login_poll w;
     goto_generate := goto_generate w;
     overlay_visible := overlay_visible w;
     overlay_click := overlay_click w;
     input_click := input_click w;
     input_fill := input_fill w;
     press_enter := press_enter w;
     gen_poll := gen_poll w;
     output_dir_exists := output_dir_exists w;
     mkdir_output := mkdir_output w;
     button_wait := waiting;
     attempt := attempt w;
     run_tool := run_tool w;
     rename_failure := rename_failure w;
     unlink_failure := unlink_failure w |}.

(** [w] with a consent interstitial after the first navigation. *)
Definition with_consent (w : World) (visible : Res bool) (click : Res unit)
  : World :=
  {| homedir := homedir w;
     path_resolve := path_resolve w;
     path_dirname := path_dirname w;
     profile_dir_exists := profile_dir_exists w;
     mkdir_profile := mkdir_profile w;
     launch := launch w;
     close_existing := close_existing w;
     new_page := new_page w;
     context_close := context_close w;
     goto_connect := goto_connect w;
     url_after_goto := "https://consent.google.com/m?continue=https://gemini.google.com/app";
     accept_visible := visible;
     accept_click := click;
     login_initial := login_initial w;
     login_poll := login_poll w;
     goto_generate := goto_generate w;
     overlay_visible := overlay_visible w;
     overlay_click := overlay_click w;
     input_click := input_click w;
     input_fill := input_fill w;
     press_enter := press_enter w;
     gen_poll := gen_poll w;
     output_dir_exists := output_dir_exists w;
     mkdir_output := mkdir_output w;
     button_wait := button_wait w;
     attempt := attempt w;
     run_tool := run_tool w;
     rename_failure := rename_failure w;
     unlink_failure := unlink_failure w |}.

Definition engine_error : Thrown :=
  Other "Error" "Target page, context or browser has been closed".

Definition timeout_error : Thrown :=
  Other "TimeoutError" "Timeout 15000ms exceeded".

(** The engine fails to close the context. *)
Definition close_fails : World :=
  with_engine smooth (Ok tt) (Throw engine_error) (Ok tt).

(** The engine starts but cannot open a page. *)
Definition page_never_opens : World :=
  with_engine smooth (Throw engine_error) (Ok tt) (Ok tt).

(** The download button never shows. *)
Definition button_never_shows : World :=
  with_engine smooth (Ok tt) (Ok tt) (Throw timeout_error).

(** The first evaluation on the page fails. *)
Definition first_check_fails : World :=
  world (Throw engine_error)
        (fun _ => ("https://gemini.google.com/app", Ok chat_page))
        (fun _ => image_poll) (fun _ => working_attempt) idle_tool.

(** A consent page whose button click fails. *)
Definition consent_click_fails : World :=
  with_consent smooth (Ok true) (Throw engine_error).

(** The image never renders. *)
Definition never_renders : World :=
  world (Ok chat_page) (fun _ => ("https://gemini.google.com/app", Ok chat_page))
        (fun _ => waiting_poll) (fun _ => working_attempt) idle_tool.

(** The page text cannot be read at the second poll. *)
Definition text_unreadable : World :=
  world (Ok chat_page) (fun _ => ("https://gemini.google.com/app", Ok chat_page))
        (fun k => match k with
                  | O => waiting_poll
                  | _ => {| body_text := Throw engine_error;
                            image_visible := Ok true; latency := 0 |}
                  end)
        (fun _ => working_attempt) idle_tool.

(** A click that triggers no download. *)
Definition dead_click : Attempt :=
  {| primary_visible := Ok true; primary_click := Ok tt;
     fallback_visible := Ok false; fallback_click := Ok tt;
     download_event := None |}.

(** Only the generic download button is there. *)
Definition generic_button : Attempt :=
  {| primary_visible := Ok false; primary_click := Ok tt;
     fallback_visible := Ok true; fallback_click := Ok tt;
     download_event := Some png_download |}.

(** The first click triggers nothing, the second one the download. *)
Definition second_click_works : World :=
  world (Ok chat_page) (fun _ => ("https://gemini.google.com/app", Ok chat_page))
        (fun _ => image_poll)
        (fun k => match k with O => dead_click | _ => working_attempt end)
        idle_tool.

Definition only_generic_button : World :=
  world (Ok chat_page) (fun _ => ("https://gemini.google.com/app", Ok chat_page))
        (fun _ => image_poll) (fun _ => generic_button) idle_tool.

(** A download the engine reports as failed. *)
Definition canceled_download : Download :=
  {| content := [Byte.x89; Byte.x50]; save_result := Ok tt;
     failure := Some "canceled" |}.

Definition download_canceled : World :=
  world (Ok chat_page) (fun _ => ("https://gemini.google.com/app", Ok chat_page))
        (fun _ => image_poll)
        (fun _ => {| primary_visible := Ok true; primary_click := Ok tt;
                     fallback_visible := Ok false; fallback_click := Ok tt;
                     download_event := Some canceled_download |})
        idle_tool.

(** A client that was never connected. *)
Definition unconnected : St := Lib.start ∅ 0.

(** A frame header in the last nine bytes of a file. *)
Definition frame_header_at_end : list Byte.byte :=
  [Byte.xff; Byte.xd8; Byte.x00;
   Byte.xff; Byte.xc0; Byte.x00; Byte.x11; Byte.x08;
   Byte.x01; Byte.xe0; Byte.x02; Byte.x80].

(** A file cut off after the PNG signature and the chunk length. *)
Definition png_cut_short : list Byte.byte :=
  [Byte.x89; Byte.x50; Byte.x4e; Byte.x47; Byte.x0d; Byte.x0a; Byte.x1a; Byte.x0a;
   Byte.x00; Byte.x00; Byte.x00; Byte.x0d].

End ScenarioMore.

(** * Facts *)

Module ErrorsFacts.
Import Errors Spec.

Lemma last_char_cons (c : ascii) (r : string) :
  r <> EmptyString -> Js.last_char (String c r) = Js.last_char r.
Proof. destruct r; [congruence | reflexivity]. Qed.

Lemma last_char_app (s1 s2 : string) :
  s2 <> EmptyString -> Js.last_char (s1 ++ s2) = Js.last_char s2.
Proof.
  intros Hne. induction s1 as [|c s1 IH]; [reflexivity|].
  change (String c s1 ++ s2) with (String c (s1 ++ s2)).
  rewrite last_char_cons; [exact IH|].
  destruct s1; cbn; [exact Hne | discriminate].
Qed.

Lemma includes_cons (needle : string) (c : ascii) (rest : string) :
  Js.includes needle (String c rest)
  = if String.prefix needle (String c rest) then true
    else Js.includes needle rest.
Proof. reflexivity. Qed.

Lemma includes_app_r (needle s1 s2 : string) :
  Js.includes needle s2 = true -> Js.includes needle (s1 ++ s2) = true.
Proof.
  intros H. induction s1 as [|c s1 IH]; [exact H|].
  change (String c s1 ++ s2) with (String c (s1 ++ s2)).
  rewrite includes_cons, IH.
  destruct (String.prefix needle (String c (s1 ++ s2))); reflexivity.
Qed.

(** C9, as amended: [getErrorGuidance] is a function of the error alone.
    For each of the codes AUTH_ERROR, GENERATION_ERROR and BROWSER_ERROR it
    returns the error's message followed by the recovery steps of that
    kind: a text of several lines, and never the same text for two
    different kinds.  For a [GeminiError] with any other code it returns
    the error's own message, and for a value that is not a [GeminiError]
    the fixed text "An unexpected error occurred. Please try again.". *)
Theorem getErrorGuidance_cases (name message code : string) :
  (code = "AUTH_ERROR" ->
     getErrorGuidance (Gemini name message code) = message ++ auth_steps)
  /\ (code = "GENERATION_ERROR" ->
     getErrorGuidance (Gemini name message code) = message ++ generation_steps)
  /\ (code = "BROWSER_ERROR" ->
     getErrorGuidance (Gemini name message code) = message ++ browser_steps)
  /\ (recognised (Gemini name message code) = true ->
      multi_line (getErrorGuidance (Gemini name message code)) = true)
  /\ (forall name' message' code',
        recognised (Gemini name message code) = true ->
        recognised (Gemini name' message' code') = true ->
        code <> code' ->
        getErrorGuidance (Gemini name message code)
        <> getErrorGuidance (Gemini name' message' code'))
  /\ (recognised (Gemini name message code) = false ->
      getErrorGuidance (Gemini name message code) = message)
  /\ getErrorGuidance (Other name message) = unexpected_text.
Proof.
  assert (Hlast : forall n m c, recognised (Gemini n m c) = true ->
            (c = "AUTH_ERROR" /\ Js.last_char (getErrorGuidance (Gemini n m c)) = Some "e"%char)
            \/ (c = "GENERATION_ERROR" /\ Js.last_char (getErrorGuidance (Gemini n m c)) = Some "i"%char)
            \/ (c = "BROWSER_ERROR" /\ Js.last_char (getErrorGuidance (Gemini n m c)) = Some "n"%char)).
  { intros n m c Hr. unfold recognised in Hr. cbn [code_of] in Hr.
    cbn [getErrorGuidance].
    destruct (String.eqb c "AUTH_ERROR") eqn:H1; [apply String.eqb_eq in H1; subst c|].
    { left. split; [reflexivity|]. rewrite last_char_app; [reflexivity|discriminate]. }
    destruct (String.eqb c "GENERATION_ERROR") eqn:H2; [apply String.eqb_eq in H2; subst c|].
    { right; left. split; [reflexivity|]. rewrite last_char_app; [reflexivity|discriminate]. }
    destruct (String.eqb c "BROWSER_ERROR") eqn:H3; [apply String.eqb_eq in H3; subst c|].
    { right; right. split; [reflexivity|]. rewrite last_char_app; [reflexivity|discriminate]. }
    discriminate Hr. }
  repeat split.
  - intros ->. reflexivity.
  - intros ->. reflexivity.
  - intros ->. reflexivity.
  - intros Hr. unfold recognised in Hr. cbn [code_of] in Hr.
    unfold multi_line. cbn [getErrorGuidance].
    destruct (String.eqb code "AUTH_ERROR"); [apply includes_app_r; reflexivity|].
    destruct (String.eqb code "GENERATION_ERROR"); [apply includes_app_r; reflexivity|].
    destruct (String.eqb code "BROWSER_ERROR"); [apply includes_app_r; reflexivity|].
    discriminate Hr.
  - intros n' m' c' Hr Hr' Hne Heq.
    apply Hlast in Hr. apply Hlast in Hr'. rewrite Heq in Hr.
    destruct Hr as [[-> Hr]|[[-> Hr]|[-> Hr]]];
      destruct Hr' as [[-> Hr']|[[-> Hr']|[-> Hr']]];
      try congruence.
  - intros Hr. unfold recognised in Hr. cbn [code_of] in Hr.
    cbn [getErrorGuidance].
    destruct (String.eqb code "AUTH_ERROR"); [discriminate|].
    destruct (String.eqb code "GENERATION_ERROR"); [discriminate|].
    destruct (String.eqb code "BROWSER_ERROR"); [discriminate|].
    reflexivity.
Qed.

Lemma getErrorGuidance_cases_witness :
  getErrorGuidance (AuthenticationError "Login timeout after 5 minutes.")
  = ("Login timeout after 5 minutes." ++ auth_steps)%string
  /\ getErrorGuidance (GeminiError "disk full" "IO_ERROR") = "disk full"
  /\ getErrorGuidance (GenerationError "Image generation failed")
     <> getErrorGuidance (BrowserError "Image generation failed").
Proof.
  destruct (getErrorGuidance_cases "AuthenticationError"
              "Login timeout after 5 minutes." "AUTH_ERROR")
    as [Hauth _].
  destruct (getErrorGuidance_cases "GeminiError" "disk full" "IO_ERROR")
    as [_ [_ [_ [_ [_ [Hother _]]]]]].
  destruct (getErrorGuidance_cases "GenerationError" "Image generation failed"
              "GENERATION_ERROR")
    as [_ [_ [_ [_ [Hdistinct _]]]]].
  split; [apply Hauth; reflexivity|].
  split; [apply Hother; reflexivity|].
  apply Hdistinct; [reflexivity|reflexivity|discriminate].
Defined.

(** C9, as stated, fails: a [GeminiError] with a code of its own and a
    plain [Error] are both unrecognised, yet they do not get one default
    text -- the first gets its own message back. *)
Lemma no_single_default_text :
  ~ (exists generic,
       forall e, recognised e = false -> getErrorGuidance e = generic).
Proof.
  intros [generic H].
  pose proof (H (GeminiError "disk full" "IO_ERROR") eq_refl) as H1.
  pose proof (H (PlainError "disk full") eq_refl) as H2.
  rewrite <- H2 in H1. discriminate H1.
Qed.

End ErrorsFacts.

(** ** Reasoning about runs *)

Module RunFacts.
Import Errors Run Env Spec.

Lemma bind_ok {S A B : Type} (m : M S A) (k : A -> M S B) s a s1 :
  m s = (Ok a, s1) -> bind m k s = k a s1.
Proof. intros H. unfold bind. rewrite H. reflexivity. Qed.

Lemma bind_throw {S A B : Type} (m : M S A) (k : A -> M S B) s e s1 :
  m s = (Throw e, s1) -> bind m k s = (Throw e, s1).
Proof. intros H. unfold bind. rewrite H. reflexivity. Qed.

Section Frame.
Variable R : St -> St -> Prop.
Hypothesis R_refl : forall s, R s s.
Hypothesis R_trans : forall a b c, R a b -> R b c -> R a c.

Lemma preserves_ret {A : Type} (a : A) : preserves R (ret a).
Proof. intros s. apply R_refl. Qed.

Lemma preserves_throw {A : Type} (e : Thrown) : preserves R (@throw St A e).
Proof. intros s. apply R_refl. Qed.

Lemma preserves_answer {A : Type} (r : Res A) : preserves R (answer r).
Proof. intros s. apply R_refl. Qed.

Lemma preserves_get : preserves R (@get St).
Proof. intros s. apply R_refl. Qed.

Lemma preserves_bind {A B : Type} (m : M St A) (k : A -> M St B) :
  preserves R m -> (forall a, preserves R (k a)) -> preserves R (bind m k).
Proof.
  intros Hm Hk s. unfold bind. specialize (Hm s).
  destruct (m s) as [[a|e] s1]; cbn in *; [|exact Hm].
  eapply R_trans; [exact Hm | apply Hk].
Qed.

Lemma preserves_try_catch {A : Type} (m : M St A) (h : Thrown -> M St A) :
  preserves R m -> (forall e, preserves R (h e)) -> preserves R (try_catch m h).
Proof.
  intros Hm Hh s. unfold try_catch. specialize (Hm s).
  destruct (m s) as [[a|e] s1]; cbn in *; [exact Hm|].
  eapply R_trans; [exact Hm | apply Hh].
Qed.

Lemma preserves_or_default {A : Type} (m : M St A) (d : A) :
  preserves R m -> preserves R (or_default m d).
Proof.
  intros Hm. apply preserves_try_catch; [exact Hm|].
  intros e. apply preserves_ret.
Qed.

Lemma preserves_try_finally {A : Type} (m : M St A) (fin : M St unit) :
  preserves R m -> preserves R fin -> preserves R (try_finally m fin).
Proof.
  intros Hm Hf s. unfold try_finally. specialize (Hm s).
  destruct (m s) as [r s1]. specialize (Hf s1).
  destruct (fin s1) as [[u|e] s2]; cbn in *; eapply R_trans; eauto.
Qed.

Lemma preserves_if {A : Type} (b : bool) (m1 m2 : M St A) :
  preserves R m1 -> preserves R m2 -> preserves R (if b then m1 else m2).
Proof. destruct b; auto. Qed.

Hypothesis R_emit : forall s ev,
  R s {| browser := browser s; clock := clock s; files := files s;
         trace := trace s ++ [ev] |}.
Hypothesis R_advance : forall s ms,
  R s {| browser := browser s; clock := clock s + ms; files := files s;
         trace := trace s |}.
Hypothesis R_files : forall s fs,
  R s {| browser := browser s; clock := clock s; files := fs;
         trace := trace s |}.

Lemma preserves_emit (ev : Event) : preserves R (emit ev).
Proof. intros s. apply R_emit. Qed.

Lemma preserves_advance (ms : Z) : preserves R (advance ms).
Proof. intros s. apply R_advance. Qed.

Lemma preserves_set_files fs : preserves R (set_files fs).
Proof. intros s. apply R_files. Qed.

Lemma preserves_interact {A : Type} (ev : Event) (r : Res A) :
  preserves R (interact ev r).
Proof.
  apply preserves_bind; [apply preserves_emit|].
  intros _. apply preserves_answer.
Qed.

Lemma preserves_waitForTimeout (ms : Z) : preserves R (waitForTimeout ms).
Proof.
  apply preserves_bind; [apply preserves_emit|].
  intros _. apply preserves_advance.
Qed.

Lemma preserves_page : preserves R Browser.page.
Proof.
  apply preserves_bind; [apply preserves_get|].
  intros s. destruct (_page (browser s)); [apply preserves_ret|apply preserves_throw].
Qed.

(** One step of a frame proof: split the run at its outermost combinator. *)
Ltac frame_step :=
  first
    [ apply preserves_ret
    | apply preserves_throw
    | apply preserves_answer
    | apply preserves_get
    | apply preserves_emit
    | apply preserves_advance
    | apply preserves_set_files
    | apply preserves_interact
    | apply preserves_waitForTimeout
    | apply preserves_page
    | apply preserves_or_default
    | apply preserves_bind; [|intros ?]
    | apply preserves_try_catch; [|intros ?]
    | match goal with
      | |- preserves _ (if ?b then _ else _) => destruct b
      | |- preserves _ (match ?x with _ => _ end) => destruct x
      end ].

Ltac frame := repeat frame_step.

Import Node Client.

Lemma preserves_readUInt32BE buf off : preserves R (@readUInt32BE St buf off).
Proof. unfold readUInt32BE. frame. Qed.

Lemma preserves_readUInt16BE buf off : preserves R (@readUInt16BE St buf off).
Proof. unfold readUInt16BE. frame. Qed.

Lemma preserves_existsSync path : preserves R (existsSync path).
Proof. unfold existsSync. frame. Qed.

Lemma preserves_readPrefix path n : preserves R (readPrefix path n).
Proof. unfold readPrefix. frame. Qed.

Lemma preserves_readFileSync path : preserves R (readFileSync path).
Proof. unfold readFileSync. frame. Qed.

Lemma preserves_statSize path : preserves R (statSize path).
Proof. unfold statSize. frame. Qed.

Lemma preserves_renameSync w src dst : preserves R (renameSync w src dst).
Proof. unfold renameSync. frame. Qed.

Lemma preserves_unlinkSync w path : preserves R (unlinkSync w path).
Proof. unfold unlinkSync. frame. Qed.

Variable w : World.

Lemma preserves_login_loop n i : preserves R (login_loop w n i).
Proof.
  revert i. induction n as [|n IH]; intros i; cbn [login_loop]; frame.
  apply IH.
Qed.

Lemma preserves_ensureLoggedIn : preserves R (ensureLoggedIn w).
Proof. unfold ensureLoggedIn. apply preserves_bind; [apply preserves_page|intros _]. apply preserves_bind; [apply preserves_interact|intros v]. destruct (login_check v); [apply preserves_ret|apply preserves_login_loop]. Qed.

Lemma preserves_handleCookieConsent : preserves R (handleCookieConsent w).
Proof. unfold handleCookieConsent. frame. Qed.

Lemma preserves_dismissOverlays : preserves R (dismissOverlays w).
Proof. unfold dismissOverlays. frame. Qed.

Lemma preserves_gen_loop fuel T t0 k : preserves R (gen_loop w fuel T t0 k).
Proof.
  revert k. induction fuel as [|fuel IH]; intros k s; cbn [gen_loop];
    destruct (clock s - t0 <? T); cbn [snd]; try apply R_refl.
  revert s.
  change (preserves R
    (waitForTimeout 3000 ;;;
     text <- interact (EvEvaluate RefusalCheck) (body_text (gen_poll w k)) ;;
     advance (Z.of_N (latency (gen_poll w k))) ;;;
     match refusal_check text with
     | Some refusal => throw (GenerationError refusal)
     | None =>
         found <- or_default
                    (interact (EvIsVisible image_selector)
                              (image_visible (gen_poll w k))) false ;;
         if found then ret true else gen_loop w fuel T t0 (S k)
     end)%run).
  frame. apply IH.
Qed.

Lemma preserves_clickDownloadButton k : preserves R (clickDownloadButton w k).
Proof. unfold clickDownloadButton. frame. Qed.

Lemma preserves_download_attempt k : preserves R (download_attempt w k).
Proof.
  unfold download_attempt.
  apply preserves_bind; [apply preserves_emit|intros _].
  apply preserves_bind; [apply preserves_clickDownloadButton|intros _].
  frame.
Qed.

Lemma preserves_download_loop n k : preserves R (download_loop w n k).
Proof.
  revert k. induction n as [|n IH]; intros k; cbn [download_loop].
  - apply preserves_throw.
  - apply preserves_bind; [|intros [d|]; [apply preserves_ret|apply IH]].
    apply preserves_try_catch.
    + apply preserves_bind; [apply preserves_download_attempt|intros d].
      apply preserves_ret.
    + intros _. destruct (k =? 0)%nat; frame.
Qed.

Lemma preserves_scan_sof0 buf count i : preserves R (scan_sof0 buf count i).
Proof.
  revert i. induction count as [|count IH]; intros i; cbn [scan_sof0].
  - frame.
  - destruct (_ && _); [|apply IH].
    apply preserves_bind; [apply preserves_readUInt16BE|intros ?].
    apply preserves_bind; [apply preserves_readUInt16BE|intros ?].
    frame.
Qed.

Lemma preserves_read_dimensions path : preserves R (read_dimensions path).
Proof.
  unfold read_dimensions.
  apply preserves_bind; [apply preserves_readPrefix|intros header].
  destruct (_ && _).
  - apply preserves_bind; [apply preserves_readUInt32BE|intros ?].
    apply preserves_bind; [apply preserves_readUInt32BE|intros ?].
    frame.
  - apply preserves_bind; [apply preserves_readFileSync|intros ?].
    apply preserves_scan_sof0.
Qed.

Lemma preserves_getImageDimensions path : preserves R (getImageDimensions path).
Proof.
  unfold getImageDimensions.
  apply preserves_bind; [|intros ?; frame].
  apply preserves_try_catch; [apply preserves_read_dimensions|intros ?; frame].
Qed.

Lemma preserves_execFileAsync input output :
  preserves R (execFileAsync w input output).
Proof. unfold execFileAsync. frame. Qed.

Lemma preserves_removeWatermark path : preserves R (removeWatermark w path).
Proof.
  unfold removeWatermark.
  apply preserves_bind; [apply preserves_existsSync|intros present].
  destruct (negb present); [frame|].
  apply preserves_try_catch.
  - apply preserves_bind; [apply preserves_execFileAsync|intros _].
    apply preserves_bind; [apply preserves_existsSync|intros cleaned].
    destruct cleaned; [apply preserves_renameSync|frame].
  - intros _.
    apply preserves_bind; [apply preserves_existsSync|intros partial].
    destruct partial; [apply preserves_unlinkSync|frame].
Qed.

Lemma preserves_saveAs d path : preserves R (saveAs d path).
Proof. unfold saveAs. frame. Qed.

Lemma preserves_generateImage prompt out options :
  preserves R (Client.generateImage w prompt out options).
Proof.
  unfold Client.generateImage.
  apply preserves_bind; [apply preserves_page|intros _].
  apply preserves_bind; [apply preserves_interact|intros _].
  apply preserves_bind; [apply preserves_waitForTimeout|intros _].
  apply preserves_bind; [apply preserves_dismissOverlays|intros _].
  apply preserves_bind; [apply preserves_interact|intros _].
  apply preserves_bind; [apply preserves_interact|intros _].
  apply preserves_bind; [apply preserves_waitForTimeout|intros _].
  apply preserves_bind; [apply preserves_interact|intros _].
  apply preserves_bind; [apply preserves_get|intros s0].
  apply preserves_bind; [apply preserves_gen_loop|intros found].
  destruct (negb found); [apply preserves_throw|].
  apply preserves_bind; [destruct (output_dir_exists w); frame|intros _].
  apply preserves_bind; [apply preserves_interact|intros _].
  apply preserves_bind; [apply preserves_waitForTimeout|intros _].
  apply preserves_bind; [apply preserves_download_loop|intros d].
  apply preserves_bind; [apply preserves_saveAs|intros _].
  apply preserves_bind; [destruct (Js.truthy_opt_string _); frame|intros _].
  apply preserves_bind; [apply preserves_removeWatermark|intros _].
  apply preserves_bind; [apply preserves_statSize|intros _].
  apply preserves_bind; [apply preserves_getImageDimensions|intros dims].
  apply preserves_ret.
Qed.

(** Everything [GeminiClient.connect] does once the browser is up. *)
Lemma preserves_after_browser_connect :
  preserves R
    (Browser.page ;;;
     interact (EvGoto GEMINI_URL) (goto_connect w) ;;;
     waitForTimeout 3000 ;;;
     handleCookieConsent w ;;;
     ensureLoggedIn w)%run.
Proof.
  apply preserves_bind; [apply preserves_page|intros _].
  apply preserves_bind; [apply preserves_interact|intros _].
  apply preserves_bind; [apply preserves_waitForTimeout|intros _].
  apply preserves_bind; [apply preserves_handleCookieConsent|intros _].
  apply preserves_ensureLoggedIn.
Qed.

End Frame.

End RunFacts.

(** ** browser.ts and lib.ts: connection life cycle *)

Module BrowserFacts.
Import Errors Run Env Types Client Spec RunFacts.
Local Open Scope list_scope.

Lemma same_browser_trans a b c :
  same_browser a b -> same_browser b c -> same_browser a c.
Proof. unfold same_browser. congruence. Qed.

Lemma grows_refl s : grows s s.
Proof. exists []. symmetry. apply app_nil_r. Qed.

Lemma grows_trans a b c : grows a b -> grows b c -> grows a c.
Proof.
  intros [e1 H1] [e2 H2]. exists (e1 ++ e2).
  rewrite H2, H1. symmetry. apply app_assoc.
Qed.

Lemma grows_emit s ev :
  grows s {| browser := browser s; clock := clock s; files := files s;
             trace := trace s ++ [ev] |}.
Proof. exists [ev]. reflexivity. Qed.

Lemma grows_same_trace s s' : trace s' = trace s -> grows s s'.
Proof. intros H. exists []. rewrite H. symmetry. apply app_nil_r. Qed.

(** The client code below [GeminiBrowser] leaves the browser fields alone. *)
Lemma client_generateImage_same_browser w prompt out options s :
  browser (snd (Client.generateImage w prompt out options s)) = browser s.
Proof.
  apply (preserves_generateImage same_browser); unfold same_browser;
    try reflexivity; congruence.
Qed.

Lemma after_browser_connect_same_browser w s :
  browser (snd ((Browser.page ;;;
                 interact (EvGoto GEMINI_URL) (goto_connect w) ;;;
                 waitForTimeout 3000 ;;;
                 handleCookieConsent w ;;;
                 ensureLoggedIn w)%run s)) = browser s.
Proof.
  apply (preserves_after_browser_connect same_browser); unfold same_browser;
    try reflexivity; congruence.
Qed.

Lemma client_generateImage_grows w prompt out options s :
  grows s (snd (Client.generateImage w prompt out options s)).
Proof.
  apply (preserves_generateImage grows);
    intros; try (apply grows_same_trace; reflexivity);
    eauto using grows_refl, grows_trans, grows_emit.
Qed.

Lemma after_browser_connect_grows w s :
  grows s (snd ((Browser.page ;;;
                 interact (EvGoto GEMINI_URL) (goto_connect w) ;;;
                 waitForTimeout 3000 ;;;
                 handleCookieConsent w ;;;
                 ensureLoggedIn w)%run s)).
Proof.
  apply (preserves_after_browser_connect grows);
    intros; try (apply grows_same_trace; reflexivity);
    eauto using grows_refl, grows_trans, grows_emit.
Qed.

Lemma close_pages_grows w n i s : grows s (snd (Browser.close_pages w n i s)).
Proof.
  revert i s. induction n as [|n IH]; intros i s; cbn [Browser.close_pages].
  - apply grows_refl.
  - unfold bind, interact, emit, answer, modify. cbn.
    destruct (close_existing w i); cbn.
    + eapply grows_trans; [|apply IH]. apply grows_emit.
    + apply grows_emit.
Qed.

Lemma close_pages_context w n i s :
  context (browser (snd (Browser.close_pages w n i s))) = context (browser s)
  /\ _page (browser (snd (Browser.close_pages w n i s))) = _page (browser s).
Proof.
  revert i s. induction n as [|n IH]; intros i s; cbn [Browser.close_pages].
  - split; reflexivity.
  - unfold bind, interact, emit, answer, modify. cbn.
    destruct (close_existing w i); cbn; [|split; reflexivity].
    match goal with |- context [Browser.close_pages w n (S i) ?s1] =>
      exact (IH (S i) s1) end.
Qed.

Lemma browser_connect_launch w headless s :
  launches w ->
  context (browser (snd (Browser.connect w headless s))) = Some TheContext
  /\ exists rest,
       trace (snd (Browser.connect w headless s))
       = trace s ++ before_launch w (userDataDir (browser s))
         ++ EvLaunch (userDataDir (browser s)) (Js.nullish headless false)
         :: rest.
Proof.
  intros [Hdir [tabs Hlaunch]].
  unfold Browser.connect, before_launch, bind, interact, emit, answer,
    modify, set_browser, get, ret.
  cbn.
  destruct (profile_dir_exists w);
    [|destruct Hdir as [Hdir|Hdir]; [discriminate|rewrite Hdir]];
    cbn; rewrite Hlaunch; cbn.
  all: match goal with |- context [Browser.close_pages ?w0 ?n 0 ?s2] =>
         destruct (close_pages_grows w0 n 0 s2) as [evs Hevs];
         destruct (close_pages_context w0 n 0 s2) as [Hctx _];
         destruct (Browser.close_pages w0 n 0 s2) as [[u|e] s3]
       end; cbn in Hevs, Hctx |- *.
  all: try destruct (new_page w); cbn.
  all: split; [first [reflexivity | exact Hctx]|].
  all: eexists; rewrite ?Hevs; rewrite <- ?app_assoc; cbn; reflexivity.
Qed.

Lemma browser_connect_pages w headless s :
  _page (browser s) = None ->
  page_within_context (browser (snd (Browser.connect w headless s))).
Proof.
  intros Hpage.
  unfold Browser.connect, page_within_context, bind, interact, emit, answer,
    modify, set_browser, get, ret.
  cbn.
  destruct (profile_dir_exists w); [|destruct (mkdir_profile w)]; cbn;
    try (intros _; exact Hpage).
  all: destruct (launch w) as [tabs|e]; cbn; try (intros _; exact Hpage).
  all: match goal with |- context [Browser.close_pages ?w0 ?n 0 ?s2] =>
         destruct (close_pages_context w0 n 0 s2) as [Hctx _];
         destruct (Browser.close_pages w0 n 0 s2) as [[u|e] s3]
       end; cbn in Hctx |- *.
  all: try destruct (new_page w); cbn; try discriminate.
  all: rewrite Hctx; discriminate.
Qed.

Lemma bind_tail {A B : Type} (R : St -> St -> Prop) (m : M St A)
    (k : A -> M St B) (s : St) :
  (forall s0, R s0 s0) ->
  (forall a, preserves R (k a)) ->
  R (snd (m s)) (snd (bind m k s)).
Proof.
  intros Hrefl Hk. unfold bind. destruct (m s) as [[a|e] s1]; cbn.
  - apply Hk.
  - apply Hrefl.
Qed.

Lemma try_finally_snd {A : Type} (m : M St A) (fin : M St unit) (s : St) :
  snd (try_finally m fin s) = snd (fin (snd (m s))).
Proof.
  unfold try_finally. destruct (m s) as [r s1]. cbn.
  destruct (fin s1) as [[u|e] s2]; reflexivity.
Qed.

Lemma disconnect_grows w s : grows s (snd (Browser.disconnect w s)).
Proof.
  unfold Browser.disconnect, bind, interact, emit, answer, modify,
    set_browser, get, ret.
  cbn. destruct (context (browser s)); cbn; [|apply grows_refl].
  destruct (context_close w); cbn; exists [EvContextClose]; reflexivity.
Qed.

Lemma disconnect_closes w s :
  context_close w = Ok tt ->
  context (browser (snd (Browser.disconnect w s))) = None
  /\ (page_within_context (browser s) ->
      _page (browser (snd (Browser.disconnect w s))) = None).
Proof.
  intros Hclose.
  unfold Browser.disconnect, page_within_context, bind, interact, emit,
    answer, modify, set_browser, get, ret.
  cbn. destruct (context (browser s)) eqn:Hctx; cbn.
  - rewrite Hclose. cbn. split; reflexivity.
  - rewrite Hctx. split; [reflexivity|]. intros H. apply H. reflexivity.
Qed.

Lemma disconnect_last_event w s :
  context (browser s) = Some TheContext ->
  last (trace (snd (Browser.disconnect w s))) = Some EvContextClose.
Proof.
  intros Hctx.
  unfold Browser.disconnect, bind, interact, emit, answer, modify,
    set_browser, get, ret.
  cbn. rewrite Hctx. cbn.
  destruct (context_close w); cbn; apply last_snoc.
Qed.

(** The state in which the [finally] block of [generateImage] starts has
    the browser fields [GeminiBrowser.connect] left. *)
Lemma body_browser w prompt out options s :
  browser (snd ((Client.connect w (headless options) ;;;
                 Client.generateImage w prompt out options)%run s))
  = browser (snd (Browser.connect w (headless options) s)).
Proof.
  change (same_browser
            (snd (Browser.connect w (headless options) s))
            (snd ((Client.connect w (headless options) ;;;
                   Client.generateImage w prompt out options)%run s))).
  apply same_browser_trans
    with (b := snd (Client.connect w (headless options) s)).
  - unfold Client.connect.
    apply (bind_tail same_browser); [reflexivity|].
    intros _ s1. apply after_browser_connect_same_browser.
  - apply (bind_tail same_browser); [reflexivity|].
    intros _ s1. apply client_generateImage_same_browser.
Qed.

Lemma body_grows w prompt out options s :
  grows (snd (Browser.connect w (headless options) s))
        (snd ((Client.connect w (headless options) ;;;
               Client.generateImage w prompt out options)%run s)).
Proof.
  apply grows_trans
    with (b := snd (Client.connect w (headless options) s)).
  - unfold Client.connect.
    apply (bind_tail grows); [apply grows_refl|].
    intros _ s1. apply after_browser_connect_grows.
  - apply (bind_tail grows); [apply grows_refl|].
    intros _ s1. apply client_generateImage_grows.
Qed.

Lemma lib_generateImage_unfold w prompt out options fs now :
  Lib.generateImage w prompt out options (Lib.start fs now)
  = try_finally
      (Client.connect w (headless options) ;;;
       Client.generateImage w prompt out options)%run
      (Client.disconnect w) (fresh_client w fs now).
Proof. reflexivity. Qed.

(** C7, as amended: with no page handle held -- on a new [GeminiBrowser],
    or after a [disconnect] that went through -- reading [page] throws a
    plain [Error] with the message "Not connected - call connect() first";
    it is not a [GeminiError] and carries no code. *)
Theorem page_needs_connection (w : World) (s : St) :
  (_page (browser s) = None
   \/ exists s0, page_within_context (browser s0)
                 /\ Browser.disconnect w s0 = (Ok tt, s)
                 /\ context_close w = Ok tt) ->
  Browser.page s
  = (Throw (PlainError "Not connected - call connect() first"), s)
  /\ isGeminiError (PlainError "Not connected - call connect() first") = false
  /\ code_of (PlainError "Not connected - call connect() first") = None.
Proof.
  intros H.
  assert (Hpage : _page (browser s) = None).
  { destruct H as [H|[s0 [Hinv [Hdis Hclose]]]]; [exact H|].
    destruct (disconnect_closes w s0 Hclose) as [_ Hp].
    rewrite Hdis in Hp. apply Hp. exact Hinv. }
  unfold Browser.page, bind, get. cbn. rewrite Hpage.
  repeat split.
Qed.

Lemma page_needs_connection_witness :
  Browser.page (snd (Browser.disconnect Scenario.smooth (Scenario.connected ∅)))
  = (Throw (PlainError "Not connected - call connect() first"),
     snd (Browser.disconnect Scenario.smooth (Scenario.connected ∅))).
Proof.
  apply (page_needs_connection Scenario.smooth).
  right. exists (Scenario.connected ∅).
  split; [|split].
  - unfold page_within_context. cbn. discriminate.
  - reflexivity.
  - reflexivity.
Defined.

(** C7, as stated, fails on a client that was never connected: the error
    of the [page] getter does not have the code BROWSER_ERROR. *)
Lemma page_error_is_not_a_browser_error :
  ~ (exists e s',
       Browser.page (Lib.start ∅ 0) = (Throw e, s')
       /\ code_of e = Some "BROWSER_ERROR").
Proof.
  intros [e [s' [H Hcode]]]. cbn in H. inversion H; subst e.
  discriminate Hcode.
Qed.

(** C6: with [headless] omitted, [generateImage] of lib.ts starts the
    browser with [headless: false] -- a visible window -- where types.ts
    documents [true] as the default. *)
Theorem omitted_headless_launches_visible (w : World) (prompt out : string)
    (aspect : option string) (tm : option Z)
    (fs : gmap string (list Byte.byte)) (now : Z) :
  launches w ->
  exists rest,
    trace (snd (Lib.generateImage w prompt out
                  {| headless := None; aspectRatio := aspect; timeout := tm |}
                  (Lib.start fs now)))
    = before_launch w (Browser.DEFAULT_PROFILE_DIR w)
      ++ EvLaunch (Browser.DEFAULT_PROFILE_DIR w) false :: rest.
Proof.
  intros Hl. rewrite lib_generateImage_unfold, try_finally_snd.
  set (options := {| headless := None; aspectRatio := aspect; timeout := tm |}).
  destruct (browser_connect_launch w (headless options) (fresh_client w fs now) Hl)
    as [_ [rest Hrest]].
  destruct (body_grows w prompt out options (fresh_client w fs now)) as [e1 H1].
  match goal with |- context [Client.disconnect w ?s1] =>
    destruct (disconnect_grows w s1) as [e2 H2] end.
  unfold Client.disconnect. rewrite H2, H1, Hrest. cbn.
  exists (rest ++ e1 ++ e2).
  rewrite <- !app_assoc. reflexivity.
Qed.

Lemma omitted_headless_launches_visible_witness :
  exists rest,
    trace (snd (Lib.generateImage Scenario.smooth "a red circle" "/tmp/out.png"
                  no_options (Lib.start ∅ 0)))
    = EvLaunch "/home/user/.geminikit/browser-profile" false :: rest.
Proof.
  apply (omitted_headless_launches_visible Scenario.smooth "a red circle"
           "/tmp/out.png" None None ∅ 0).
  split; [left; reflexivity|]. exists 1%nat. reflexivity.
Defined.

(** C8: the top-level [generateImage] closes the browser context on every
    exit path.  Whatever the world answers -- so whether the call returns a
    result or throws at any step -- the call ends with [disconnect] run on
    the state the body stopped in; once the engine has started, closing the
    context is the last interaction of the call; and when the close goes
    through, no context and no page are left. *)
Theorem generateImage_always_disconnects (w : World) (prompt out : string)
    (options : GenerateImageOptions) (fs : gmap string (list Byte.byte))
    (now : Z) :
  let body := (Client.connect w (headless options) ;;;
               Client.generateImage w prompt out options)%run in
  let run := Lib.generateImage w prompt out options (Lib.start fs now) in
  snd run = snd (Client.disconnect w (snd (body (fresh_client w fs now))))
  /\ (launches w -> last (trace (snd run)) = Some EvContextClose)
  /\ (context_close w = Ok tt ->
      context (browser (snd run)) = None /\ _page (browser (snd run)) = None).
Proof.
  cbn zeta. rewrite lib_generateImage_unfold, try_finally_snd.
  split; [reflexivity|]. split.
  - intros Hl. apply disconnect_last_event.
    rewrite body_browser.
    apply (browser_connect_launch w (headless options) _ Hl).
  - intros Hclose.
    destruct (disconnect_closes w
                (snd ((Client.connect w (headless options) ;;;
                       Client.generateImage w prompt out options)%run
                        (fresh_client w fs now))) Hclose) as [Hc Hp].
    split; [exact Hc|]. apply Hp.
    rewrite body_browser. apply browser_connect_pages. reflexivity.
Qed.

Lemma generateImage_always_disconnects_witness :
  last (trace (snd (Lib.generateImage Scenario.never_login "a red circle"
                      "/tmp/out.png" no_options (Lib.start ∅ 0))))
  = Some EvContextClose
  /\ context (browser (snd (Lib.generateImage Scenario.never_login
                              "a red circle" "/tmp/out.png" no_options
                              (Lib.start ∅ 0)))) = None.
Proof.
  destruct (generateImage_always_disconnects Scenario.never_login
              "a red circle" "/tmp/out.png" no_options ∅ 0) as [_ [Hlast Hctx]].
  split.
  - apply Hlast. split; [left; reflexivity|]. exists 1%nat. reflexivity.
  - apply Hctx. reflexivity.
Defined.

End BrowserFacts.

(** ** client.ts: prompt and login wait *)

Module LoginFacts.
Import Errors Run Env Types Client Spec RunFacts.
Local Open Scope list_scope.

Lemma st_eq b (c c' : Z) f (t t' : list Event) :
  c = c' -> t = t' ->
  {| browser := b; clock := c; files := f; trace := t |}
  = {| browser := b; clock := c'; files := f; trace := t' |}.
Proof. intros -> ->. reflexivity. Qed.

Lemma login_loop_step w n i s :
  login_loop w (S n) i s
  = let s1 := {| browser := browser s; clock := clock s + 5000;
                 files := files s; trace := trace s ++ poll_events w i |} in
    if poll_ready w i then (Ok tt, s1) else login_loop w n (S i) s1.
Proof.
  cbn [login_loop]. unfold poll_ready, poll_events.
  unfold bind, waitForTimeout, try_catch, interact, bind, emit, answer,
    advance, modify, ret.
  cbn.
  destruct (Js.includes "gemini.google.com" (login_poll w i).1); cbn.
  - destruct (login_poll w i).2 as [v|e]; cbn.
    + rewrite <- app_assoc. cbn. destruct (has_chat_input v); reflexivity.
    + rewrite <- app_assoc. reflexivity.
  - reflexivity.
Qed.

Lemma login_loop_found w N :
  forall n i s,
    (N < n)%nat ->
    (forall j, (j < N)%nat -> poll_ready w (i + j) = false) ->
    poll_ready w (i + N) = true ->
    login_loop w n i s
    = (Ok tt,
       {| browser := browser s; clock := clock s + 5000 * Z.of_nat (S N);
          files := files s;
          trace := trace s ++ polls_events w (S N) i |}).
Proof.
  induction N as [|N IH]; intros n i s Hlt Hnot Hready.
  - destruct n as [|n]; [lia|]. rewrite login_loop_step. cbn zeta.
    rewrite Nat.add_0_r in Hready. rewrite Hready. cbn [polls_events].
    rewrite app_nil_r. apply f_equal, st_eq; [lia|reflexivity].
  - destruct n as [|n]; [lia|]. rewrite login_loop_step. cbn zeta.
    assert (H0 : poll_ready w i = false).
    { rewrite <- (Nat.add_0_r i). apply Hnot. lia. }
    rewrite H0. rewrite (IH n (S i)).
    + cbn [browser clock files trace].
      change (polls_events w (S (S N)) i)
        with (poll_events w i ++ polls_events w (S N) (S i)).
      rewrite <- app_assoc. apply f_equal, st_eq; [lia|reflexivity].
    + lia.
    + intros j Hj. replace (S i + j)%nat with (i + S j)%nat by lia.
      apply Hnot. lia.
    + replace (S i + N)%nat with (i + S N)%nat by lia. exact Hready.
Qed.

Lemma login_loop_exhausted w n :
  forall i s,
    (forall j, (j < n)%nat -> poll_ready w (i + j) = false) ->
    login_loop w n i s
    = (Throw (AuthenticationError LOGIN_TIMEOUT_MESSAGE),
       {| browser := browser s; clock := clock s + 5000 * Z.of_nat n;
          files := files s;
          trace := trace s ++ polls_events w n i |}).
Proof.
  induction n as [|n IH]; intros i s Hnot.
  - cbn [login_loop polls_events]. unfold throw. rewrite app_nil_r.
    destruct s; cbn. apply f_equal, st_eq; [lia|reflexivity].
  - rewrite login_loop_step. cbn zeta.
    assert (H0 : poll_ready w i = false).
    { rewrite <- (Nat.add_0_r i). apply Hnot. lia. }
    rewrite H0. rewrite (IH (S i)).
    + cbn [browser clock files trace polls_events].
      rewrite <- app_assoc. apply f_equal, st_eq; [lia|reflexivity].
    + intros j Hj. replace (S i + j)%nat with (i + S j)%nat by lia.
      apply Hnot. lia.
Qed.

Lemma ensureLoggedIn_unfold w s v :
  _page (browser s) = Some ThePage ->
  login_initial w = Ok v ->
  ensureLoggedIn w s
  = let s1 := {| browser := browser s; clock := clock s; files := files s;
                 trace := trace s ++ [EvEvaluate LoginCheck] |} in
    if login_check v then (Ok tt, s1) else login_loop w 60 0 s1.
Proof.
  intros Hpage Hinit. unfold ensureLoggedIn. generalize 60%nat. intros n.
  unfold Browser.page, bind, interact, emit, answer, modify, get, ret.
  cbn. rewrite Hpage, Hinit. cbn.
  destruct (login_check v); reflexivity.
Qed.

Lemma polls_made_app (a b : list Event) :
  polls_made (a ++ b) = (polls_made a + polls_made b)%nat.
Proof. unfold polls_made. rewrite List.filter_app, length_app. reflexivity. Qed.

Lemma polls_made_polls_events w n :
  forall i, polls_made (polls_events w n i) = n.
Proof.
  induction n as [|n IH]; intros i; [reflexivity|].
  cbn [polls_events]. rewrite polls_made_app, IH.
  unfold poll_events.
  destruct (Js.includes "gemini.google.com" (login_poll w i).1); reflexivity.
Qed.

(** C2, as amended: when the first check reports "not logged in", the
    driver polls every 5 seconds, at most 60 times.  A poll is ready when
    the page URL contains the text "gemini.google.com" -- anywhere in it,
    not only as its host -- and the evaluation reports a chat input; polls
    that fail to evaluate count as "not yet".  If poll N + 1 <= 60 is the
    first ready one, [ensureLoggedIn] returns at that poll, after N + 1
    polls; if none of the 60 polls is ready, it throws an
    [AuthenticationError] (code AUTH_ERROR) with the message "Login timeout
    after 5 minutes." (with the full stop), after 60 polls. *)
Theorem ensureLoggedIn_polls (w : World) (s : St) (v : PageView)
    (sc : option nat) :
  _page (browser s) = Some ThePage ->
  login_initial w = Ok v ->
  login_check v = false ->
  LoginScenario w sc ->
  ensureLoggedIn w s = (scenario_outcome sc, after_polls w s (scenario_polls sc))
  /\ polls_made (trace (after_polls w s (scenario_polls sc)))
     = (polls_made (trace s) + scenario_polls sc)%nat
  /\ (scenario_polls sc <= 60)%nat
  /\ clock (after_polls w s (scenario_polls sc))
     = clock s + 5000 * Z.of_nat (scenario_polls sc)
  /\ code_of (AuthenticationError "Login timeout after 5 minutes.")
     = Some "AUTH_ERROR"
  /\ (forall i, poll_ready w i = true <->
                Js.includes "gemini.google.com" (fst (login_poll w i)) = true
                /\ exists v', snd (login_poll w i) = Ok v'
                              /\ has_chat_input v' = true).
Proof.
  intros Hpage Hinit Hcheck Hsc. split; [|split; [|split; [|split; [|split]]]].
  - rewrite (ensureLoggedIn_unfold w s v Hpage Hinit), Hcheck.
    destruct Hsc as [N Hlt Hnot Hready|Hnot]; cbn [scenario_outcome scenario_polls].
    + rewrite (login_loop_found w N); [|exact Hlt|exact Hnot|exact Hready].
      unfold after_polls. cbn [browser clock files trace].
      rewrite <- app_assoc. reflexivity.
    + rewrite (login_loop_exhausted w 60); [|exact Hnot].
      unfold after_polls. cbn [browser clock files trace].
      rewrite <- app_assoc. reflexivity.
  - unfold after_polls. cbn [trace].
    change (EvEvaluate LoginCheck :: polls_events w (scenario_polls sc) 0)
      with ([EvEvaluate LoginCheck] ++ polls_events w (scenario_polls sc) 0).
    rewrite !polls_made_app, polls_made_polls_events. cbn. lia.
  - destruct Hsc; cbn; lia.
  - reflexivity.
  - reflexivity.
  - intros i. unfold poll_ready. rewrite andb_true_iff. split.
    + intros [Hurl Hview]. split; [exact Hurl|].
      destruct (snd (login_poll w i)) as [v'|e]; [|discriminate Hview].
      exists v'. split; [reflexivity|exact Hview].
    + intros [Hurl [v' [Hview Hinput]]]. split; [exact Hurl|].
      rewrite Hview. exact Hinput.
Qed.

Lemma late_login_scenario : LoginScenario Scenario.late_login (Some 2%nat).
Proof.
  apply LoggedInAt.
  - lia.
  - intros j Hj. destruct j as [|[|j]]; [reflexivity|reflexivity|lia].
  - reflexivity.
Qed.

Lemma ensureLoggedIn_polls_witness :
  ensureLoggedIn Scenario.late_login (Scenario.connected ∅)
  = (Ok tt, after_polls Scenario.late_login (Scenario.connected ∅) 3).
Proof.
  apply (ensureLoggedIn_polls Scenario.late_login (Scenario.connected ∅)
           Scenario.signin_page (Some 2%nat)).
  - reflexivity.
  - reflexivity.
  - reflexivity.
  - exact late_login_scenario.
Defined.

(** C2, as stated, fails where the user never logs in: the error thrown
    after the 60 polls does not carry the message "Login timeout after 5
    minutes"; its message ends in a full stop. *)
Lemma login_timeout_message_differs :
  ~ (exists name s',
       ensureLoggedIn Scenario.never_login (Scenario.connected ∅)
       = (Throw (Gemini name "Login timeout after 5 minutes" "AUTH_ERROR"), s')).
Proof.
  intros [name [s' H]].
  assert (E : fst (ensureLoggedIn Scenario.never_login (Scenario.connected ∅))
              = Throw (AuthenticationError "Login timeout after 5 minutes.")).
  { vm_compute. reflexivity. }
  rewrite H in E. cbn in E. inversion E.
Qed.

(** The polls do not look at the host of the URL: a sign-in page on
    accounts.google.com whose query carries the address of the application
    and which holds a text area is not "logged in" for the first check,
    and ends the wait at the first poll. *)
Lemma signin_query_counts_as_ready :
  login_check Scenario.signin_with_continue = false
  /\ Js.includes "accounts.google.com" (href Scenario.signin_with_continue)
     = true
  /\ ensureLoggedIn Scenario.stays_on_signin (Scenario.connected ∅)
     = (Ok tt, after_polls Scenario.stays_on_signin (Scenario.connected ∅) 1).
Proof. repeat split; vm_compute; reflexivity. Qed.

End LoginFacts.

(** ** client.ts: prompt, generation wait and download *)

Module GenerationFacts.
Import Errors Run Env Types Client Spec RunFacts.
Local Open Scope list_scope.

(** *** The generation wait *)

Lemma elapsed_lower_bound w k : 3000 * Z.of_nat k <= elapsed w k.
Proof.
  induction k as [|k IH]; [reflexivity|].
  cbn [elapsed]. lia.
Qed.

Lemma elapsed_mono w k : elapsed w k <= elapsed w (S k).
Proof. cbn [elapsed]. lia. Qed.

(** A poll with a refusal phrase ends the wait right after the refusal
    check, whatever the image check would say. *)
Lemma gen_loop_refusal w fuel T t0 k s text msg :
  clock s - t0 < T ->
  body_text (gen_poll w k) = Ok text ->
  refusal_check text = Some msg ->
  gen_loop w (S fuel) T t0 k s
  = (Throw (GenerationError msg),
     {| browser := browser s;
        clock := clock s + 3000 + Z.of_N (latency (gen_poll w k));
        files := files s;
        trace := trace s ++ [EvWait 3000; EvEvaluate RefusalCheck] |}).
Proof.
  intros Hlt Hbody Href. cbn [gen_loop].
  apply Z.ltb_lt in Hlt. rewrite Hlt.
  unfold bind, waitForTimeout, interact, bind, emit, answer, advance,
    modify, throw.
  cbn. rewrite Hbody. cbn. rewrite Href. cbn.
  rewrite <- app_assoc. reflexivity.
Qed.

(** A poll without refusal and without image runs both checks and goes
    on. *)
Lemma gen_loop_quiet w fuel T t0 k s :
  clock s - t0 < T ->
  quiet_poll w k ->
  gen_loop w (S fuel) T t0 k s
  = gen_loop w fuel T t0 (S k)
      {| browser := browser s;
         clock := clock s + 3000 + Z.of_N (latency (gen_poll w k));
         files := files s;
         trace := trace s ++ [EvWait 3000; EvEvaluate RefusalCheck;
                              EvIsVisible image_selector] |}.
Proof.
  intros Hlt [[text [Hbody Href]] Himg]. cbn [gen_loop].
  apply Z.ltb_lt in Hlt. rewrite Hlt.
  unfold bind, waitForTimeout, or_default, try_catch, interact, bind, emit,
    answer, advance, modify, throw, ret.
  cbn. rewrite Hbody. cbn. rewrite Href. cbn.
  destruct (image_visible (gen_poll w k)) as [[|]|e]; cbn;
    try congruence;
    rewrite <- !app_assoc; reflexivity.
Qed.

(** A poll with an image and no refusal phrase ends the wait with
    [imageFound]. *)
Lemma gen_loop_found w fuel T t0 k s text :
  clock s - t0 < T ->
  body_text (gen_poll w k) = Ok text ->
  refusal_check text = None ->
  image_visible (gen_poll w k) = Ok true ->
  gen_loop w (S fuel) T t0 k s
  = (Ok true,
     {| browser := browser s;
        clock := clock s + 3000 + Z.of_N (latency (gen_poll w k));
        files := files s;
        trace := trace s ++ [EvWait 3000; EvEvaluate RefusalCheck;
                             EvIsVisible image_selector] |}).
Proof.
  intros Hlt Hbody Href Himg. cbn [gen_loop].
  apply Z.ltb_lt in Hlt. rewrite Hlt.
  unfold bind, waitForTimeout, or_default, try_catch, interact, bind, emit,
    answer, advance, modify, throw, ret.
  cbn. rewrite Hbody. cbn. rewrite Href. cbn. rewrite Himg. cbn.
  rewrite <- !app_assoc. reflexivity.
Qed.

(** [k] polls without news, from the start of the wait. *)
Lemma gen_loop_quiet_run w T k :
  forall fuel s,
    (forall j, (j < k)%nat -> quiet_poll w j) ->
    (k = 0%nat \/ elapsed w (k - 1) < T) ->
    gen_loop w (fuel + k) T (clock s) 0 s
    = gen_loop w fuel T (clock s) k
        {| browser := browser s; clock := clock s + elapsed w k;
           files := files s; trace := trace s ++ full_polls k |}.
Proof.
  induction k as [|k IH]; intros fuel s Hquiet Htime.
  - rewrite Nat.add_0_r. cbn [elapsed full_polls].
    rewrite Z.add_0_r, app_nil_r. destruct s; reflexivity.
  - replace (fuel + S k)%nat with (S fuel + k)%nat by lia.
    assert (Hk : elapsed w k < T).
    { destruct Htime as [Htime|Htime]; [discriminate|].
      replace (S k - 1)%nat with k in Htime by lia. exact Htime. }
    rewrite IH.
    + rewrite gen_loop_quiet.
      * cbn [browser clock files trace elapsed full_polls].
        f_equal. apply LoginFacts.st_eq; [lia|].
        rewrite <- app_assoc. reflexivity.
      * cbn [clock]. lia.
      * apply Hquiet. lia.
    + intros j Hj. apply Hquiet. lia.
    + destruct k as [|k]; [left; reflexivity|right].
      replace (S k - 1)%nat with k by lia.
      pose proof (elapsed_mono w k). lia.
Qed.

(** The fuel of the wait is never used up: with the remaining time covered
    by the fuel, more fuel changes nothing. *)
Lemma gen_loop_fuel w T t0 :
  forall f1 f2 k s,
    T - (clock s - t0) <= 3000 * Z.of_nat f1 ->
    T - (clock s - t0) <= 3000 * Z.of_nat f2 ->
    gen_loop w f1 T t0 k s = gen_loop w f2 T t0 k s.
Proof.
  induction f1 as [|f1 IH]; intros f2 k s H1 H2.
  - destruct f2 as [|f2]; [reflexivity|].
    cbn [gen_loop]. destruct (clock s - t0 <? T) eqn:E; [|reflexivity].
    apply Z.ltb_lt in E. lia.
  - destruct f2 as [|f2].
    + cbn [gen_loop]. destruct (clock s - t0 <? T) eqn:E; [|reflexivity].
      apply Z.ltb_lt in E. lia.
    + cbn [gen_loop]. destruct (clock s - t0 <? T) eqn:E; [|reflexivity].
      unfold bind, waitForTimeout, or_default, try_catch, interact, bind,
        emit, answer, advance, modify, throw, ret.
      cbn.
      destruct (body_text (gen_poll w k)) as [text|e]; cbn; [|reflexivity].
      destruct (refusal_check text); cbn; [reflexivity|].
      destruct (image_visible (gen_poll w k)) as [[|]|e]; cbn;
        try reflexivity; apply IH; cbn [clock]; lia.
Qed.

Lemma GEN_FUEL_covers T : T <= 3000 * Z.of_nat (GEN_FUEL T).
Proof.
  unfold GEN_FUEL.
  destruct (Z_lt_le_dec T 0) as [Hneg|Hpos]; [lia|].
  rewrite Z2Nat.id by (pose proof (Z.div_pos T 3000); lia).
  pose proof (Z.mod_pos_bound T 3000 ltac:(lia)).
  pose proof (Z.div_mod T 3000 ltac:(lia)). lia.
Qed.

Lemma refusal_check_phrase (body : string) :
  has_refusal_phrase body = true ->
  refusal_check (Some body) = Some REFUSAL_MESSAGE.
Proof.
  unfold has_refusal_phrase, refusal_check. intros H.
  destruct body as [|c body]; [discriminate H|].
  cbn [Js.truthy_opt_string Js.truthy_string Js.nullish].
  rewrite H. reflexivity.
Qed.

(** The wait from its start: [k] polls without news, then a refusal. *)
Lemma gen_wait_refusal w T k s text msg :
  (forall j, (j < k)%nat -> quiet_poll w j) ->
  elapsed w k < T ->
  body_text (gen_poll w k) = Ok text ->
  refusal_check text = Some msg ->
  gen_loop w (GEN_FUEL T) T (clock s) 0 s
  = (Throw (GenerationError msg),
     {| browser := browser s; clock := clock s + elapsed w (S k);
        files := files s;
        trace := trace s ++ full_polls k
                 ++ [EvWait 3000; EvEvaluate RefusalCheck] |}).
Proof.
  intros Hquiet Htime Hbody Href.
  assert (Hfuel : (S k <= GEN_FUEL T)%nat).
  { unfold GEN_FUEL. pose proof (elapsed_lower_bound w k).
    assert (Z.of_nat k <= T / 3000) by (apply Z.div_le_lower_bound; lia).
    lia. }
  replace (GEN_FUEL T) with (S (GEN_FUEL T - S k) + k)%nat by lia.
  rewrite gen_loop_quiet_run.
  - rewrite (gen_loop_refusal w _ T (clock s) k _ text msg).
    + cbn [browser clock files trace elapsed].
      apply f_equal, LoginFacts.st_eq; [lia|].
      rewrite <- app_assoc. reflexivity.
    + cbn [clock]. lia.
    + exact Hbody.
    + exact Href.
  - exact Hquiet.
  - destruct k as [|k]; [left; reflexivity|right].
    replace (S k - 1)%nat with k by lia.
    pose proof (elapsed_mono w k). lia.
Qed.

(** *** From the call to the start of the wait *)

Lemma page_ok s :
  _page (browser s) = Some ThePage -> Browser.page s = (Ok ThePage, s).
Proof. intros H. unfold Browser.page, bind, get, ret. cbn. rewrite H. reflexivity. Qed.

Lemma interact_ok {A : Type} (ev : Event) (r : Res A) (a : A) s :
  r = Ok a ->
  interact ev r s
  = (Ok a, {| browser := browser s; clock := clock s; files := files s;
              trace := trace s ++ [ev] |}).
Proof. intros ->. reflexivity. Qed.

Lemma waitForTimeout_run ms s :
  waitForTimeout ms s
  = (Ok tt, {| browser := browser s; clock := clock s + ms;
               files := files s; trace := trace s ++ [EvWait ms] |}).
Proof. reflexivity. Qed.

Lemma dismissOverlays_run w s :
  dismissOverlays w s
  = (Ok tt, {| browser := browser s; clock := clock s + overlay_pause w;
               files := files s; trace := trace s ++ overlay_events w |}).
Proof.
  unfold dismissOverlays, overlay_pause, overlay_events, try_catch,
    or_default, try_catch, bind, waitForTimeout, interact, bind, emit,
    answer, advance, modify, ret.
  cbn.
  destruct (overlay_visible w) as [[|]|e]; cbn.
  - destruct (overlay_click w) as [u|e]; cbn.
    + destruct u. apply f_equal, LoginFacts.st_eq; [reflexivity|].
      rewrite <- !app_assoc. reflexivity.
    + apply f_equal, LoginFacts.st_eq; [lia|].
      rewrite <- !app_assoc. reflexivity.
  - apply f_equal, LoginFacts.st_eq; [lia|reflexivity].
  - apply f_equal, LoginFacts.st_eq; [lia|reflexivity].
Qed.

Lemma generateImage_submit w prompt out options s :
  submits w s ->
  Client.generateImage w prompt out options s
  = from_wait w out options
      (submitted w (build_prompt prompt (aspectRatio options)) s).
Proof.
  intros [Hpage Hgoto Hclick Hfill Hpress].
  unfold Client.generateImage.
  erewrite bind_ok by (apply page_ok; exact Hpage).
  erewrite bind_ok by (apply interact_ok; exact Hgoto).
  erewrite bind_ok by apply waitForTimeout_run.
  erewrite bind_ok by apply dismissOverlays_run.
  erewrite bind_ok by (apply interact_ok; exact Hclick).
  erewrite bind_ok by (apply interact_ok; exact Hfill).
  erewrite bind_ok by apply waitForTimeout_run.
  erewrite bind_ok by (apply interact_ok; exact Hpress).
  unfold from_wait, submitted, submit_events.
  cbn [browser clock files trace].
  match goal with |- _ ?s1 = _ ?s2 => replace s1 with s2; [reflexivity|] end.
  apply LoginFacts.st_eq; [lia|].
  rewrite <- !app_assoc. reflexivity.
Qed.

(** *** What is typed into the page *)

Lemma fills_app (a b : list Event) : fills (a ++ b) = fills a ++ fills b.
Proof. unfold fills. apply flat_map_app. Qed.

Lemma types_nothing_refl s : types_nothing s s.
Proof. exists []. split; [rewrite app_nil_r; reflexivity|reflexivity]. Qed.

Lemma types_nothing_trans a b c :
  types_nothing a b -> types_nothing b c -> types_nothing a c.
Proof.
  intros [e1 [H1 F1]] [e2 [H2 F2]]. exists (e1 ++ e2). split.
  - rewrite H2, H1, <- app_assoc. reflexivity.
  - rewrite fills_app, F1, F2. reflexivity.
Qed.

Lemma types_nothing_advance s ms :
  types_nothing s {| browser := browser s; clock := clock s + ms;
                     files := files s; trace := trace s |}.
Proof. exists []. split; [cbn; rewrite app_nil_r; reflexivity|reflexivity]. Qed.

Lemma types_nothing_files s fs :
  types_nothing s {| browser := browser s; clock := clock s; files := fs;
                     trace := trace s |}.
Proof. exists []. split; [cbn; rewrite app_nil_r; reflexivity|reflexivity]. Qed.

Lemma quiet_emit (ev : Event) :
  fills [ev] = [] -> preserves types_nothing (emit ev).
Proof. intros Hev s. exists [ev]. split; [reflexivity|exact Hev]. Qed.

Lemma quiet_interact {A : Type} (ev : Event) (r : Res A) :
  fills [ev] = [] -> preserves types_nothing (interact ev r).
Proof.
  intros Hev.
  apply (preserves_bind _ types_nothing_trans); [apply quiet_emit; exact Hev|].
  intros _. apply (preserves_answer _ types_nothing_refl).
Qed.

Lemma quiet_waitForTimeout (ms : Z) : preserves types_nothing (waitForTimeout ms).
Proof.
  apply (preserves_bind _ types_nothing_trans); [apply quiet_emit; reflexivity|].
  intros _ s. apply types_nothing_advance.
Qed.

(** One step of a proof that a run types nothing. *)
Ltac quiet_step :=
  first
    [ apply (preserves_ret _ types_nothing_refl)
    | apply (preserves_throw _ types_nothing_refl)
    | apply (preserves_answer _ types_nothing_refl)
    | apply (preserves_get _ types_nothing_refl)
    | apply quiet_emit; reflexivity
    | apply quiet_interact; reflexivity
    | apply quiet_waitForTimeout
    | apply (preserves_advance _ types_nothing_advance)
    | apply (preserves_set_files _ types_nothing_files)
    | apply (preserves_or_default _ types_nothing_refl types_nothing_trans)
    | apply (preserves_bind _ types_nothing_trans); [|intros ?]
    | apply (preserves_try_catch _ types_nothing_trans); [|intros ?]
    | match goal with
      | |- preserves _ (if ?b then _ else _) => destruct b
      | |- preserves _ (match ?x with _ => _ end) => destruct x
      end ].

Ltac quiet := repeat quiet_step.

Lemma quiet_gen_loop w fuel T t0 k :
  preserves types_nothing (gen_loop w fuel T t0 k).
Proof.
  revert k. induction fuel as [|fuel IH]; intros k s; cbn [gen_loop];
    destruct (clock s - t0 <? T); cbn [snd]; try apply types_nothing_refl.
  revert s.
  change (preserves types_nothing
    (waitForTimeout 3000 ;;;
     text <- interact (EvEvaluate RefusalCheck) (body_text (gen_poll w k)) ;;
     advance (Z.of_N (latency (gen_poll w k))) ;;;
     match refusal_check text with
     | Some refusal => throw (GenerationError refusal)
     | None =>
         found <- or_default
                    (interact (EvIsVisible image_selector)
                              (image_visible (gen_poll w k))) false ;;
         if found then ret true else gen_loop w fuel T t0 (S k)
     end)%run).
  quiet. apply IH.
Qed.

Lemma quiet_download_loop w n k :
  preserves types_nothing (download_loop w n k).
Proof.
  revert k. induction n as [|n IH]; intros k; cbn [download_loop].
  - quiet.
  - apply (preserves_bind _ types_nothing_trans);
      [|intros [d|]; [quiet|apply IH]].
    apply (preserves_try_catch _ types_nothing_trans).
    + unfold download_attempt, clickDownloadButton. quiet.
    + intros _. destruct (k =? 0)%nat; quiet.
Qed.

Lemma quiet_removeWatermark w path :
  preserves types_nothing (removeWatermark w path).
Proof.
  unfold removeWatermark, Node.existsSync, execFileAsync, Node.renameSync,
    Node.unlinkSync.
  quiet.
Qed.

(** Once the prompt is submitted, nothing more is typed. *)
Lemma quiet_from_wait w out options :
  preserves types_nothing (from_wait w out options).
Proof.
  unfold from_wait.
  apply (preserves_bind _ types_nothing_trans); [quiet|intros s0].
  apply (preserves_bind _ types_nothing_trans);
    [apply quiet_gen_loop|intros found].
  destruct (negb found); [quiet|].
  apply (preserves_bind _ types_nothing_trans);
    [destruct (output_dir_exists w); quiet|intros _].
  apply (preserves_bind _ types_nothing_trans); [quiet|intros _].
  apply (preserves_bind _ types_nothing_trans); [quiet|intros _].
  apply (preserves_bind _ types_nothing_trans);
    [apply quiet_download_loop|intros d].
  apply (preserves_bind _ types_nothing_trans);
    [unfold saveAs; quiet|intros _].
  apply (preserves_bind _ types_nothing_trans);
    [destruct (Js.truthy_opt_string _); quiet|intros _].
  apply (preserves_bind _ types_nothing_trans);
    [apply quiet_removeWatermark|intros _].
  apply (preserves_bind _ types_nothing_trans);
    [apply (preserves_statSize _ types_nothing_refl types_nothing_trans)
    |intros _].
  apply (preserves_bind _ types_nothing_trans);
    [apply (preserves_getImageDimensions _ types_nothing_refl
              types_nothing_trans)
    |intros dims].
  quiet.
Qed.

Lemma fills_overlay_events w : fills (overlay_events w) = [].
Proof.
  unfold overlay_events.
  destruct (overlay_visible w) as [[|]|e]; try reflexivity.
  destruct (overlay_click w); reflexivity.
Qed.

Lemma fills_submit_events w text :
  fills (submit_events w text) = [(input_selector, text)].
Proof.
  unfold submit_events. rewrite !fills_app, fills_overlay_events. reflexivity.
Qed.

(** C10: an empty [aspectRatio] is falsy, so the call runs exactly as if
    the option were absent.  In a call that gets as far as the chat input,
    with the option empty or absent, one text is typed into the page, into
    the chat input, before Enter is pressed: "Generate an image: " followed
    by the prompt, with nothing appended. *)
Theorem empty_aspect_ratio_is_ignored (w : World) (prompt out : string)
    (hl : option bool) (tm : option Z) (s : St) :
  let with_empty :=
    {| headless := hl; aspectRatio := Some EmptyString; timeout := tm |} in
  let without := {| headless := hl; aspectRatio := None; timeout := tm |} in
  let text := ("Generate an image: " ++ prompt)%string in
  (Client.generateImage w prompt out with_empty s
   = Client.generateImage w prompt out without s
   /\ Lib.generateImage w prompt out with_empty s
      = Lib.generateImage w prompt out without s)
  /\ (submits w s ->
      forall options, options = with_empty \/ options = without ->
        (exists rest,
           trace (snd (Client.generateImage w prompt out options s))
           = trace s
             ++ ([EvGoto GEMINI_URL; EvWait 3000] ++ overlay_events w
                 ++ [EvClick input_selector; EvFill input_selector text;
                     EvWait 500; EvPress "Enter"])
             ++ rest
           /\ fills rest = [])
        /\ fills (trace (snd (Client.generateImage w prompt out options s)))
           = fills (trace s) ++ [(input_selector, text)]).
Proof.
  intros with_empty without text.
  split; [split; reflexivity|].
  intros Hsub options Hoptions.
  assert (Htext : build_prompt prompt (aspectRatio options) = text)
    by (destruct Hoptions as [->| ->]; reflexivity).
  rewrite (generateImage_submit w prompt out options s Hsub), Htext.
  destruct (quiet_from_wait w out options (submitted w text s))
    as [rest [Hrest Hquiet]].
  assert (Htrace : trace (snd (from_wait w out options (submitted w text s)))
                   = trace s ++ submit_events w text ++ rest).
  { rewrite Hrest. cbn [trace submitted]. rewrite <- app_assoc. reflexivity. }
  split.
  - exists rest. split; [exact Htrace|exact Hquiet].
  - rewrite Htrace, !fills_app, fills_submit_events, Hquiet, app_nil_r.
    reflexivity.
Qed.

Lemma empty_aspect_ratio_is_ignored_witness :
  fills (trace (snd (Client.generateImage Scenario.smooth "a red circle"
                       "/tmp/out.png"
                       {| headless := None; aspectRatio := Some EmptyString;
                          timeout := None |}
                       (Scenario.connected ∅))))
  = [("div[contenteditable=" ++ Js.dquote ++ "true" ++ Js.dquote ++ "]",
      "Generate an image: a red circle")]%string.
Proof.
  destruct (empty_aspect_ratio_is_ignored Scenario.smooth "a red circle"
              "/tmp/out.png" None None (Scenario.connected ∅))
    as [_ Htyped].
  assert (Hsub : submits Scenario.smooth (Scenario.connected ∅))
    by (split; reflexivity).
  destruct (Htyped Hsub _ (or_introl eq_refl)) as [_ Hfills].
  rewrite Hfills. reflexivity.
Defined.

(** *** Refusal and image in one poll *)

Lemma full_polls_no_download k :
  forallb (fun ev => negb (download_event_b ev)) (full_polls k) = true.
Proof.
  induction k as [|k IH]; [reflexivity|].
  cbn [full_polls]. rewrite forallb_app, IH. reflexivity.
Qed.

Lemma submit_events_no_download w fullPrompt :
  forallb (fun ev => negb (download_event_b ev)) (submit_events w fullPrompt)
  = true.
Proof.
  unfold submit_events, overlay_events.
  destruct (overlay_visible w) as [[|]|e]; try reflexivity.
  destruct (overlay_click w); reflexivity.
Qed.

(** C3, as amended: in the generation wait every poll runs the refusal
    check, and the image check where the refusal check found nothing -- the
    polls before poll [k] ran both and went on.  At a poll whose page text
    holds a refusal phrase while a generated image is visible, refusal
    wins: the call throws a [GenerationError] (code GENERATION_ERROR) right
    after the refusal check, and nothing of the download phase happens. *)
Theorem refusal_wins_over_image (w : World) (prompt out : string)
    (options : GenerateImageOptions) (s : St) (k : nat) (body : string) :
  submits w s ->
  (forall j, (j < k)%nat -> quiet_poll w j) ->
  elapsed w k < Js.nullish (timeout options) 120000 ->
  body_text (gen_poll w k) = Ok (Some body) ->
  has_refusal_phrase body = true ->
  image_visible (gen_poll w k) = Ok true ->
  exists s',
    Client.generateImage w prompt out options s
    = (Throw (GenerationError REFUSAL_MESSAGE), s')
    /\ code_of (GenerationError REFUSAL_MESSAGE) = Some "GENERATION_ERROR"
    /\ trace s'
       = trace s
         ++ submit_events w (build_prompt prompt (aspectRatio options))
         ++ full_polls k ++ [EvWait 3000; EvEvaluate RefusalCheck]
    /\ forallb (fun ev => negb (download_event_b ev))
               (submit_events w (build_prompt prompt (aspectRatio options))
                ++ full_polls k ++ [EvWait 3000; EvEvaluate RefusalCheck])
       = true.
Proof.
  intros Hsub Hquiet Htime Hbody Hphrase _.
  rewrite (generateImage_submit w prompt out options s Hsub).
  set (s0 := submitted w (build_prompt prompt (aspectRatio options)) s).
  unfold from_wait.
  erewrite bind_ok by reflexivity.
  erewrite bind_throw
    by (apply (gen_wait_refusal w _ k s0 (Some body) REFUSAL_MESSAGE);
        [exact Hquiet|exact Htime|exact Hbody
        |apply refusal_check_phrase; exact Hphrase]).
  eexists. split; [reflexivity|]. split; [reflexivity|]. split.
  - cbn [trace s0 submitted]. rewrite <- !app_assoc. reflexivity.
  - rewrite !forallb_app, submit_events_no_download, full_polls_no_download.
    reflexivity.
Qed.

Lemma refusal_wins_over_image_witness :
  exists s',
    Client.generateImage Scenario.refusal_with_image "a red circle"
      "/tmp/out.png" no_options (Scenario.connected ∅)
    = (Throw (GenerationError REFUSAL_MESSAGE), s').
Proof.
  destruct (refusal_wins_over_image Scenario.refusal_with_image "a red circle"
              "/tmp/out.png" no_options (Scenario.connected ∅) 2
              "Sorry, I can't generate that image.")
    as [s' [H _]].
  - split; reflexivity.
  - intros j Hj. destruct j as [|[|j]]; [| |lia].
    + split; [exists (Some "Creating your image..."%string); split; reflexivity
             |discriminate].
    + split; [exists (Some "Creating your image..."%string); split; reflexivity
             |discriminate].
  - vm_compute. reflexivity.
  - reflexivity.
  - reflexivity.
  - reflexivity.
  - exists s'. exact H.
Defined.

(** C3, as stated, fails at a poll that shows a refusal: there the image
    check does not run, although an image is visible -- the call makes
    three refusal checks and two image checks. *)
Lemma refusing_poll_skips_image_check :
  image_visible (gen_poll Scenario.refusal_with_image 2) = Ok true
  /\ refusal_checks
       (trace (snd (Client.generateImage Scenario.refusal_with_image
                      "a red circle" "/tmp/out.png" no_options
                      (Scenario.connected ∅)))) = 3%nat
  /\ image_checks
       (trace (snd (Client.generateImage Scenario.refusal_with_image
                      "a red circle" "/tmp/out.png" no_options
                      (Scenario.connected ∅)))) = 2%nat
  /\ refusal_checks
       (trace (snd (Client.generateImage Scenario.refusal_with_image
                      "a red circle" "/tmp/out.png" no_options
                      (Scenario.connected ∅))))
     <> image_checks
          (trace (snd (Client.generateImage Scenario.refusal_with_image
                         "a red circle" "/tmp/out.png" no_options
                         (Scenario.connected ∅)))).
Proof.
  split; [reflexivity|].
  assert (E3 : refusal_checks
                 (trace (snd (Client.generateImage Scenario.refusal_with_image
                                "a red circle" "/tmp/out.png" no_options
                                (Scenario.connected ∅)))) = 3%nat)
    by (vm_compute; reflexivity).
  assert (E2 : image_checks
                 (trace (snd (Client.generateImage Scenario.refusal_with_image
                                "a red circle" "/tmp/out.png" no_options
                                (Scenario.connected ∅)))) = 2%nat)
    by (vm_compute; reflexivity).
  split; [exact E3|]. split; [exact E2|].
  rewrite E3, E2. discriminate.
Qed.

End GenerationFacts.

(** ** client.ts: download with retry *)

Module DownloadFacts.
Import Errors Run Env Types Client Spec RunFacts.
Local Open Scope list_scope.

Lemma clickDownloadButton_no_control w k s :
  no_control w k ->
  clickDownloadButton w k s
  = (Throw (GenerationError "Could not find download button"),
     {| browser := browser s; clock := clock s; files := files s;
        trace := trace s ++ [EvIsVisible download_selector;
                             EvIsVisible fallback_selector] |}).
Proof.
  intros [Hp Hf].
  unfold clickDownloadButton, or_default, try_catch, bind, interact, bind,
    emit, answer, modify, throw, ret.
  cbn.
  destruct (primary_visible (attempt w k)) as [[|]|e]; cbn; try congruence;
    destruct (fallback_visible (attempt w k)) as [[|]|e']; cbn;
    try congruence; rewrite <- !app_assoc; reflexivity.
Qed.

(** The retry loop: a second attempt is made, after a pause of 2 seconds,
    exactly when the first one fails; there is no third. *)
Lemma download_loop_two_attempts w s :
  download_loop w 2 0 s
  = match download_attempt w 0 s with
    | (Ok d, s1) => (Ok d, s1)
    | (Throw _, s1) =>
        match download_attempt w 1 (paused s1) with
        | (Ok d, s2) => (Ok d, s2)
        | (Throw _, s2) => (Throw (GenerationError DOWNLOAD_FAILED_MESSAGE), s2)
        end
    end.
Proof.
  cbn [download_loop Nat.eqb].
  unfold bind at 1, try_catch at 1, bind at 1.
  destruct (download_attempt w 0 s) as [[d|e] s1]; cbn [ret]; [reflexivity|].
  unfold bind at 1. rewrite GenerationFacts.waitForTimeout_run. cbn [ret].
  unfold bind at 1, try_catch at 1, bind at 1. fold (paused s1).
  destruct (download_attempt w 1 (paused s1)) as [[d|e'] s2]; reflexivity.
Qed.

Lemma download_attempt_no_control w k s :
  no_control w k ->
  exists s', download_attempt w k s
             = (Throw (GenerationError "Could not find download button"), s').
Proof.
  intros H. unfold download_attempt.
  unfold bind at 1, emit, modify. cbn beta iota.
  erewrite bind_throw by (apply clickDownloadButton_no_control; exact H).
  eexists. reflexivity.
Qed.

(** C4: when neither download control can be found, [clickDownloadButton]
    throws "Could not find download button" at each attempt, but the retry
    loop of [generateImage] catches it like any failed attempt: the error
    that leaves the loop is "Download button did not trigger a file
    download". *)
Theorem missing_control_message_is_swallowed (w : World) (s : St) :
  no_control w 0 ->
  no_control w 1 ->
  (forall k s0, (k < 2)%nat ->
     fst (clickDownloadButton w k s0)
     = Throw (GenerationError "Could not find download button"))
  /\ fst (download_loop w 2 0 s)
     = Throw (GenerationError "Download button did not trigger a file download").
Proof.
  intros H0 H1. split.
  - intros k s0 Hk.
    assert (Hno : no_control w k) by (destruct k as [|[|k]]; [assumption|assumption|lia]).
    rewrite (clickDownloadButton_no_control w k s0 Hno). reflexivity.
  - rewrite download_loop_two_attempts.
    destruct (download_attempt_no_control w 0 s H0) as [s1 E1]. rewrite E1.
    destruct (download_attempt_no_control w 1 (paused s1) H1) as [s2 E2].
    rewrite E2. reflexivity.
Qed.

Lemma missing_control_message_is_swallowed_witness :
  fst (download_loop Scenario.download_controls_gone 2 0 (Scenario.connected ∅))
  = Throw (GenerationError "Download button did not trigger a file download").
Proof.
  apply (missing_control_message_is_swallowed Scenario.download_controls_gone
           (Scenario.connected ∅)).
  - split; discriminate.
  - split; discriminate.
Defined.

(** The same at the level of the call: the image renders, the download
    controls are gone, and the caller is told that the download button did
    not trigger a download. *)
Lemma download_controls_gone_call :
  fst (Client.generateImage Scenario.download_controls_gone "a red circle"
         "/tmp/out.png" no_options (Scenario.connected ∅))
  = Throw (GenerationError "Download button did not trigger a file download").
Proof. vm_compute. reflexivity. Qed.

(** A download that arrives at the second attempt is saved at the resolved
    path. *)
Lemma saveAs_writes (d : Download) (absPath : string) (s : St) :
  save_result d = Ok tt ->
  saveAs d absPath s
  = (Ok tt,
     {| browser := browser s; clock := clock s;
        files := <[absPath := content d]> (files s);
        trace := trace s ++ [EvSaveAs absPath] |}).
Proof.
  intros H. unfold saveAs, bind, interact, bind, emit, answer, set_files,
    modify, get.
  cbn. rewrite H. reflexivity.
Qed.

End DownloadFacts.

(** ** client.ts: watermark removal *)

Module WatermarkFacts.
Import Errors Run Env Types Node Client Spec RunFacts.
Local Open Scope list_scope.

Lemma append_nonempty_ne (s t : string) :
  t <> EmptyString -> (s ++ t)%string <> s.
Proof.
  intros Ht. induction s as [|c s IH]; cbn.
  - exact Ht.
  - intros H. injection H as H. exact (IH H).
Qed.

Lemma tmp_path_ne (filePath : string) : tmp_path filePath <> filePath.
Proof. apply append_nonempty_ne. discriminate. Qed.

(** On a host that refuses neither the move nor the removal,
    [removeWatermark] returns.  Without the tool's entry script it returns
    at once and nothing changes.  Otherwise the tool is run once; when the
    run fails (non-zero exit, timeout, failure to start) the temporary
    output is deleted if there is one and the original file is left as it
    was; when the run succeeds and left a temporary output, that file is
    moved over the original (afterwards it exists under the original path
    only).  The tool itself is taken not to write its input file. *)
Lemma removeWatermark_on_obedient_host (w : World) (filePath : string)
    (s : St) :
  rename_failure w (tmp_path filePath) filePath = None ->
  unlink_failure w (tmp_path filePath) = None ->
  tool_files (tool_run w filePath s) !! filePath = files s !! filePath ->
  exists s',
    removeWatermark w filePath s = (Ok tt, s')
    /\ browser s' = browser s
    /\ match files s !! script w with
       | None => s' = s
       | Some _ =>
           trace s'
           = trace s ++ [EvExecFile (venvPython w)
                           [script w; filePath; tmp_path filePath] 120000]
           /\ files s' !! tmp_path filePath = None
           /\ match tool_succeeds (tool_run w filePath s),
                    tool_files (tool_run w filePath s) !! tmp_path filePath with
              | true, Some cleaned =>
                  files s' = <[filePath := cleaned]>
                               (delete (tmp_path filePath)
                                       (tool_files (tool_run w filePath s)))
                  /\ files s' !! filePath = Some cleaned
              | true, None =>
                  files s' = tool_files (tool_run w filePath s)
                  /\ files s' !! filePath = files s !! filePath
              | false, _ =>
                  files s' = delete (tmp_path filePath)
                                    (tool_files (tool_run w filePath s))
                  /\ files s' !! filePath = files s !! filePath
              end
       end.
Proof.
  intros Hrename Hunlink Hinput. pose proof (tmp_path_ne filePath) as Hne.
  unfold removeWatermark, existsSync, execFileAsync, renameSync, unlinkSync,
    try_catch, bind, emit, set_files, modify, get, ret, throw.
  cbn.
  destruct (files s !! script w) as [code|] eqn:Hscript; cbn.
  2:{ eexists. split; [reflexivity|]. split; reflexivity. }
  unfold tool_run, tool_succeeds in *.
  set (run := run_tool w (files s) filePath (tmp_path filePath)) in *.
  destruct (tool_exit run) as [out|status| |msg]; cbn;
    destruct (tool_files run !! tmp_path filePath) as [cleaned|] eqn:Htmp;
    cbn; rewrite ?Htmp, ?Hrename, ?Hunlink; cbn;
    eexists; (split; [reflexivity|]); (split; [reflexivity|]);
    cbn [trace files]; (split; [reflexivity|]).
  all: repeat split;
    rewrite ?lookup_insert_eq, ?lookup_insert_ne, ?lookup_delete_eq,
      ?lookup_delete_ne by congruence;
    try reflexivity; try assumption.
  all: symmetry; apply delete_id; assumption.
Qed.

(** The tool installed and failing on a host that obeys: the call returns,
    the original is as it was and the partial output is gone. *)
Lemma failing_tool_is_skipped :
  exists s',
    removeWatermark Scenario.with_failing_tool "/tmp/out.png"
      (Scenario.connected Scenario.tool_installed) = (Ok tt, s')
    /\ files s' !! "/tmp/out.png"%string = Some Scenario.jpeg_640x480
    /\ files s' !! "/tmp/out.png.clean.png"%string = None.
Proof.
  destruct (removeWatermark_on_obedient_host Scenario.with_failing_tool
              "/tmp/out.png" (Scenario.connected Scenario.tool_installed))
    as [s' [Hrun [_ Hfiles]]]; [reflexivity|reflexivity| |].
  - vm_compute. reflexivity.
  - exists s'. split; [exact Hrun|].
    assert (Hscript : files (Scenario.connected Scenario.tool_installed)
                      !! script Scenario.with_failing_tool = Some [Byte.x23])
      by (vm_compute; reflexivity).
    rewrite Hscript in Hfiles.
    destruct Hfiles as [_ [Htmp Hrest]].
    split; [|exact Htmp].
    assert (Hfail : tool_succeeds
                      (tool_run Scenario.with_failing_tool "/tmp/out.png"
                         (Scenario.connected Scenario.tool_installed)) = false)
      by reflexivity.
    rewrite Hfail in Hrest. destruct Hrest as [_ Hrest].
    rewrite Hrest. vm_compute. reflexivity.
Qed.

(** C5: [removeWatermark] can throw.  The removal of the temporary output
    in the [catch] block is not itself guarded: when the [try] block fails
    -- the tool exits with a non-zero status, times out or does not start,
    or the move of its output is refused -- while something exists at the
    temporary path that the host refuses to remove (a directory, a file
    without the rights), the error of [unlinkSync] leaves [removeWatermark].
    What the tool left at the temporary path is still there. *)
Theorem unremovable_output_escapes (w : World) (filePath : string) (s : St)
    (code partial : list Byte.byte) (e : Thrown) :
  files s !! script w = Some code ->
  try_fails w filePath s ->
  tool_files (tool_run w filePath s) !! tmp_path filePath = Some partial ->
  unlink_failure w (tmp_path filePath) = Some e ->
  removeWatermark w filePath s
  = (Throw e,
     {| browser := browser s; clock := clock s;
        files := tool_files (tool_run w filePath s);
        trace := trace s ++ [EvExecFile (venvPython w)
                               [script w; filePath; tmp_path filePath]
                               120000] |})
  /\ files (snd (removeWatermark w filePath s)) !! tmp_path filePath
     = Some partial.
Proof.
  intros Hscript Hfails Htmp Hunlink.
  assert (Hrun : removeWatermark w filePath s
                 = (Throw e,
                    {| browser := browser s; clock := clock s;
                       files := tool_files (tool_run w filePath s);
                       trace := trace s
                                ++ [EvExecFile (venvPython w)
                                      [script w; filePath; tmp_path filePath]
                                      120000] |})).
  { unfold removeWatermark, existsSync, execFileAsync, renameSync, unlinkSync,
      try_catch, bind, emit, set_files, modify, get, ret, throw.
    cbn. rewrite Hscript. cbn.
    unfold try_fails, tool_run, tool_succeeds in *.
    set (run := run_tool w (files s) filePath (tmp_path filePath)) in *.
    destruct (tool_exit run) as [out|status| |msg].
    1:{ destruct Hfails as [Hexit|[e1 Hrename]]; [discriminate Hexit|].
        repeat (progress (cbn; rewrite ?Htmp, ?Hrename, ?Hunlink)).
        reflexivity. }
    all: repeat (progress (cbn; rewrite ?Htmp, ?Hunlink)); reflexivity. }
  split; [exact Hrun|].
  rewrite Hrun. exact Htmp.
Qed.

Lemma unremovable_output_escapes_witness :
  fst (removeWatermark Scenario.with_stuck_output "/tmp/out.png"
         (Scenario.connected Scenario.tool_installed))
  = Throw (Scenario.EISDIR "/tmp/out.png.clean.png")
  /\ files (snd (removeWatermark Scenario.with_stuck_output "/tmp/out.png"
                   (Scenario.connected Scenario.tool_installed)))
     !! "/tmp/out.png.clean.png"%string = Some [].
Proof.
  destruct (unremovable_output_escapes Scenario.with_stuck_output
              "/tmp/out.png" (Scenario.connected Scenario.tool_installed)
              [Byte.x23] [] (Scenario.EISDIR "/tmp/out.png.clean.png"))
    as [Hrun Hkept].
  - vm_compute. reflexivity.
  - left. reflexivity.
  - vm_compute. reflexivity.
  - reflexivity.
  - split; [rewrite Hrun; reflexivity|exact Hkept].
Defined.

(** The parent call fails with it, although the image was downloaded and
    saved. *)
Lemma stuck_output_fails_the_call :
  fst (Client.generateImage Scenario.with_stuck_output "a red circle"
         "/tmp/out.png" no_options
         (Scenario.connected Scenario.tool_installed))
  = Throw (Scenario.EISDIR "/tmp/out.png.clean.png")
  /\ files (snd (Client.generateImage Scenario.with_stuck_output
                   "a red circle" "/tmp/out.png" no_options
                   (Scenario.connected Scenario.tool_installed)))
     !! "/tmp/out.png"%string = Some Scenario.png_1024x768.
Proof. split; vm_compute; reflexivity. Qed.

(** With the tool installed and failing, the call still succeeds and
    reports the dimensions of the downloaded file. *)
Lemma failing_tool_call_succeeds :
  fst (Client.generateImage Scenario.with_failing_tool "a red circle"
         "/tmp/out.png" no_options
         (Scenario.connected Scenario.tool_installed))
  = Ok {| imagePath := "/tmp/out.png"; width := 1024; height := 768 |}.
Proof. vm_compute. reflexivity. Qed.

(** With the tool succeeding, the cleaned file takes the place of the
    download and the temporary file is gone. *)
Lemma cleaning_tool_replaces_file :
  files (snd (removeWatermark Scenario.with_cleaning_tool "/tmp/out.png"
                (Scenario.connected Scenario.tool_installed)))
  !! "/tmp/out.png"%string = Some Scenario.png_1024x768
  /\ files (snd (removeWatermark Scenario.with_cleaning_tool "/tmp/out.png"
                   (Scenario.connected Scenario.tool_installed)))
     !! "/tmp/out.png.clean.png"%string = None.
Proof. split; vm_compute; reflexivity. Qed.

End WatermarkFacts.

(** ** client.ts: image headers *)

Module DimensionFacts.
Import Errors Run Env Types Node Client Spec RunFacts.
Local Open Scope list_scope.

Lemma padded_length n bytes : length (padded n bytes) = n.
Proof.
  unfold padded. rewrite length_take, length_app, length_replicate. lia.
Qed.

Lemma padded_lookup n bytes i :
  (i < n)%nat ->
  padded n bytes !! i = Some (default Byte.x00 (bytes !! i)).
Proof.
  intros Hi. unfold padded. rewrite lookup_take_lt by exact Hi.
  destruct (bytes !! i) as [b|] eqn:E; cbn.
  - rewrite lookup_app_l by (eapply lookup_lt_Some; exact E). exact E.
  - apply lookup_ge_None in E. rewrite lookup_app_r by exact E.
    apply lookup_replicate_2. lia.
Qed.

Lemma padded_byte_or_zero n bytes i :
  (i < n)%nat -> byte_or_zero (padded n bytes) i = byte_or_zero bytes i.
Proof.
  intros Hi. unfold byte_or_zero. rewrite padded_lookup by exact Hi.
  destruct (bytes !! i); reflexivity.
Qed.

Lemma padded_byte_at_is n bytes i v :
  (i < n)%nat -> v <> Byte.x00 ->
  byte_at_is (padded n bytes) i v = byte_at_is bytes i v.
Proof.
  intros Hi Hv. unfold byte_at_is. rewrite padded_lookup by exact Hi.
  destruct (bytes !! i); [reflexivity|].
  change (Byte.eqb Byte.x00 v = false).
  destruct (Byte.eqb Byte.x00 v) eqn:E; [|reflexivity].
  apply Byte.byte_dec_bl in E. congruence.
Qed.

Lemma readUInt32BE_run buf off (s : St) :
  (off + 4 <= length buf)%nat ->
  readUInt32BE buf off s = (Ok (be32 buf off), s).
Proof.
  intros H. unfold readUInt32BE.
  apply Nat.leb_le in H. rewrite H. reflexivity.
Qed.

Lemma readUInt16BE_run buf off (s : St) :
  (off + 2 <= length buf)%nat ->
  readUInt16BE buf off s = (Ok (be16 buf off), s).
Proof.
  intros H. unfold readUInt16BE.
  apply Nat.leb_le in H. rewrite H. reflexivity.
Qed.

Lemma scan_sof0_none buf count :
  forall i0 (s : St),
    (forall i, (i0 <= i < i0 + count)%nat -> marker_at buf i = false) ->
    scan_sof0 buf count i0 s = (Ok None, s).
Proof.
  induction count as [|count IH]; intros i0 s Hnone; [reflexivity|].
  cbn [scan_sof0]. fold (marker_at buf i0).
  rewrite Hnone by lia. apply IH. intros i Hi. apply Hnone. lia.
Qed.

Lemma scan_sof0_some buf count :
  forall i0 i (s : St),
    (i0 <= i < i0 + count)%nat ->
    marker_at buf i = true ->
    (forall j, (i0 <= j < i)%nat -> marker_at buf j = false) ->
    (i + 9 <= length buf)%nat ->
    scan_sof0 buf count i0 s
    = (Ok (Some {| dim_width := be16 buf (i + 7);
                   dim_height := be16 buf (i + 5) |}), s).
Proof.
  induction count as [|count IH]; intros i0 i s Hi Hm Hbefore Hlen; [lia|].
  cbn [scan_sof0]. fold (marker_at buf i0).
  destruct (Nat.eq_dec i0 i) as [->|Hne].
  - rewrite Hm.
    erewrite bind_ok by (apply readUInt16BE_run; lia).
    erewrite bind_ok by (apply readUInt16BE_run; lia).
    reflexivity.
  - rewrite Hbefore by lia. apply IH; try assumption; [lia|].
    intros j Hj. apply Hbefore. lia.
Qed.

Lemma readPrefix_run path n bytes s :
  files s !! path = Some bytes ->
  readPrefix path n s = (Ok (padded n bytes), s).
Proof.
  intros H. unfold readPrefix, bind, get, ret. cbn. rewrite H. reflexivity.
Qed.

Lemma readFileSync_run path bytes s :
  files s !! path = Some bytes ->
  readFileSync path s = (Ok bytes, s).
Proof.
  intros H. unfold readFileSync, bind, get, ret. cbn. rewrite H. reflexivity.
Qed.

Lemma header_test bytes :
  byte_at_is (padded 24 bytes) 0 Byte.x89
  && byte_at_is (padded 24 bytes) 1 Byte.x50
  = starts_89_50 bytes.
Proof.
  unfold starts_89_50.
  rewrite !padded_byte_at_is by (lia || discriminate). reflexivity.
Qed.

(** What [getImageDimensions] returns, by the shape of the file. *)
Lemma dimensions_of_shape (filePath : string) (s : St)
    (d : Dimensions) :
  FileShape (files s !! filePath) d ->
  getImageDimensions filePath s = (Ok d, s).
Proof.
  intros Hshape.
  assert (Hbody : exists found,
            try_catch (read_dimensions filePath) (fun _ => ret None) s
            = (Ok found, s)
            /\ match found with
               | Some d' => d'
               | None => no_dimensions
               end = d).
  { inversion Hshape as [Hfile|bytes Hpng Hfile|bytes i Hpng Hlen Hm Hfirst Hfile
                        |bytes Hpng Hnone Hfile]; subst d; symmetry in Hfile.
    - exists None. split; [|reflexivity].
      unfold try_catch, read_dimensions, readPrefix, bind, get, ret, throw.
      cbn. rewrite Hfile. reflexivity.
    - exists (Some {| dim_width := be32 bytes 16; dim_height := be32 bytes 20 |}).
      split; [|reflexivity].
      unfold try_catch, read_dimensions.
      erewrite bind_ok by (apply readPrefix_run; exact Hfile).
      rewrite header_test, Hpng.
      erewrite bind_ok
        by (apply readUInt32BE_run; rewrite padded_length; lia).
      erewrite bind_ok
        by (apply readUInt32BE_run; rewrite padded_length; lia).
      unfold ret, be32. rewrite !padded_byte_or_zero by lia. reflexivity.
    - exists (Some {| dim_width := be16 bytes (i + 7);
                      dim_height := be16 bytes (i + 5) |}).
      split; [|reflexivity].
      unfold try_catch, read_dimensions.
      erewrite bind_ok by (apply readPrefix_run; exact Hfile).
      rewrite header_test, Hpng.
      erewrite bind_ok by (apply readFileSync_run; exact Hfile).
      rewrite (scan_sof0_some bytes _ 0 i); try assumption; try lia.
      + reflexivity.
      + intros j Hj. apply Hfirst. lia.
    - exists None. split; [|reflexivity].
      unfold try_catch, read_dimensions.
      erewrite bind_ok by (apply readPrefix_run; exact Hfile).
      rewrite header_test, Hpng.
      erewrite bind_ok by (apply readFileSync_run; exact Hfile).
      rewrite scan_sof0_none; [reflexivity|].
      intros i Hi. apply Hnone. lia. }
  destruct Hbody as [found [Hbody Hd]].
  unfold getImageDimensions. erewrite bind_ok by exact Hbody.
  unfold ret. rewrite Hd. reflexivity.
Qed.

(** Every file has a shape: the cases of [FileShape] leave nothing out. *)
Lemma first_marker bytes n :
  (forall i, (i < n)%nat -> marker_at bytes i = false)
  \/ exists i, (i < n)%nat /\ marker_at bytes i = true
               /\ forall j, (j < i)%nat -> marker_at bytes j = false.
Proof.
  induction n as [|n IH].
  - left. intros i Hi. lia.
  - destruct IH as [Hnone|[i [Hi [Hm Hfirst]]]].
    + destruct (marker_at bytes n) eqn:E.
      * right. exists n. split; [lia|]. split; [exact E|exact Hnone].
      * left. intros i Hi. destruct (Nat.eq_dec i n) as [->|Hne];
          [exact E|apply Hnone; lia].
    + right. exists i. split; [lia|]. split; assumption.
Qed.

Lemma file_shape_total (file : option (list Byte.byte)) :
  exists d, FileShape file d.
Proof.
  destruct file as [bytes|]; [|eexists; apply ShapeUnreadable].
  destruct (starts_89_50 bytes) eqn:Hpng; [eexists; apply ShapePngLike; exact Hpng|].
  destruct (first_marker bytes (length bytes - 9)) as [Hnone|[i [Hi [Hm Hfirst]]]].
  - eexists. apply ShapeOther; [exact Hpng|].
    intros i Hi. apply Hnone. lia.
  - eexists. apply (ShapeMarker bytes i); try assumption. lia.
Qed.

Lemma getImageDimensions_total (filePath : string) (s : St) :
  exists d, getImageDimensions filePath s = (Ok d, s).
Proof.
  destruct (file_shape_total (files s !! filePath)) as [d Hd].
  exists d. apply dimensions_of_shape. exact Hd.
Qed.

(** The shape of the file says all there is to say about the result. *)
Lemma shape_of_dimensions (filePath : string) (s : St) (d : Dimensions) :
  getImageDimensions filePath s = (Ok d, s) ->
  FileShape (files s !! filePath) d.
Proof.
  intros Hrun.
  destruct (file_shape_total (files s !! filePath)) as [d' Hd'].
  pose proof (dimensions_of_shape filePath s d' Hd') as Hrun'.
  rewrite Hrun in Hrun'. inversion Hrun'; subst d'. exact Hd'.
Qed.

(** When the result is 0 x 0. *)
Lemma zero_dimensions_iff (filePath : string) (s : St) :
  getImageDimensions filePath s = (Ok no_dimensions, s)
  <-> match files s !! filePath with
      | None => True
      | Some bytes =>
          if starts_89_50 bytes
          then be32 bytes 16 = 0 /\ be32 bytes 20 = 0
          else forall i, (i + 9 < length bytes)%nat ->
                         marker_at bytes i = true ->
                         (forall j, (j < i)%nat -> marker_at bytes j = false) ->
                         be16 bytes (i + 7) = 0 /\ be16 bytes (i + 5) = 0
      end.
Proof.
  split.
  - intros Hrun. apply shape_of_dimensions in Hrun.
    remember (files s !! filePath) as file eqn:Hfile.
    remember no_dimensions as d eqn:Hd.
    destruct Hrun as [|bytes Hpng|bytes i0 Hpng Hlen0 Hm0 Hfirst0
                     |bytes Hpng Hnone]; [exact I|rewrite Hpng..].
    + unfold no_dimensions in Hd. injection Hd as Hw Hh. split; assumption.
    + unfold no_dimensions in Hd. injection Hd as Hw Hh.
      intros i Hlen Hm Hfirst.
      assert (i = i0).
      { destruct (Nat.lt_trichotomy i i0) as [Hlt|[Heq|Hgt]]; [|exact Heq|].
        - rewrite (Hfirst0 i Hlt) in Hm. discriminate Hm.
        - rewrite (Hfirst i0 Hgt) in Hm0. discriminate Hm0. }
      subst i. split; assumption.
    + intros i Hlen Hm _. rewrite (Hnone i Hlen) in Hm. discriminate Hm.
  - intros Hzero. apply dimensions_of_shape.
    destruct (files s !! filePath) as [bytes|]; [|apply ShapeUnreadable].
    destruct (starts_89_50 bytes) eqn:Hpng.
    + destruct Hzero as [Hw Hh].
      pose proof (ShapePngLike bytes Hpng) as Hshape.
      rewrite Hw, Hh in Hshape. exact Hshape.
    + destruct (first_marker bytes (length bytes - 9))
        as [Hnone|[i [Hi [Hm Hfirst]]]].
      * apply ShapeOther; [exact Hpng|].
        intros i Hi. apply Hnone. lia.
      * assert (Hlen : (i + 9 < length bytes)%nat) by lia.
        destruct (Hzero i Hlen Hm Hfirst) as [Hw Hh].
        pose proof (ShapeMarker bytes i Hpng Hlen Hm Hfirst) as Hshape.
        rewrite Hw, Hh in Hshape. exact Hshape.
Qed.

(** C1, as amended: [getImageDimensions] never throws and changes
    nothing.  A file that cannot be read gives 0 x 0.  A file whose first
    two bytes are 89 50 gives the big-endian 32-bit numbers at offsets 16
    and 20 of its first 24 bytes (missing bytes count as zero) -- for a PNG
    file, the width and height of its header.  Any other file gives the
    big-endian 16-bit numbers at offsets [i + 7] (width) and [i + 5]
    (height) for the first index [i] with the bytes FF C0 and at least ten
    bytes from [i] on -- for a JPEG whose first such pair is its SOF0
    marker, the width and height of the frame; and 0 x 0 when there is no
    such index.  The result is nothing else; so it is 0 x 0 exactly for a
    file that cannot be read, a file that starts with 89 50 and has zero
    for both 32-bit numbers, and a file that does not start with 89 50 and
    has no such index or zero for both 16-bit numbers at the first one. *)
Theorem getImageDimensions_by_shape (filePath : string) (s : St) :
  (exists d, getImageDimensions filePath s = (Ok d, s))
  /\ (forall d, FileShape (files s !! filePath) d ->
                getImageDimensions filePath s = (Ok d, s))
  /\ (forall d, getImageDimensions filePath s = (Ok d, s) ->
                FileShape (files s !! filePath) d)
  /\ (getImageDimensions filePath s = (Ok no_dimensions, s)
      <-> match files s !! filePath with
          | None => True
          | Some bytes =>
              if starts_89_50 bytes
              then be32 bytes 16 = 0 /\ be32 bytes 20 = 0
              else forall i, (i + 9 < length bytes)%nat ->
                             marker_at bytes i = true ->
                             (forall j, (j < i)%nat ->
                                        marker_at bytes j = false) ->
                             be16 bytes (i + 7) = 0 /\ be16 bytes (i + 5) = 0
          end).
Proof.
  split; [|split; [|split]].
  - destruct (file_shape_total (files s !! filePath)) as [d Hd].
    exists d. apply dimensions_of_shape. exact Hd.
  - intros d Hd. apply dimensions_of_shape. exact Hd.
  - intros d Hd. apply shape_of_dimensions. exact Hd.
  - apply zero_dimensions_iff.
Qed.

Lemma getImageDimensions_by_shape_witness :
  getImageDimensions "/tmp/out.png"
    (Scenario.connected (<["/tmp/out.png"%string := Scenario.png_1024x768]> ∅))
  = (Ok {| dim_width := 1024; dim_height := 768 |},
     Scenario.connected (<["/tmp/out.png"%string := Scenario.png_1024x768]> ∅)).
Proof.
  apply (proj1 (proj2 (getImageDimensions_by_shape "/tmp/out.png"
                         (Scenario.connected
                            (<["/tmp/out.png"%string
                               := Scenario.png_1024x768]> ∅))))).
  change (files (Scenario.connected
                   (<["/tmp/out.png"%string := Scenario.png_1024x768]> ∅))
          !! "/tmp/out.png"%string)
    with (Some Scenario.png_1024x768).
  apply (ShapePngLike Scenario.png_1024x768). reflexivity.
Defined.

(** C1, as stated, fails on twenty-four bytes that are neither a PNG (the
    signature is not there) nor a JPEG: the result is 1 x 1, not 0 x 0. *)
Lemma not_an_image_has_dimensions :
  spec_is_png Scenario.not_an_image = false
  /\ spec_is_jpeg Scenario.not_an_image = false
  /\ fst (getImageDimensions "/tmp/junk.bin"
            (Scenario.connected
               (<["/tmp/junk.bin"%string := Scenario.not_an_image]> ∅)))
     = Ok {| dim_width := 1; dim_height := 1 |}
  /\ {| dim_width := 1; dim_height := 1 |} <> no_dimensions.
Proof.
  split; [reflexivity|]. split; [reflexivity|]. split.
  - vm_compute. reflexivity.
  - discriminate.
Qed.

(** *** Well-formed headers *)

Lemma byteZ_byte_of_Z (z : Z) : byteZ (byte_of_Z z) = z mod 256.
Proof.
  unfold byteZ, byte_of_Z.
  pose proof (Z.mod_pos_bound z 256 ltac:(lia)) as Hb.
  destruct (Byte.of_N (Z.to_N (z mod 256))) as [b|] eqn:E.
  - apply Byte.to_of_N in E. rewrite E. apply Z2N.id. lia.
  - apply Byte.of_N_None_iff in E. lia.
Qed.

Lemma four_bytes_sum (z : Z) :
  0 <= z < 4294967296 ->
  (z / 256 / 256 / 256) mod 256 * 16777216 + (z / 256 / 256) mod 256 * 65536
  + (z / 256) mod 256 * 256 + z mod 256 = z.
Proof.
  intros Hz.
  pose proof (Z.div_mod z 256 ltac:(lia)) as E1.
  pose proof (Z.div_mod (z / 256) 256 ltac:(lia)) as E2.
  pose proof (Z.div_mod (z / 256 / 256) 256 ltac:(lia)) as E3.
  pose proof (Z.mod_pos_bound z 256 ltac:(lia)).
  pose proof (Z.mod_pos_bound (z / 256) 256 ltac:(lia)).
  pose proof (Z.mod_pos_bound (z / 256 / 256) 256 ltac:(lia)).
  assert (H4 : 0 <= z / 256 / 256 / 256 < 256).
  { rewrite !Z.div_div by lia.
    split; [apply Z.div_pos; lia|apply Z.div_lt_upper_bound; lia]. }
  rewrite (Z.mod_small (z / 256 / 256 / 256)) by lia.
  set (a := z / 256) in *. set (b := a / 256) in *. set (c := b / 256) in *.
  lia.
Qed.

Lemma two_bytes_sum (z : Z) :
  0 <= z < 65536 -> (z / 256) mod 256 * 256 + z mod 256 = z.
Proof.
  intros Hz.
  pose proof (Z.div_mod z 256 ltac:(lia)) as E1.
  assert (H2 : 0 <= z / 256 < 256).
  { split; [apply Z.div_pos; lia|apply Z.div_lt_upper_bound; lia]. }
  rewrite (Z.mod_small (z / 256)) by lia.
  lia.
Qed.

Lemma be32_encode (z : Z) (pre rest : list Byte.byte) :
  0 <= z < 2 ^ 32 ->
  be32 (pre ++ encode_be32 z ++ rest) (length pre) = z.
Proof.
  intros Hz. unfold be32, byte_or_zero.
  rewrite (lookup_app_r pre _ (length pre)),
    (lookup_app_r pre _ (length pre + 1)),
    (lookup_app_r pre _ (length pre + 2)),
    (lookup_app_r pre _ (length pre + 3)) by lia.
  replace (length pre - length pre)%nat with 0%nat by lia.
  replace (length pre + 1 - length pre)%nat with 1%nat by lia.
  replace (length pre + 2 - length pre)%nat with 2%nat by lia.
  replace (length pre + 3 - length pre)%nat with 3%nat by lia.
  cbn [encode_be32 app lookup list_lookup].
  rewrite !byteZ_byte_of_Z.
  change (2 ^ 24) with 16777216 in *. change (2 ^ 16) with 65536 in *.
  change (2 ^ 8) with 256 in *. change (2 ^ 32) with 4294967296 in *.
  replace (z / 16777216) with (z / 256 / 256 / 256)
    by (rewrite !Z.div_div by lia; reflexivity).
  replace (z / 65536) with (z / 256 / 256)
    by (rewrite !Z.div_div by lia; reflexivity).
  apply four_bytes_sum. exact Hz.
Qed.

Lemma be16_encode (z : Z) (pre rest : list Byte.byte) :
  0 <= z < 2 ^ 16 ->
  be16 (pre ++ encode_be16 z ++ rest) (length pre) = z.
Proof.
  intros Hz. unfold be16, byte_or_zero.
  rewrite (lookup_app_r pre _ (length pre)),
    (lookup_app_r pre _ (length pre + 1)) by lia.
  replace (length pre - length pre)%nat with 0%nat by lia.
  replace (length pre + 1 - length pre)%nat with 1%nat by lia.
  cbn [encode_be16 app lookup list_lookup].
  rewrite !byteZ_byte_of_Z.
  change (2 ^ 8) with 256 in *. change (2 ^ 16) with 65536 in *.
  apply two_bytes_sum. exact Hz.
Qed.

(** A PNG file: the signature, the length and type of the header chunk,
    then width and height. *)
Lemma png_header_dimensions (filePath : string) (s : St) (wd h : Z)
    (rest : list Byte.byte) :
  0 <= wd < 2 ^ 32 ->
  0 <= h < 2 ^ 32 ->
  files s !! filePath
  = Some (spec_png_signature ++ spec_ihdr_start
          ++ encode_be32 wd ++ encode_be32 h ++ rest) ->
  getImageDimensions filePath s
  = (Ok {| dim_width := wd; dim_height := h |}, s).
Proof.
  intros Hwd Hh Hfile.
  apply dimensions_of_shape. rewrite Hfile.
  assert (E1 : be32 (spec_png_signature ++ spec_ihdr_start
                     ++ encode_be32 wd ++ encode_be32 h ++ rest) 16 = wd).
  { change (spec_png_signature ++ spec_ihdr_start
            ++ encode_be32 wd ++ encode_be32 h ++ rest)
      with ((spec_png_signature ++ spec_ihdr_start)
            ++ encode_be32 wd ++ (encode_be32 h ++ rest)).
    apply (be32_encode wd (spec_png_signature ++ spec_ihdr_start)
             (encode_be32 h ++ rest) Hwd). }
  assert (E2 : be32 (spec_png_signature ++ spec_ihdr_start
                     ++ encode_be32 wd ++ encode_be32 h ++ rest) 20 = h).
  { change (spec_png_signature ++ spec_ihdr_start
            ++ encode_be32 wd ++ encode_be32 h ++ rest)
      with ((spec_png_signature ++ spec_ihdr_start ++ encode_be32 wd)
            ++ encode_be32 h ++ rest).
    apply (be32_encode h (spec_png_signature ++ spec_ihdr_start
                          ++ encode_be32 wd) rest Hh). }
  pose proof (ShapePngLike (spec_png_signature ++ spec_ihdr_start
                            ++ encode_be32 wd ++ encode_be32 h ++ rest)
                eq_refl) as Hshape.
  rewrite E1, E2 in Hshape. exact Hshape.
Qed.

(** A file in which the first FF C0 pair opens a frame header: marker,
    two length bytes, the precision, height, width, and more. *)
Lemma jpeg_frame_dimensions (filePath : string) (s : St) (wd h : Z)
    (pre rest : list Byte.byte) (l1 l2 p c : Byte.byte) :
  0 <= wd < 2 ^ 16 ->
  0 <= h < 2 ^ 16 ->
  let bytes := pre ++ [Byte.xff; Byte.xc0; l1; l2; p]
               ++ encode_be16 h ++ encode_be16 wd ++ c :: rest in
  starts_89_50 bytes = false ->
  (forall j, (j < length pre)%nat -> marker_at bytes j = false) ->
  files s !! filePath = Some bytes ->
  getImageDimensions filePath s
  = (Ok {| dim_width := wd; dim_height := h |}, s).
Proof.
  intros Hwd Hh bytes Hpng Hfirst Hfile.
  apply dimensions_of_shape. rewrite Hfile.
  assert (E1 : be16 bytes (length pre + 7) = wd).
  { unfold bytes.
    pose proof (be16_encode wd (pre ++ [Byte.xff; Byte.xc0; l1; l2; p]
                                ++ encode_be16 h) (c :: rest) Hwd) as E.
    rewrite !length_app in E. cbn [length encode_be16] in E.
    rewrite <- !app_assoc in E.
    replace (length pre + (5 + 2))%nat with (length pre + 7)%nat in E by lia.
    exact E. }
  assert (E2 : be16 bytes (length pre + 5) = h).
  { unfold bytes.
    pose proof (be16_encode h (pre ++ [Byte.xff; Byte.xc0; l1; l2; p])
                  (encode_be16 wd ++ c :: rest) Hh) as E.
    rewrite length_app in E. cbn [length] in E.
    rewrite <- app_assoc in E. exact E. }
  assert (Hshape : FileShape (Some bytes)
                     {| dim_width := be16 bytes (length pre + 7);
                        dim_height := be16 bytes (length pre + 5) |}).
  { apply (ShapeMarker bytes (length pre)); try assumption.
    - unfold bytes, encode_be16. rewrite !length_app. cbn [length]. lia.
    - unfold marker_at, byte_at_is, bytes.
      rewrite (lookup_app_r pre _ (length pre)),
        (lookup_app_r pre _ (length pre + 1)) by lia.
      replace (length pre - length pre)%nat with 0%nat by lia.
      replace (length pre + 1 - length pre)%nat with 1%nat by lia.
      reflexivity. }
  rewrite E1, E2 in Hshape. exact Hshape.
Qed.

End DimensionFacts.

(** ** More on the connection life cycle *)

Module LifecycleFacts.
Import Errors Run Env Types Client Spec SpecMore RunFacts BrowserFacts.
Local Open Scope list_scope.

(** X1: [disconnect] is idempotent.  On a browser that holds no context --
    never connected, or already disconnected -- it returns without doing
    anything; and after a [disconnect] that returned, another one returns
    and changes nothing. *)
Theorem disconnect_twice (w : World) (s : St) :
  (context (browser s) = None -> Browser.disconnect w s = (Ok tt, s))
  /\ (forall s1, Browser.disconnect w s = (Ok tt, s1) ->
                 Browser.disconnect w s1 = (Ok tt, s1)).
Proof.
  unfold Browser.disconnect, bind, interact, emit, answer, modify,
    set_browser, get, ret.
  cbn. split.
  - intros H. rewrite H. reflexivity.
  - intros s1. destruct (context (browser s)) eqn:Hctx; cbn.
    + destruct (context_close w); cbn; intros H; inversion H; subst s1.
      reflexivity.
    + intros H. inversion H; subst s1. rewrite Hctx. reflexivity.
Qed.

Lemma disconnect_twice_witness :
  Browser.disconnect Scenario.smooth
    (snd (Browser.disconnect Scenario.smooth (Scenario.connected ∅)))
  = (Ok tt, snd (Browser.disconnect Scenario.smooth (Scenario.connected ∅)))
  /\ Browser.disconnect Scenario.smooth ScenarioMore.unconnected
     = (Ok tt, ScenarioMore.unconnected).
Proof.
  split.
  - apply (proj2 (disconnect_twice Scenario.smooth (Scenario.connected ∅))).
    reflexivity.
  - apply (proj1 (disconnect_twice Scenario.smooth ScenarioMore.unconnected)).
    reflexivity.
Defined.

(** X2: when the engine fails to close the context, [disconnect] throws
    that error and keeps both handles: the client still counts as
    connected and [page] still answers. *)
Theorem failed_close_keeps_handles (w : World) (s : St) (e : Thrown) :
  context (browser s) = Some TheContext ->
  _page (browser s) = Some ThePage ->
  context_close w = Throw e ->
  exists s',
    Browser.disconnect w s = (Throw e, s')
    /\ browser s' = browser s
    /\ trace s' = trace s ++ [EvContextClose]
    /\ Browser.page s' = (Ok ThePage, s').
Proof.
  intros Hctx Hpage Hclose.
  unfold Browser.disconnect, bind, interact, emit, answer, modify,
    set_browser, get, ret.
  cbn. rewrite Hctx. cbn. rewrite Hclose. cbn.
  eexists. split; [reflexivity|]. split; [reflexivity|].
  split; [reflexivity|].
  apply GenerationFacts.page_ok. exact Hpage.
Qed.

Lemma failed_close_keeps_handles_witness :
  exists s',
    Browser.disconnect ScenarioMore.close_fails (Scenario.connected ∅)
    = (Throw ScenarioMore.engine_error, s')
    /\ browser s' = browser (Scenario.connected ∅).
Proof.
  destruct (failed_close_keeps_handles ScenarioMore.close_fails
              (Scenario.connected ∅) ScenarioMore.engine_error)
    as [s' [H [Hb _]]]; try reflexivity.
  exists s'. split; assumption.
Defined.

Lemma close_pages_all w n :
  forall i s,
    (forall j, (j < n)%nat -> close_existing w (i + j) = Ok tt) ->
    Browser.close_pages w n i s
    = (Ok tt, {| browser := browser s; clock := clock s; files := files s;
                 trace := trace s ++ replicate n EvPageClose |}).
Proof.
  induction n as [|n IH]; intros i s Hall.
  - cbn. unfold ret. rewrite app_nil_r. destruct s; reflexivity.
  - cbn [Browser.close_pages].
    erewrite bind_ok
      by (apply GenerationFacts.interact_ok;
          rewrite <- (Nat.add_0_r i); apply Hall; lia).
    rewrite IH.
    + cbn [browser clock files trace replicate].
      rewrite <- app_assoc. reflexivity.
    + intros j Hj. replace (S i + j)%nat with (i + S j)%nat by lia.
      apply Hall. lia.
Qed.

(** X3: a [connect] in which every step goes through starts the engine on
    the profile directory (made first if it is not there), closes each of
    the tabs the restored context holds, opens exactly one page, and leaves
    the browser holding the context and that page. *)
Theorem connect_opens_one_fresh_page (w : World) (headless : option bool)
    (s : St) (tabs : nat) :
  (profile_dir_exists w = true \/ mkdir_profile w = Ok tt) ->
  launch w = Ok tabs ->
  (forall j, (j < tabs)%nat -> close_existing w j = Ok tt) ->
  new_page w = Ok tt ->
  Browser.connect w headless s
  = (Ok tt,
     {| browser := {| context := Some TheContext; _page := Some ThePage;
                      userDataDir := userDataDir (browser s) |};
        clock := clock s;
        files := files s;
        trace := trace s ++ before_launch w (userDataDir (browser s))
                 ++ [EvLaunch (userDataDir (browser s))
                              (Js.nullish headless false)]
                 ++ replicate tabs EvPageClose ++ [EvNewPage] |}).
Proof.
  intros Hdir Hlaunch Hclose Hnew.
  unfold Browser.connect, before_launch.
  erewrite bind_ok by reflexivity.
  destruct (profile_dir_exists w).
  - erewrite bind_ok by reflexivity.
    erewrite bind_ok by (apply GenerationFacts.interact_ok; exact Hlaunch).
    erewrite bind_ok by reflexivity.
    erewrite bind_ok by (apply close_pages_all; exact Hclose).
    erewrite bind_ok by (apply GenerationFacts.interact_ok; exact Hnew).
    unfold set_browser, modify. cbn.
    rewrite <- !app_assoc. reflexivity.
  - destruct Hdir as [Hdir|Hdir]; [discriminate|].
    erewrite bind_ok by (apply GenerationFacts.interact_ok; exact Hdir).
    erewrite bind_ok by (apply GenerationFacts.interact_ok; exact Hlaunch).
    erewrite bind_ok by reflexivity.
    erewrite bind_ok by (apply close_pages_all; exact Hclose).
    erewrite bind_ok by (apply GenerationFacts.interact_ok; exact Hnew).
    unfold set_browser, modify. cbn.
    rewrite <- !app_assoc. reflexivity.
Qed.

Lemma connect_opens_one_fresh_page_witness :
  trace (snd (Browser.connect Scenario.smooth None ScenarioMore.unconnected))
  = [EvLaunch EmptyString false; EvPageClose; EvNewPage].
Proof.
  rewrite (connect_opens_one_fresh_page Scenario.smooth None
             ScenarioMore.unconnected 1).
  - reflexivity.
  - left. reflexivity.
  - reflexivity.
  - intros j Hj. reflexivity.
  - reflexivity.
Defined.

(** X4: when [connect] fails after the engine has started -- a restored
    tab does not close, or the new page does not open -- the context is
    kept, so that a later [disconnect] closes it, and no page handle is
    set. *)
Theorem failed_connect_keeps_context (w : World) (headless : option bool)
    (s : St) (e : Thrown) :
  launches w ->
  fst (Browser.connect w headless s) = Throw e ->
  context (browser (snd (Browser.connect w headless s))) = Some TheContext
  /\ _page (browser (snd (Browser.connect w headless s))) = _page (browser s)
  /\ last (trace (snd (Browser.disconnect w
                         (snd (Browser.connect w headless s)))))
     = Some EvContextClose.
Proof.
  intros Hl Hthrow.
  destruct (browser_connect_launch w headless s Hl) as [Hctx _].
  split; [exact Hctx|]. split; [|apply disconnect_last_event; exact Hctx].
  destruct Hl as [Hdir [tabs Hlaunch]].
  revert Hthrow.
  unfold Browser.connect, bind, interact, emit, answer, modify, set_browser,
    get, ret.
  cbn.
  destruct (profile_dir_exists w);
    [|destruct Hdir as [Hdir|Hdir]; [discriminate|rewrite Hdir]];
    cbn; rewrite Hlaunch; cbn.
  all: match goal with |- context [Browser.close_pages ?w0 ?n 0 ?s2] =>
         destruct (close_pages_context w0 n 0 s2) as [_ Hpg];
         destruct (Browser.close_pages w0 n 0 s2) as [[u|e'] s3]
       end; cbn in Hpg |- *.
  all: try destruct (new_page w); cbn; try discriminate.
  all: intros _; exact Hpg.
Qed.

Lemma failed_connect_keeps_context_witness :
  context (browser (snd (Browser.connect ScenarioMore.page_never_opens None
                           ScenarioMore.unconnected))) = Some TheContext
  /\ _page (browser (snd (Browser.connect ScenarioMore.page_never_opens None
                            ScenarioMore.unconnected))) = None.
Proof.
  destruct (failed_connect_keeps_context ScenarioMore.page_never_opens None
              ScenarioMore.unconnected ScenarioMore.engine_error)
    as [Hc [Hp _]].
  - split; [left; reflexivity|]. exists 1%nat. reflexivity.
  - reflexivity.
  - split; [exact Hc|exact Hp].
Defined.

Lemma browser_connect_ok w headless s s1 :
  Browser.connect w headless s = (Ok tt, s1) ->
  context (browser s1) = Some TheContext /\ _page (browser s1) = Some ThePage.
Proof.
  unfold Browser.connect, bind, interact, emit, answer, modify, set_browser,
    get, ret.
  cbn.
  destruct (profile_dir_exists w); [|destruct (mkdir_profile w)]; cbn;
    try discriminate.
  all: destruct (launch w) as [tabs|e]; cbn; try discriminate.
  all: match goal with |- context [Browser.close_pages ?w0 ?n 0 ?s2] =>
         destruct (Browser.close_pages w0 n 0 s2) as [[u|e'] s3]
       end; cbn; try discriminate.
  all: destruct (new_page w); cbn; try discriminate.
  all: intros H; inversion H; subst s1; split; reflexivity.
Qed.

(** X5: a [GeminiClient.connect] that returns leaves the client connected:
    the browser holds the context and the page, so [page] answers and a
    following [generateImage] does not fail for want of a connection. *)
Theorem connect_returns_connected (w : World) (headless : option bool)
    (s s' : St) :
  Client.connect w headless s = (Ok tt, s') ->
  context (browser s') = Some TheContext
  /\ _page (browser s') = Some ThePage
  /\ Browser.page s' = (Ok ThePage, s').
Proof.
  intros H.
  assert (Hb : context (browser s') = Some TheContext
               /\ _page (browser s') = Some ThePage).
  { revert H. unfold Client.connect. unfold bind at 1.
    destruct (Browser.connect w headless s) as [[u|e] s1] eqn:E;
      [|discriminate].
    destruct u. apply browser_connect_ok in E.
    intros H.
    pose proof (after_browser_connect_same_browser w s1) as Hsame.
    rewrite H in Hsame. cbn in Hsame. rewrite Hsame. exact E. }
  destruct Hb as [Hc Hp]. split; [exact Hc|]. split; [exact Hp|].
  apply GenerationFacts.page_ok. exact Hp.
Qed.

Lemma connect_returns_connected_witness :
  Browser.page (snd (Client.connect Scenario.late_login None
                       ScenarioMore.unconnected))
  = (Ok ThePage,
     snd (Client.connect Scenario.late_login None ScenarioMore.unconnected)).
Proof.
  apply (connect_returns_connected Scenario.late_login None
           ScenarioMore.unconnected).
  vm_compute. reflexivity.
Defined.

(** X6: on a client that is not connected, every operation of the client
    that needs the page -- the login wait, the consent handling and
    [generateImage] -- throws "Not connected - call connect() first" at
    once: nothing is sent to the browser and the state is as before. *)
Theorem operations_need_connection (w : World) (prompt out : string)
    (options : GenerateImageOptions) (s : St) :
  _page (browser s) = None ->
  Client.generateImage w prompt out options s = (Throw NOT_CONNECTED, s)
  /\ ensureLoggedIn w s = (Throw NOT_CONNECTED, s)
  /\ handleCookieConsent w s = (Throw NOT_CONNECTED, s).
Proof.
  intros Hpage.
  assert (Hp : Browser.page s = (Throw NOT_CONNECTED, s)).
  { unfold Browser.page, bind, get, throw. cbn. rewrite Hpage. reflexivity. }
  unfold Client.generateImage, ensureLoggedIn, handleCookieConsent.
  rewrite !(bind_throw _ _ _ _ _ Hp). repeat split.
Qed.

Lemma operations_need_connection_witness :
  Client.generateImage Scenario.smooth "a red circle" "/tmp/out.png"
    no_options ScenarioMore.unconnected
  = (Throw NOT_CONNECTED, ScenarioMore.unconnected).
Proof.
  apply (operations_need_connection Scenario.smooth "a red circle"
           "/tmp/out.png" no_options ScenarioMore.unconnected).
  reflexivity.
Defined.

(** X7: the [finally] block decides what the top-level [generateImage]
    returns.  When closing the context goes through, the call returns what
    its body returned or throws what its body threw; when the engine has
    started and closing fails, the call throws the error of the close,
    whatever the body did -- even if the image was generated and saved. *)
Theorem finally_decides_outcome (w : World) (prompt out : string)
    (options : GenerateImageOptions) (fs : gmap string (list Byte.byte))
    (now : Z) :
  let body := (Client.connect w (headless options) ;;;
               Client.generateImage w prompt out options)%run in
  let run := Lib.generateImage w prompt out options (Lib.start fs now) in
  (context_close w = Ok tt -> fst run = fst (body (fresh_client w fs now)))
  /\ (forall e, launches w -> context_close w = Throw e -> fst run = Throw e).
Proof.
  cbn zeta. rewrite lib_generateImage_unfold. split.
  - intros Hclose. unfold try_finally.
    destruct ((Client.connect w (headless options) ;;;
               Client.generateImage w prompt out options)%run
                (fresh_client w fs now)) as [r s1].
    unfold Client.disconnect, Browser.disconnect, bind, interact, emit,
      answer, modify, set_browser, get, ret.
    cbn. destruct (context (browser s1)); cbn; [rewrite Hclose|]; reflexivity.
  - intros e Hl Hclose. unfold try_finally.
    pose proof (body_browser w prompt out options (fresh_client w fs now))
      as Hb.
    destruct (browser_connect_launch w (headless options)
                (fresh_client w fs now) Hl) as [Hctx _].
    rewrite <- Hb in Hctx.
    destruct ((Client.connect w (headless options) ;;;
               Client.generateImage w prompt out options)%run
                (fresh_client w fs now)) as [r s1].
    cbn in Hctx.
    unfold Client.disconnect, Browser.disconnect, bind, interact, emit,
      answer, modify, set_browser, get, ret.
    cbn. rewrite Hctx. cbn. rewrite Hclose. reflexivity.
Qed.

Lemma finally_decides_outcome_witness :
  fst (Lib.generateImage ScenarioMore.close_fails "a red circle"
         "/tmp/out.png" no_options (Lib.start ∅ 0))
  = Throw ScenarioMore.engine_error
  /\ fst (Lib.generateImage Scenario.never_login "a red circle"
            "/tmp/out.png" no_options (Lib.start ∅ 0))
     = fst ((Client.connect Scenario.never_login None ;;;
             Client.generateImage Scenario.never_login "a red circle"
               "/tmp/out.png" no_options)%run
              (fresh_client Scenario.never_login ∅ 0)).
Proof.
  split.
  - apply (proj2 (finally_decides_outcome ScenarioMore.close_fails
                    "a red circle" "/tmp/out.png" no_options ∅ 0)).
    + split; [left; reflexivity|]. exists 1%nat. reflexivity.
    + reflexivity.
  - apply (proj1 (finally_decides_outcome Scenario.never_login
                    "a red circle" "/tmp/out.png" no_options ∅ 0)).
    reflexivity.
Defined.

End LifecycleFacts.

(** ** More on the way to the prompt *)

Module ConnectFacts.
Import Errors Run Env Types Client Spec SpecMore RunFacts.
Local Open Scope list_scope.

(** X8: when the first check already finds the chat input on a page that
    is not the sign-in host, [ensureLoggedIn] returns at once: one
    evaluation, no wait, no poll. *)
Theorem logged_in_returns_at_once (w : World) (s : St) (v : PageView) :
  _page (browser s) = Some ThePage ->
  login_initial w = Ok v ->
  has_chat_input v = true ->
  Js.includes "accounts.google.com" (href v) = false ->
  ensureLoggedIn w s
  = (Ok tt, {| browser := browser s; clock := clock s; files := files s;
               trace := trace s ++ [EvEvaluate LoginCheck] |})
  /\ polls_made (trace s ++ [EvEvaluate LoginCheck]) = polls_made (trace s).
Proof.
  intros Hpage Hinit Hinput Hhost. split.
  - rewrite (LoginFacts.ensureLoggedIn_unfold w s v Hpage Hinit).
    unfold login_check. rewrite Hhost, Hinput. reflexivity.
  - rewrite LoginFacts.polls_made_app. cbn. lia.
Qed.

Lemma logged_in_returns_at_once_witness :
  fst (ensureLoggedIn Scenario.smooth (Scenario.connected ∅)) = Ok tt
  /\ clock (snd (ensureLoggedIn Scenario.smooth (Scenario.connected ∅))) = 0.
Proof.
  destruct (logged_in_returns_at_once Scenario.smooth (Scenario.connected ∅)
              Scenario.chat_page) as [H _]; try reflexivity.
  rewrite H. split; reflexivity.
Defined.

(** X9: an error of the first evaluation is not tolerated the way errors
    during the polls are: [ensureLoggedIn] throws it as it is, without a
    single poll. *)
Theorem first_check_error_aborts (w : World) (s : St) (e : Thrown) :
  _page (browser s) = Some ThePage ->
  login_initial w = Throw e ->
  ensureLoggedIn w s
  = (Throw e, {| browser := browser s; clock := clock s; files := files s;
                 trace := trace s ++ [EvEvaluate LoginCheck] |}).
Proof.
  intros Hpage Hinit. unfold ensureLoggedIn. generalize 60%nat. intros n.
  unfold Browser.page, bind, interact, emit, answer, modify, get, ret.
  cbn. rewrite Hpage, Hinit. reflexivity.
Qed.

Lemma first_check_error_aborts_witness :
  fst (ensureLoggedIn ScenarioMore.first_check_fails (Scenario.connected ∅))
  = Throw ScenarioMore.engine_error.
Proof.
  rewrite (first_check_error_aborts ScenarioMore.first_check_fails
             (Scenario.connected ∅) ScenarioMore.engine_error);
    reflexivity.
Defined.

(** The pause [handleCookieConsent] makes after a click that went
    through. *)
Lemma handleCookieConsent_run w s :
  _page (browser s) = Some ThePage ->
  exists pause,
    handleCookieConsent w s
    = (Ok tt, {| browser := browser s; clock := clock s + pause;
                 files := files s; trace := trace s ++ consent_events w |})
    /\ (pause = 0 \/ (pause = 2000 /\ consent_clicked w = true
                      /\ accept_click w = Ok tt)).
Proof.
  intros Hpage.
  unfold handleCookieConsent, consent_events, consent_clicked.
  erewrite bind_ok by (apply GenerationFacts.page_ok; exact Hpage).
  destruct (Js.includes "consent.google.com" (url_after_goto w)).
  - unfold try_catch, or_default, try_catch, bind, waitForTimeout, interact,
      bind, emit, answer, advance, modify, ret.
    cbn.
    destruct (accept_visible w) as [[|]|e]; cbn.
    + destruct (accept_click w) as [u|e]; cbn.
      * destruct u. exists 2000. split; [|right; repeat split].
        apply f_equal, LoginFacts.st_eq; [reflexivity|].
        rewrite <- !app_assoc. reflexivity.
      * exists 0. split; [|left; reflexivity].
        apply f_equal, LoginFacts.st_eq; [lia|].
        rewrite <- !app_assoc. reflexivity.
    + exists 0. split; [|left; reflexivity].
      apply f_equal, LoginFacts.st_eq; [lia|reflexivity].
    + exists 0. split; [|left; reflexivity].
      apply f_equal, LoginFacts.st_eq; [lia|reflexivity].
  - exists 0. split; [|left; reflexivity].
    unfold ret. apply f_equal.
    destruct s; cbn. apply LoginFacts.st_eq; [lia|].
    symmetry. apply app_nil_r.
Qed.

(** X10: on a connected client [handleCookieConsent] never throws.  Off
    the consent host it does nothing at all; on it, it looks for the
    "accept all" button, clicks only when the button is visible, and an
    error of the probe or of the click is dropped. *)
Theorem consent_is_best_effort (w : World) (s : St) :
  _page (browser s) = Some ThePage ->
  exists s',
    handleCookieConsent w s = (Ok tt, s')
    /\ browser s' = browser s
    /\ files s' = files s
    /\ (Js.includes "consent.google.com" (url_after_goto w) = false -> s' = s)
    /\ (In (EvClick accept_selector) (consent_events w) ->
        accept_visible w = Ok true)
    /\ trace s' = trace s ++ consent_events w.
Proof.
  intros Hpage.
  destruct (handleCookieConsent_run w s Hpage) as [pause [Hrun Hpause]].
  eexists. split; [exact Hrun|]. cbn [browser files trace].
  split; [reflexivity|]. split; [reflexivity|]. split; [|split; [|reflexivity]].
  - intros Hhost. revert Hrun Hpause.
    unfold consent_events, consent_clicked. rewrite Hhost. cbn.
    intros _ [->|[_ [H _]]]; [|discriminate].
    destruct s; cbn. apply LoginFacts.st_eq; [lia|apply app_nil_r].
  - unfold consent_events.
    destruct (Js.includes "consent.google.com" (url_after_goto w));
      [|intros []].
    destruct (accept_visible w) as [[|]|e]; cbn; try reflexivity.
    + intros [H|[]]. discriminate H.
    + intros [H|[]]. discriminate H.
Qed.

Lemma consent_is_best_effort_witness :
  fst (handleCookieConsent ScenarioMore.consent_click_fails
         (Scenario.connected ∅)) = Ok tt.
Proof.
  destruct (consent_is_best_effort ScenarioMore.consent_click_fails
              (Scenario.connected ∅)) as [s' [H _]]; [reflexivity|].
  rewrite H. reflexivity.
Defined.


End ConnectFacts.

(** ** More on the generation wait and the download *)

Module CallFacts.
Import Errors Run Env Types Node Client Spec SpecMore RunFacts.
Local Open Scope list_scope.

Lemma gen_loop_time_up w fuel T t0 k s :
  T <= clock s - t0 ->
  gen_loop w fuel T t0 k s = (Ok false, s).
Proof.
  intros H. apply Z.ltb_ge in H.
  destruct fuel; cbn [gen_loop]; rewrite H; reflexivity.
Qed.

Lemma gen_loop_text_error w fuel T t0 k s e :
  clock s - t0 < T ->
  body_text (gen_poll w k) = Throw e ->
  gen_loop w (S fuel) T t0 k s
  = (Throw e,
     {| browser := browser s; clock := clock s + 3000; files := files s;
        trace := trace s ++ [EvWait 3000; EvEvaluate RefusalCheck] |}).
Proof.
  intros Hlt Hbody. cbn [gen_loop].
  apply Z.ltb_lt in Hlt. rewrite Hlt.
  unfold bind, waitForTimeout, interact, bind, emit, answer, advance,
    modify, throw.
  cbn. rewrite Hbody. cbn.
  rewrite <- app_assoc. reflexivity.
Qed.

Lemma fuel_for_poll w T k :
  elapsed w k < T -> (S k <= GEN_FUEL T)%nat.
Proof.
  intros H. unfold GEN_FUEL.
  pose proof (GenerationFacts.elapsed_lower_bound w k).
  assert (Z.of_nat k <= T / 3000) by (apply Z.div_le_lower_bound; lia).
  lia.
Qed.

Lemma quiet_run_to w T k s :
  (forall j, (j < k)%nat -> quiet_poll w j) ->
  elapsed w k < T ->
  gen_loop w (GEN_FUEL T) T (clock s) 0 s
  = gen_loop w (S (GEN_FUEL T - S k)) T (clock s) k
      {| browser := browser s; clock := clock s + elapsed w k;
         files := files s; trace := trace s ++ full_polls k |}.
Proof.
  intros Hquiet Htime.
  pose proof (fuel_for_poll w T k Htime) as Hfuel.
  replace (GEN_FUEL T) with (S (GEN_FUEL T - S k) + k)%nat at 1 by lia.
  apply GenerationFacts.gen_loop_quiet_run; [exact Hquiet|].
  destruct k as [|k]; [left; reflexivity|right].
  replace (S k - 1)%nat with k by lia.
  pose proof (GenerationFacts.elapsed_mono w k). lia.
Qed.

(** The wait from its start: the image shows at poll [k]. *)
Lemma gen_wait_found w T k s :
  finds_image w T k ->
  gen_loop w (GEN_FUEL T) T (clock s) 0 s
  = (Ok true,
     {| browser := browser s; clock := clock s + elapsed w (S k);
        files := files s; trace := trace s ++ full_polls (S k) |}).
Proof.
  intros [Hquiet Htime [text [Hbody Href]] Himg].
  rewrite (quiet_run_to w T k s Hquiet Htime).
  rewrite (GenerationFacts.gen_loop_found w _ T (clock s) k _ text);
    try assumption; [|cbn [clock]; lia].
  cbn [browser clock files trace elapsed full_polls].
  apply f_equal, LoginFacts.st_eq; [lia|].
  rewrite <- app_assoc. reflexivity.
Qed.

(** The wait from its start: the time is up after [n] polls. *)
Lemma gen_wait_timeout w T n s :
  times_out w T n ->
  gen_loop w (GEN_FUEL T) T (clock s) 0 s
  = (Ok false,
     {| browser := browser s; clock := clock s + elapsed w n;
        files := files s; trace := trace s ++ full_polls n |}).
Proof.
  intros [Hquiet Hbefore Hafter].
  assert (Hfuel : (n <= GEN_FUEL T)%nat).
  { destruct Hbefore as [->|Hb]; [lia|].
    destruct n as [|n]; [lia|].
    replace (S n - 1)%nat with n in Hb by lia.
    apply fuel_for_poll in Hb. exact Hb. }
  replace (GEN_FUEL T) with ((GEN_FUEL T - n) + n)%nat by lia.
  rewrite GenerationFacts.gen_loop_quiet_run; [|exact Hquiet|exact Hbefore].
  apply gen_loop_time_up. cbn [clock]. lia.
Qed.

Lemma show_seconds_whole (k : Z) :
  0 <= k -> Js.show_seconds (1000 * k) = Js.show_whole k.
Proof.
  intros Hk. unfold Js.show_seconds.
  destruct (Z.ltb_spec (1000 * k) 0) as [Hneg|_]; [lia|].
  rewrite Z.abs_eq by lia.
  replace (1000 * k) with (k * 1000) by lia.
  rewrite Z.div_mul, Z.mod_mul by lia.
  cbn [Js.show_thousandths Z.eqb].
  change (EmptyString ++ Js.show_whole k ++ EmptyString)%string
    with (Js.show_whole k ++ EmptyString)%string.
  generalize (Js.show_whole k). intros t.
  induction t as [|c t IH]; [reflexivity|].
  change (String c (t ++ EmptyString)%string = String c t).
  rewrite IH. reflexivity.
Qed.

(** X12: when no poll shows an image or a refusal before the time is up,
    [generateImage] throws a [GenerationError] "Image generation timed out
    after ...s" with the timeout divided by 1000 in the place of the dots
    -- "120" for the default, the numeral of [k] for a timeout of [k] whole
    seconds; [n] polls were made, each 3 seconds after the one before, and
    the download phase is not entered.  With a timeout of zero or less
    there is no poll at all.  The timeout is taken below 10^15 ms, where
    the digits printed are those of the quotient. *)
Theorem generation_times_out (w : World) (prompt out : string)
    (options : GenerateImageOptions) (s : St) (n : nat) :
  submits w s ->
  Z.abs (Js.nullish (timeout options) 120000) < 10 ^ 15 ->
  times_out w (Js.nullish (timeout options) 120000) n ->
  exists s',
    Client.generateImage w prompt out options s
    = (Throw (GenerationError
                ("Image generation timed out after "
                 ++ Js.show_seconds (Js.nullish (timeout options) 120000)
                 ++ "s")%string),
       s')
    /\ (timeout options = None -> Js.show_seconds 120000 = "120"%string)
    /\ (forall k, 0 <= k -> timeout options = Some (1000 * k) ->
        Js.show_seconds (Js.nullish (timeout options) 120000)
        = Js.show_whole k)
    /\ trace s'
       = trace s
         ++ submit_events w (build_prompt prompt (aspectRatio options))
         ++ full_polls n
    /\ (Z.of_nat n <= Z.max 0 (Js.nullish (timeout options) 120000 / 3000 + 1))
    /\ (Js.nullish (timeout options) 120000 <= 0 -> n = 0%nat).
Proof.
  intros Hsub _ Hto.
  rewrite (GenerationFacts.generateImage_submit w prompt out options s Hsub).
  set (s0 := submitted w (build_prompt prompt (aspectRatio options)) s).
  unfold from_wait.
  erewrite bind_ok by reflexivity.
  erewrite bind_ok by (apply gen_wait_timeout; exact Hto).
  cbn [negb]. unfold throw.
  eexists. split; [reflexivity|].
  split; [intros _; reflexivity|].
  split; [intros k Hk ->; apply show_seconds_whole; exact Hk|].
  split.
  - cbn [trace s0 submitted]. rewrite <- app_assoc. reflexivity.
  - destruct Hto as [_ Hbefore Hafter].
    destruct Hbefore as [->|Hb]; [split; [lia|intros _; reflexivity]|].
    destruct n as [|n]; [split; [lia|intros _; reflexivity]|].
    replace (S n - 1)%nat with n in Hb by lia.
    pose proof (GenerationFacts.elapsed_lower_bound w n).
    assert (Z.of_nat n <= Js.nullish (timeout options) 120000 / 3000)
      by (apply Z.div_le_lower_bound; lia).
    split; [lia|]. intros Hneg. lia.
Qed.

Lemma never_renders_times_out : times_out ScenarioMore.never_renders 7000 3.
Proof.
  split.
  - intros j Hj. split.
    + exists (Some "Creating your image..."%string). split; reflexivity.
    + discriminate.
  - right. vm_compute. reflexivity.
  - vm_compute. discriminate.
Qed.

Lemma generation_times_out_witness :
  exists s',
    Client.generateImage ScenarioMore.never_renders "a red circle"
      "/tmp/out.png"
      {| headless := None; aspectRatio := None; timeout := Some 7000 |}
      (Scenario.connected ∅)
    = (Throw (GenerationError "Image generation timed out after 7s"), s')
    /\ refusal_checks (trace s') = 3%nat.
Proof.
  destruct (generation_times_out ScenarioMore.never_renders "a red circle"
              "/tmp/out.png"
              {| headless := None; aspectRatio := None; timeout := Some 7000 |}
              (Scenario.connected ∅) 3)
    as [s' [H [_ [_ [Htrace _]]]]].
  - split; reflexivity.
  - cbn. lia.
  - exact never_renders_times_out.
  - exists s'. split; [exact H|]. rewrite Htrace. reflexivity.
Defined.

(** X13: an error while reading the page text in the generation wait is
    not swallowed -- unlike an error of the image probe, which counts as
    "no image yet": [generateImage] throws it as it is, right after the
    failed evaluation. *)
Theorem text_error_aborts_wait (w : World) (prompt out : string)
    (options : GenerateImageOptions) (s : St) (k : nat) (e : Thrown) :
  submits w s ->
  (forall j, (j < k)%nat -> quiet_poll w j) ->
  elapsed w k < Js.nullish (timeout options) 120000 ->
  body_text (gen_poll w k) = Throw e ->
  exists s',
    Client.generateImage w prompt out options s = (Throw e, s')
    /\ trace s'
       = trace s
         ++ submit_events w (build_prompt prompt (aspectRatio options))
         ++ full_polls k ++ [EvWait 3000; EvEvaluate RefusalCheck].
Proof.
  intros Hsub Hquiet Htime Hbody.
  rewrite (GenerationFacts.generateImage_submit w prompt out options s Hsub).
  set (s0 := submitted w (build_prompt prompt (aspectRatio options)) s).
  unfold from_wait.
  erewrite bind_ok by reflexivity.
  erewrite bind_throw
    by (rewrite (quiet_run_to w _ k s0 Hquiet Htime);
        apply gen_loop_text_error; [cbn [clock]; lia|exact Hbody]).
  eexists. split; [reflexivity|].
  cbn [trace s0 submitted]. rewrite <- !app_assoc. reflexivity.
Qed.

Lemma text_error_aborts_wait_witness :
  exists s',
    Client.generateImage ScenarioMore.text_unreadable "a red circle"
      "/tmp/out.png" no_options (Scenario.connected ∅)
    = (Throw ScenarioMore.engine_error, s').
Proof.
  destruct (text_error_aborts_wait ScenarioMore.text_unreadable "a red circle"
              "/tmp/out.png" no_options (Scenario.connected ∅) 1
              ScenarioMore.engine_error) as [s' [H _]].
  - split; reflexivity.
  - intros j Hj. destruct j as [|j]; [|lia]. split.
    + exists (Some "Creating your image..."%string). split; reflexivity.
    + discriminate.
  - vm_compute. reflexivity.
  - reflexivity.
  - exists s'. exact H.
Defined.

(** From the call to the download phase. *)
Lemma generateImage_to_download w prompt out options s k :
  submits w s ->
  finds_image w (Js.nullish (timeout options) 120000) k ->
  Client.generateImage w prompt out options s
  = from_download w out
      (image_found w (build_prompt prompt (aspectRatio options)) k s).
Proof.
  intros Hsub Hfind.
  rewrite (GenerationFacts.generateImage_submit w prompt out options s Hsub).
  unfold from_wait.
  erewrite bind_ok by reflexivity.
  erewrite bind_ok by (apply gen_wait_found; exact Hfind).
  cbn [negb]. unfold from_download, image_found, submitted.
  cbn [browser clock files trace].
  match goal with |- _ ?s1 = _ ?s2 => replace s1 with s2; [reflexivity|] end.
  apply LoginFacts.st_eq; [reflexivity|].
  rewrite <- !app_assoc. reflexivity.
Qed.

Lemma output_dir_run w out s :
  output_dir_ready w ->
  (if output_dir_exists w then ret tt
   else interact (EvMkdir (path_dirname w (path_resolve w out)))
                 (mkdir_output w)) s
  = (Ok tt, {| browser := browser s; clock := clock s; files := files s;
               trace := trace s ++ before_download w out |}).
Proof.
  intros Hdir. unfold before_download, output_dir_ready in *.
  destruct (output_dir_exists w).
  - unfold ret. rewrite app_nil_r. destruct s; reflexivity.
  - destruct Hdir as [Hdir|Hdir]; [discriminate|].
    apply GenerationFacts.interact_ok. exact Hdir.
Qed.

(** X14: when the download button does not show within its 15 seconds,
    [generateImage] throws the engine's own error -- it is not turned into
    a [GenerationError] -- before any click and any download attempt. *)
Theorem button_wait_error_is_not_wrapped (w : World) (prompt out : string)
    (options : GenerateImageOptions) (s : St) (k : nat) (e : Thrown) :
  submits w s ->
  finds_image w (Js.nullish (timeout options) 120000) k ->
  output_dir_ready w ->
  button_wait w = Throw e ->
  exists s',
    Client.generateImage w prompt out options s = (Throw e, s')
    /\ trace s'
       = trace (image_found w (build_prompt prompt (aspectRatio options)) k s)
         ++ before_download w out ++ [EvWaitFor download_selector 15000]
    /\ download_waits (before_download w out
                       ++ [EvWaitFor download_selector 15000]) = 0%nat.
Proof.
  intros Hsub Hfind Hdir Hwait.
  rewrite (generateImage_to_download w prompt out options s k Hsub Hfind).
  unfold from_download.
  erewrite bind_ok by (apply output_dir_run; exact Hdir).
  erewrite bind_throw by (unfold interact, bind, emit, answer, modify;
                          cbn; rewrite Hwait; reflexivity).
  eexists. split; [reflexivity|]. split.
  - cbn [trace]. rewrite <- app_assoc. reflexivity.
  - unfold before_download. destruct (output_dir_exists w); reflexivity.
Qed.

Lemma image_at_first_poll w :
  gen_poll w 0 = Scenario.image_poll -> finds_image w 120000 0.
Proof.
  intros H. split.
  - intros j Hj. lia.
  - reflexivity.
  - exists (Some "Sure, here is your image."%string). rewrite H.
    split; reflexivity.
  - rewrite H. reflexivity.
Qed.

Lemma button_wait_error_is_not_wrapped_witness :
  exists s',
    Client.generateImage ScenarioMore.button_never_shows "a red circle"
      "/tmp/out.png" no_options (Scenario.connected ∅)
    = (Throw ScenarioMore.timeout_error, s')
    /\ isGeminiError ScenarioMore.timeout_error = false.
Proof.
  destruct (button_wait_error_is_not_wrapped ScenarioMore.button_never_shows
              "a red circle" "/tmp/out.png" no_options (Scenario.connected ∅)
              0 ScenarioMore.timeout_error) as [s' [H _]].
  - split; reflexivity.
  - apply image_at_first_poll. reflexivity.
  - left. reflexivity.
  - reflexivity.
  - exists s'. split; [exact H|reflexivity].
Defined.

End CallFacts.

(** ** More on the download *)

Module SaveFacts.
Import Errors Run Env Types Node Client Spec SpecMore RunFacts.
Local Open Scope list_scope.

Lemma download_attempt_primary w k s :
  primary_clicked w k ->
  download_attempt w k s
  = (match download_event (attempt w k) with
     | Some d => Ok d
     | None => Throw NO_EVENT
     end,
     {| browser := browser s; clock := clock s; files := files s;
        trace := trace s ++ [EvWaitForEvent "download" 30000;
                             EvIsVisible download_selector;
                             EvClick download_selector] |}).
Proof.
  intros [Hv Hc].
  unfold download_attempt, clickDownloadButton, or_default, try_catch, bind,
    interact, bind, emit, answer, modify, throw, ret.
  cbn. rewrite Hv. cbn. rewrite Hc. cbn.
  rewrite <- !app_assoc.
  destruct (download_event (attempt w k)); reflexivity.
Qed.

Lemma download_attempt_fallback w k s :
  fallback_clicked w k ->
  download_attempt w k s
  = (match download_event (attempt w k) with
     | Some d => Ok d
     | None => Throw NO_EVENT
     end,
     {| browser := browser s; clock := clock s; files := files s;
        trace := trace s ++ [EvWaitForEvent "download" 30000;
                             EvIsVisible download_selector;
                             EvIsVisible fallback_selector;
                             EvClick fallback_selector] |}).
Proof.
  intros [Hv [Hf Hc]].
  unfold download_attempt, clickDownloadButton, or_default, try_catch, bind,
    interact, bind, emit, answer, modify, throw, ret.
  cbn.
  destruct (primary_visible (attempt w k)) as [[|]|e]; cbn; try congruence;
    rewrite Hf; cbn; rewrite Hc; cbn; rewrite <- !app_assoc;
    destruct (download_event (attempt w k)); reflexivity.
Qed.

(** X15: the generic "download" button is tried only when the designated
    one is not visible; when it is there and its click brings the download,
    the first attempt succeeds through it and there is no retry. *)
Theorem fallback_control_is_used (w : World) (s : St) (d : Download) :
  fallback_clicked w 0 ->
  download_event (attempt w 0) = Some d ->
  download_loop w 2 0 s
  = (Ok d,
     {| browser := browser s; clock := clock s; files := files s;
        trace := trace s ++ [EvWaitForEvent "download" 30000;
                             EvIsVisible download_selector;
                             EvIsVisible fallback_selector;
                             EvClick fallback_selector] |}).
Proof.
  intros Hfb Hev.
  rewrite DownloadFacts.download_loop_two_attempts.
  rewrite (download_attempt_fallback w 0 s Hfb), Hev. reflexivity.
Qed.

Lemma fallback_control_is_used_witness :
  fst (download_loop ScenarioMore.only_generic_button 2 0 (Scenario.connected ∅))
  = Ok Scenario.png_download.
Proof.
  rewrite (fallback_control_is_used ScenarioMore.only_generic_button
             (Scenario.connected ∅) Scenario.png_download).
  - reflexivity.
  - split; [discriminate|split; reflexivity].
  - reflexivity.
Defined.

(** X16: when the first click brings no download event, the loop pauses 2
    seconds and clicks once more; a download that comes at this second
    attempt is the result. *)
Theorem second_attempt_succeeds (w : World) (s : St) (d : Download) :
  primary_clicked w 0 ->
  download_event (attempt w 0) = None ->
  primary_clicked w 1 ->
  download_event (attempt w 1) = Some d ->
  download_loop w 2 0 s
  = (Ok d,
     {| browser := browser s; clock := clock s + 2000; files := files s;
        trace := trace s ++ [EvWaitForEvent "download" 30000;
                             EvIsVisible download_selector;
                             EvClick download_selector;
                             EvWait 2000;
                             EvWaitForEvent "download" 30000;
                             EvIsVisible download_selector;
                             EvClick download_selector] |}).
Proof.
  intros H0 He0 H1 He1.
  rewrite DownloadFacts.download_loop_two_attempts.
  rewrite (download_attempt_primary w 0 s H0), He0.
  rewrite (download_attempt_primary w 1 _ H1), He1.
  unfold paused. cbn [browser clock files trace].
  rewrite <- !app_assoc. reflexivity.
Qed.

Lemma second_attempt_succeeds_witness :
  fst (download_loop ScenarioMore.second_click_works 2 0 (Scenario.connected ∅))
  = Ok Scenario.png_download.
Proof.
  rewrite (second_attempt_succeeds ScenarioMore.second_click_works
             (Scenario.connected ∅) Scenario.png_download);
    try reflexivity; split; reflexivity.
Defined.

Lemma download_waits_app (a b : list Event) :
  download_waits (a ++ b) = (download_waits a + download_waits b)%nat.
Proof. unfold download_waits. rewrite List.filter_app, length_app. reflexivity. Qed.

Lemma retry_pauses_app (a b : list Event) :
  retry_pauses (a ++ b) = (retry_pauses a + retry_pauses b)%nat.
Proof. unfold retry_pauses. rewrite List.filter_app, length_app. reflexivity. Qed.

(** One attempt, whatever the page answers: one wait for the download
    event, then probes and at most one click, no pause. *)
Lemma download_attempt_trace w k s :
  exists evs,
    snd (download_attempt w k s)
    = {| browser := browser s; clock := clock s; files := files s;
         trace := trace s ++ evs |}
    /\ download_waits evs = 1%nat
    /\ retry_pauses evs = 0%nat.
Proof.
  unfold download_attempt, clickDownloadButton, or_default, try_catch, bind,
    interact, bind, emit, answer, modify, throw, ret.
  cbn.
  destruct (primary_visible (attempt w k)) as [[|]|e]; cbn;
    [destruct (primary_click (attempt w k)) as [u|e]; cbn
    |destruct (fallback_visible (attempt w k)) as [[|]|e]; cbn;
     [destruct (fallback_click (attempt w k)) as [u|e]; cbn| |]
    |destruct (fallback_visible (attempt w k)) as [[|]|e']; cbn;
     [destruct (fallback_click (attempt w k)) as [u|e']; cbn| |]];
    try destruct (download_event (attempt w k)); cbn;
    rewrite <- ?app_assoc; cbn;
    eexists; (split; [reflexivity|]); split; reflexivity.
Qed.

(** X17: whatever the page answers, the download loop makes one or two
    attempts, never more; it pauses 2 seconds exactly once between two
    attempts and not at all otherwise, and the second attempt is made
    exactly when the first one failed. *)
Theorem at_most_two_attempts (w : World) (s : St) :
  exists evs,
    trace (snd (download_loop w 2 0 s)) = trace s ++ evs
    /\ (1 <= download_waits evs <= 2)%nat
    /\ retry_pauses evs = (download_waits evs - 1)%nat
    /\ clock (snd (download_loop w 2 0 s))
       = clock s + 2000 * Z.of_nat (retry_pauses evs)
    /\ (download_waits evs = 1%nat <->
        exists d, fst (download_attempt w 0 s) = Ok d).
Proof.
  rewrite DownloadFacts.download_loop_two_attempts.
  destruct (download_attempt_trace w 0 s) as [e0 [H0 [W0 P0]]].
  destruct (download_attempt w 0 s) as [[d|e] s1]; cbn [snd fst] in *.
  - exists e0. subst s1. cbn [trace clock].
    split; [reflexivity|]. split; [lia|]. split; [lia|]. split; [lia|].
    split; [intros _; exists d; reflexivity|intros _; exact W0].
  - destruct (download_attempt_trace w 1 (paused s1)) as [e1 [H1 [W1 P1]]].
    exists (e0 ++ [EvWait 2000] ++ e1).
    assert (Hs2 : snd (match download_attempt w 1 (paused s1) with
                       | (Ok d, s2) => (Ok d, s2)
                       | (Throw _, s2) =>
                           (Throw (GenerationError DOWNLOAD_FAILED_MESSAGE), s2)
                       end) = snd (download_attempt w 1 (paused s1))).
    { destruct (download_attempt w 1 (paused s1)) as [[d1|e1'] s2];
        reflexivity. }
    rewrite Hs2, H1. subst s1. unfold paused. cbn [trace clock].
    rewrite !download_waits_app, !retry_pauses_app, W0, W1, P0, P1.
    cbn. split; [rewrite <- !app_assoc; reflexivity|].
    split; [lia|]. split; [lia|]. split; [lia|].
    split; [intros H; lia|intros [d H]; discriminate H].
Qed.

Lemma removeWatermark_without_tool w filePath s :
  files s !! script w = None ->
  removeWatermark w filePath s = (Ok tt, s).
Proof.
  intros H. unfold removeWatermark, existsSync, bind, get, ret.
  cbn. rewrite H. reflexivity.
Qed.

Lemma statSize_run path bytes s :
  files s !! path = Some bytes ->
  statSize path s = (Ok (Z.of_nat (length bytes)), s).
Proof.
  intros H. unfold statSize, bind, get, ret. cbn. rewrite H. reflexivity.
Qed.

Lemma from_download_saved w out d s :
  output_dir_ready w ->
  button_wait w = Ok tt ->
  primary_clicked w 0 ->
  download_event (attempt w 0) = Some d ->
  save_result d = Ok tt ->
  from_download w out s
  = ((if Js.truthy_opt_string (failure d)
      then throw (GenerationError
                    ("Download failed: "
                     ++ Js.nullish (failure d) EmptyString)%string)
      else ret tt) ;;;
     removeWatermark w (path_resolve w out) ;;;
     statSize (path_resolve w out) ;;;
     dimensions <- getImageDimensions (path_resolve w out) ;;
     ret {| imagePath := path_resolve w out;
            width := dim_width dimensions;
            height := dim_height dimensions |})%run (saved w out d s).
Proof.
  intros Hdir Hwait Hclick Hev Hsave. unfold from_download.
  erewrite bind_ok by (apply CallFacts.output_dir_run; exact Hdir).
  erewrite bind_ok by (apply GenerationFacts.interact_ok; exact Hwait).
  erewrite bind_ok by apply GenerationFacts.waitForTimeout_run.
  erewrite bind_ok
    by (rewrite DownloadFacts.download_loop_two_attempts,
          (download_attempt_primary w 0 _ Hclick), Hev; reflexivity).
  erewrite bind_ok by (apply DownloadFacts.saveAs_writes; exact Hsave).
  unfold saved. cbn [browser clock files trace].
  match goal with |- _ ?s1 = _ ?s2 => replace s1 with s2; [reflexivity|] end.
  apply LoginFacts.st_eq; [reflexivity|].
  rewrite <- !app_assoc. reflexivity.
Qed.

(** X18: a call in which every step goes through -- the prompt is
    submitted, the image shows at poll [k], the designated button brings
    the download at the first attempt, and the watermark tool is not
    installed -- returns the resolved output path with the dimensions read
    from the downloaded bytes, and leaves exactly these bytes at that
    path. *)
Theorem generateImage_succeeds (w : World) (prompt out : string)
    (options : GenerateImageOptions) (s : St) (k : nat) (d : Download)
    (dims : Dimensions) :
  submits w s ->
  finds_image w (Js.nullish (timeout options) 120000) k ->
  output_dir_ready w ->
  button_wait w = Ok tt ->
  primary_clicked w 0 ->
  download_event (attempt w 0) = Some d ->
  save_result d = Ok tt ->
  Js.truthy_opt_string (failure d) = false ->
  files s !! script w = None ->
  path_resolve w out <> script w ->
  FileShape (Some (content d)) dims ->
  Client.generateImage w prompt out options s
  = (Ok {| imagePath := path_resolve w out;
           width := dim_width dims; height := dim_height dims |},
     saved w out d
       (image_found w (build_prompt prompt (aspectRatio options)) k s))
  /\ files (saved w out d
              (image_found w (build_prompt prompt (aspectRatio options)) k s))
     !! path_resolve w out = Some (content d).
Proof.
  intros Hsub Hfind Hdir Hwait Hclick Hev Hsave Hfail Hscript Hne Hshape.
  split; [|cbn [saved files]; apply lookup_insert_eq].
  rewrite (CallFacts.generateImage_to_download w prompt out options s k
             Hsub Hfind).
  rewrite (from_download_saved w out d _ Hdir Hwait Hclick Hev Hsave).
  rewrite Hfail.
  set (s1 := saved w out d _).
  assert (Hfile : files s1 !! path_resolve w out = Some (content d))
    by (cbn [s1 saved files]; apply lookup_insert_eq).
  assert (Hnotool : files s1 !! script w = None).
  { cbn [s1 saved files image_found]. rewrite lookup_insert_ne by exact Hne.
    exact Hscript. }
  erewrite bind_ok by reflexivity.
  erewrite bind_ok by (apply removeWatermark_without_tool; exact Hnotool).
  erewrite bind_ok by (apply statSize_run; exact Hfile).
  erewrite bind_ok
    by (apply DimensionFacts.dimensions_of_shape; rewrite Hfile; exact Hshape).
  reflexivity.
Qed.

Lemma generateImage_succeeds_witness :
  fst (Client.generateImage Scenario.smooth "a red circle" "/tmp/out.png"
         no_options (Scenario.connected ∅))
  = Ok {| imagePath := "/tmp/out.png"; width := 1024; height := 768 |}.
Proof.
  destruct (generateImage_succeeds Scenario.smooth "a red circle"
              "/tmp/out.png" no_options (Scenario.connected ∅) 0
              Scenario.png_download
              {| dim_width := be32 Scenario.png_1024x768 16;
                 dim_height := be32 Scenario.png_1024x768 20 |})
    as [H _].
  - split; reflexivity.
  - apply CallFacts.image_at_first_poll. reflexivity.
  - left. reflexivity.
  - reflexivity.
  - split; reflexivity.
  - reflexivity.
  - reflexivity.
  - reflexivity.
  - reflexivity.
  - discriminate.
  - apply (ShapePngLike Scenario.png_1024x768). reflexivity.
  - rewrite H. reflexivity.
Defined.

(** X19: the engine's failure signal is read after the file was written:
    when [failure()] answers a reason, [generateImage] throws a
    [GenerationError] "Download failed: " followed by the reason, the
    bytes of the failed download stay at the output path, and the
    watermark tool is not run. *)
Theorem failed_download_is_reported (w : World) (prompt out : string)
    (options : GenerateImageOptions) (s : St) (k : nat) (d : Download)
    (reason : string) :
  submits w s ->
  finds_image w (Js.nullish (timeout options) 120000) k ->
  output_dir_ready w ->
  button_wait w = Ok tt ->
  primary_clicked w 0 ->
  download_event (attempt w 0) = Some d ->
  save_result d = Ok tt ->
  failure d = Some reason ->
  reason <> EmptyString ->
  Client.generateImage w prompt out options s
  = (Throw (GenerationError ("Download failed: " ++ reason)%string),
     saved w out d
       (image_found w (build_prompt prompt (aspectRatio options)) k s))
  /\ files (saved w out d
              (image_found w (build_prompt prompt (aspectRatio options)) k s))
     !! path_resolve w out = Some (content d)
  /\ tool_runs (before_download w out
                ++ [EvWaitFor download_selector 15000; EvWait 1000;
                    EvWaitForEvent "download" 30000;
                    EvIsVisible download_selector; EvClick download_selector;
                    EvSaveAs (path_resolve w out)]) = 0%nat.
Proof.
  intros Hsub Hfind Hdir Hwait Hclick Hev Hsave Hfail Hreason.
  split; [|split].
  - rewrite (CallFacts.generateImage_to_download w prompt out options s k
               Hsub Hfind).
    rewrite (from_download_saved w out d _ Hdir Hwait Hclick Hev Hsave).
    rewrite Hfail.
    destruct reason as [|c reason]; [congruence|].
    reflexivity.
  - cbn [saved files]. apply lookup_insert_eq.
  - unfold before_download. destruct (output_dir_exists w); reflexivity.
Qed.

Lemma failed_download_is_reported_witness :
  fst (Client.generateImage ScenarioMore.download_canceled "a red circle"
         "/tmp/out.png" no_options (Scenario.connected ∅))
  = Throw (GenerationError "Download failed: canceled").
Proof.
  destruct (failed_download_is_reported ScenarioMore.download_canceled
              "a red circle" "/tmp/out.png" no_options (Scenario.connected ∅)
              0 ScenarioMore.canceled_download "canceled")
    as [H _].
  - split; reflexivity.
  - apply CallFacts.image_at_first_poll. reflexivity.
  - left. reflexivity.
  - reflexivity.
  - split; reflexivity.
  - reflexivity.
  - reflexivity.
  - reflexivity.
  - discriminate.
  - rewrite H. reflexivity.
Defined.

End SaveFacts.

(** ** More on image headers, texts and files *)

Module DataFacts.
Import Errors Run Env Types Node Client Spec SpecMore RunFacts.
Local Open Scope list_scope.

(** X20: a file of fewer than ten bytes that does not start with 89 50 --
    the empty file among them -- gives 0 x 0: the scan for a frame header
    does not make a single step. *)
Theorem short_file_has_no_dimensions (filePath : string) (s : St)
    (bytes : list Byte.byte) :
  files s !! filePath = Some bytes ->
  (length bytes <= 9)%nat ->
  starts_89_50 bytes = false ->
  getImageDimensions filePath s = (Ok no_dimensions, s).
Proof.
  intros Hfile Hlen Hpng.
  apply DimensionFacts.dimensions_of_shape. rewrite Hfile.
  apply ShapeOther; [exact Hpng|].
  intros i Hi. lia.
Qed.

Lemma short_file_has_no_dimensions_witness :
  getImageDimensions "/tmp/empty"
    (Scenario.connected (<["/tmp/empty"%string := []]> ∅))
  = (Ok no_dimensions,
     Scenario.connected (<["/tmp/empty"%string := []]> ∅)).
Proof.
  apply (short_file_has_no_dimensions "/tmp/empty" _ []).
  - reflexivity.
  - cbn. lia.
  - reflexivity.
Defined.

Lemma byte_or_zero_beyond bytes i :
  (length bytes <= i)%nat -> byte_or_zero bytes i = 0.
Proof.
  intros H. unfold byte_or_zero.
  rewrite (proj2 (lookup_ge_None bytes i) H). reflexivity.
Qed.

(** X21: a file that starts with 89 50 but ends before offset 16 gives
    0 x 0: the bytes the header lacks are read as zero, and the file is
    not scanned for a frame header. *)
Theorem truncated_png_has_no_dimensions (filePath : string) (s : St)
    (bytes : list Byte.byte) :
  files s !! filePath = Some bytes ->
  starts_89_50 bytes = true ->
  (length bytes <= 16)%nat ->
  getImageDimensions filePath s = (Ok no_dimensions, s).
Proof.
  intros Hfile Hpng Hlen.
  apply DimensionFacts.dimensions_of_shape. rewrite Hfile.
  pose proof (ShapePngLike bytes Hpng) as Hshape.
  unfold be32 in Hshape.
  rewrite !byte_or_zero_beyond in Hshape by lia.
  exact Hshape.
Qed.

Lemma truncated_png_has_no_dimensions_witness :
  getImageDimensions "/tmp/cut.png"
    (Scenario.connected
       (<["/tmp/cut.png"%string := ScenarioMore.png_cut_short]> ∅))
  = (Ok no_dimensions,
     Scenario.connected
       (<["/tmp/cut.png"%string := ScenarioMore.png_cut_short]> ∅)).
Proof.
  apply (truncated_png_has_no_dimensions "/tmp/cut.png" _
           ScenarioMore.png_cut_short).
  - reflexivity.
  - reflexivity.
  - cbn. lia.
Defined.

(** X22: the scan stops ten bytes before the end of the file: a frame
    header whose marker sits exactly nine bytes before the end -- so that
    its height and width are the last four bytes -- is not read, and the
    result is 0 x 0. *)
Theorem frame_header_at_end_is_ignored (filePath : string) (s : St)
    (pre : list Byte.byte) (l1 l2 p h1 h2 w1 w2 : Byte.byte) :
  let bytes := pre ++ [Byte.xff; Byte.xc0; l1; l2; p; h1; h2; w1; w2] in
  files s !! filePath = Some bytes ->
  starts_89_50 bytes = false ->
  (forall j, (j < length pre)%nat -> marker_at bytes j = false) ->
  marker_at bytes (length pre) = true
  /\ getImageDimensions filePath s = (Ok no_dimensions, s).
Proof.
  intros bytes Hfile Hpng Hfirst. split.
  - unfold marker_at, byte_at_is, bytes.
    rewrite (lookup_app_r pre _ (length pre)),
      (lookup_app_r pre _ (length pre + 1)) by lia.
    replace (length pre - length pre)%nat with 0%nat by lia.
    replace (length pre + 1 - length pre)%nat with 1%nat by lia.
    reflexivity.
  - apply DimensionFacts.dimensions_of_shape. rewrite Hfile.
    apply ShapeOther; [exact Hpng|].
    intros i Hi. apply Hfirst.
    unfold bytes in Hi. rewrite length_app in Hi. cbn [length] in Hi. lia.
Qed.

Lemma frame_header_at_end_is_ignored_witness :
  getImageDimensions "/tmp/cut.jpg"
    (Scenario.connected
       (<["/tmp/cut.jpg"%string := ScenarioMore.frame_header_at_end]> ∅))
  = (Ok no_dimensions,
     Scenario.connected
       (<["/tmp/cut.jpg"%string := ScenarioMore.frame_header_at_end]> ∅)).
Proof.
  apply (frame_header_at_end_is_ignored "/tmp/cut.jpg" _
           [Byte.xff; Byte.xd8; Byte.x00]
           Byte.x00 Byte.x11 Byte.x08 Byte.x01 Byte.xe0 Byte.x02 Byte.x80).
  - reflexivity.
  - reflexivity.
  - intros j Hj. destruct j as [|[|[|j]]]; [reflexivity..|cbn in Hj; lia].
Defined.

Lemma byteZ_bounds (b : Byte.byte) : 0 <= byteZ b < 256.
Proof.
  unfold byteZ. pose proof (Byte.to_N_bounded b). lia.
Qed.

Lemma byte_or_zero_bounds bytes i : 0 <= byte_or_zero bytes i < 256.
Proof.
  unfold byte_or_zero. destruct (bytes !! i); [apply byteZ_bounds|lia].
Qed.

Lemma be32_bounds bytes i : 0 <= be32 bytes i < 2 ^ 32.
Proof.
  unfold be32.
  pose proof (byte_or_zero_bounds bytes i).
  pose proof (byte_or_zero_bounds bytes (i + 1)).
  pose proof (byte_or_zero_bounds bytes (i + 2)).
  pose proof (byte_or_zero_bounds bytes (i + 3)).
  change (2 ^ 24) with 16777216. change (2 ^ 16) with 65536.
  change (2 ^ 8) with 256. change (2 ^ 32) with 4294967296. lia.
Qed.

Lemma be16_bounds bytes i : 0 <= be16 bytes i < 2 ^ 16.
Proof.
  unfold be16.
  pose proof (byte_or_zero_bounds bytes i).
  pose proof (byte_or_zero_bounds bytes (i + 1)).
  change (2 ^ 8) with 256. change (2 ^ 16) with 65536. lia.
Qed.

(** X23: whatever the file holds, the reported width and height are whole
    numbers from 0 to 2^32 - 1; for a file that does not start with 89 50
    they are below 2^16. *)
Theorem dimensions_are_bounded (filePath : string) (s : St) :
  exists d,
    getImageDimensions filePath s = (Ok d, s)
    /\ 0 <= dim_width d < 2 ^ 32
    /\ 0 <= dim_height d < 2 ^ 32
    /\ (forall bytes, files s !! filePath = Some bytes ->
                      starts_89_50 bytes = false ->
                      dim_width d < 2 ^ 16 /\ dim_height d < 2 ^ 16).
Proof.
  destruct (DimensionFacts.file_shape_total (files s !! filePath)) as [d Hd].
  exists d. split; [apply DimensionFacts.dimensions_of_shape; exact Hd|].
  destruct (files s !! filePath) as [content|] eqn:Hfile.
  - inversion Hd as [|bytes Hpng|bytes i Hpng Hlen Hm Hfirst|bytes Hpng Hnone];
      subst; cbn [dim_width dim_height no_dimensions].
    + split; [apply be32_bounds|]. split; [apply be32_bounds|].
      intros b Hb Hnot. inversion Hb; subst b. congruence.
    + pose proof (be16_bounds content (i + 7)).
      pose proof (be16_bounds content (i + 5)).
      change (2 ^ 16) with 65536 in *. change (2 ^ 32) with 4294967296.
      split; [lia|]. split; [lia|]. intros _ _ _. lia.
    + change (2 ^ 16) with 65536. change (2 ^ 32) with 4294967296.
      split; [lia|]. split; [lia|]. intros _ _ _. lia.
  - inversion Hd; subst; cbn [dim_width dim_height no_dimensions].
    change (2 ^ 32) with 4294967296.
    split; [lia|]. split; [lia|]. intros b Hb. discriminate Hb.
Qed.

(** *** Texts *)

Lemma prefix_app (s t : string) : String.prefix s (s ++ t)%string = true.
Proof.
  induction s as [|c s IH].
  - destruct t; reflexivity.
  - change (String c s ++ t)%string with (String c (s ++ t)%string).
    cbn [String.prefix].
    destruct (Ascii.ascii_dec c c) as [_|H]; [exact IH|congruence].
Qed.

Lemma prefix_refl (s : string) : String.prefix s s = true.
Proof.
  induction s as [|c s IH]; cbn; [reflexivity|].
  destruct (Ascii.ascii_dec c c) as [_|H]; [exact IH|congruence].
Qed.

(** X24: for every [GeminiError], whatever its code, the guidance starts
    with the error's own message: nothing of the message is lost or put
    after the recovery steps. *)
Theorem guidance_starts_with_message (name message code : string) :
  String.prefix message (getErrorGuidance (Gemini name message code)) = true.
Proof.
  cbn [getErrorGuidance].
  destruct (String.eqb code "AUTH_ERROR"); [apply prefix_app|].
  destruct (String.eqb code "GENERATION_ERROR"); [apply prefix_app|].
  destruct (String.eqb code "BROWSER_ERROR"); [apply prefix_app|].
  apply prefix_refl.
Qed.

Lemma string_app_assoc (a b c : string) :
  ((a ++ b) ++ c = a ++ (b ++ c))%string.
Proof.
  induction a as [|x a IH]; [reflexivity|].
  change (String x ((a ++ b) ++ c) = String x (a ++ (b ++ c)))%string.
  rewrite IH. reflexivity.
Qed.

Lemma string_length_app (a b : string) :
  String.length (a ++ b)%string = (String.length a + String.length b)%nat.
Proof.
  induction a as [|x a IH]; [reflexivity|].
  change (S (String.length (a ++ b)%string)
          = S (String.length a + String.length b)).
  rewrite IH. reflexivity.
Qed.

Lemma string_app_cancel_r (a b t : string) :
  (a ++ t = b ++ t)%string -> a = b.
Proof.
  revert b. induction a as [|x a IH]; intros b H.
  - destruct b as [|y b]; [reflexivity|].
    apply (f_equal String.length) in H.
    rewrite !string_length_app in H. cbn [String.length] in H. lia.
  - destruct b as [|y b].
    + apply (f_equal String.length) in H.
      rewrite !string_length_app in H. cbn [String.length] in H. lia.
    + change (String x (a ++ t) = String y (b ++ t))%string in H.
      injection H as Hxy H. subst y. f_equal. apply IH. exact H.
Qed.

Lemma string_app_cancel_l (a b c : string) :
  (a ++ b = a ++ c)%string -> b = c.
Proof.
  induction a as [|x a IH]; intros H; [exact H|].
  change (String x (a ++ b) = String x (a ++ c))%string in H.
  injection H as H. apply IH. exact H.
Qed.

(** X25: with the same aspect-ratio option, two different prompts never
    give the same submitted text. *)
Theorem build_prompt_injective (p1 p2 : string) (aspect : option string) :
  build_prompt p1 aspect = build_prompt p2 aspect -> p1 = p2.
Proof.
  unfold build_prompt.
  destruct (Js.truthy_opt_string aspect).
  - intros H. apply string_app_cancel_r in H.
    apply string_app_cancel_l in H. exact H.
  - apply string_app_cancel_l.
Qed.

Lemma build_prompt_injective_witness :
  "a red circle" = "a red circle".
Proof.
  apply (build_prompt_injective "a red circle" "a red circle" (Some "16:9")).
  reflexivity.
Defined.

(** X26: the aspect-ratio option is nothing but text appended to the
    prompt: a call with a non-empty [aspectRatio] submits the same text as
    a call without the option whose prompt ends in " (aspect ratio: ...)". *)
Theorem aspect_ratio_is_prompt_text (prompt aspect : string) :
  aspect <> EmptyString ->
  build_prompt prompt (Some aspect)
  = build_prompt (prompt ++ " (aspect ratio: " ++ aspect ++ ")")%string None
  /\ build_prompt prompt (Some aspect)
     = ("Generate an image: " ++ prompt ++ " (aspect ratio: " ++ aspect ++ ")")%string.
Proof.
  intros Hne. unfold build_prompt.
  destruct aspect as [|c aspect]; [congruence|].
  cbn [Js.truthy_opt_string Js.truthy_string Js.nullish].
  split; apply string_app_assoc.
Qed.

Lemma aspect_ratio_is_prompt_text_witness :
  build_prompt "a red circle" (Some "16:9")
  = "Generate an image: a red circle (aspect ratio: 16:9)".
Proof.
  destruct (aspect_ratio_is_prompt_text "a red circle" "16:9") as [_ H].
  - discriminate.
  - rewrite H. reflexivity.
Defined.

Lemma prefix_iff (s t : string) :
  String.prefix s t = true <-> exists post, t = (s ++ post)%string.
Proof.
  revert t. induction s as [|c s IH]; intros t.
  - split; [intros _; exists t; reflexivity|intros _; destruct t; reflexivity].
  - destruct t as [|d t]; cbn.
    + split; [discriminate|intros [post H]; discriminate H].
    + destruct (Ascii.ascii_dec c d) as [->|Hne].
      * rewrite IH. split; intros [post H]; exists post.
        -- rewrite H. reflexivity.
        -- injection H as H. exact H.
      * split; [discriminate|intros [post H]; injection H as Hcd _; congruence].
Qed.

(** [includes] is what it models: the needle occurs in the text. *)
Lemma includes_iff (needle hay : string) :
  Js.includes needle hay = true
  <-> exists pre post, hay = (pre ++ needle ++ post)%string.
Proof.
  induction hay as [|c hay IH].
  - cbn [Js.includes]. destruct (String.prefix needle EmptyString) eqn:E.
    + split; [intros _|reflexivity].
      apply prefix_iff in E. destruct E as [post E].
      exists EmptyString, post. exact E.
    + split; [discriminate|]. intros [pre [post H]].
      destruct pre; [|discriminate H].
      assert (String.prefix needle EmptyString = true)
        by (apply prefix_iff; exists post; exact H).
      congruence.
  - rewrite ErrorsFacts.includes_cons.
    destruct (String.prefix needle (String c hay)) eqn:E.
    + split; [intros _|reflexivity].
      apply prefix_iff in E. destruct E as [post E].
      exists EmptyString, post. exact E.
    + rewrite IH. split.
      * intros [pre [post H]]. exists (String c pre), post.
        rewrite H. reflexivity.
      * intros [pre [post H]]. destruct pre as [|x pre].
        -- assert (String.prefix needle (String c hay) = true)
             by (apply prefix_iff; exists post; exact H).
           congruence.
        -- injection H as _ H. exists pre, post. exact H.
Qed.

(** X27: the refusal check answers with its one fixed message exactly when
    the page text contains "I can't generate" or "I'm not able to
    generate" somewhere, in this spelling; for any other text, and for a
    page without text, it answers nothing. *)
Theorem refusal_iff_phrase_occurs (text : option string) :
  (refusal_check text = Some REFUSAL_MESSAGE
   <-> exists body pre post,
         text = Some body
         /\ (body = (pre ++ "I can't generate" ++ post)%string
             \/ body = (pre ++ "I'm not able to generate" ++ post)%string))
  /\ (refusal_check text = Some REFUSAL_MESSAGE \/ refusal_check text = None).
Proof.
  assert (Hbody : forall body,
            has_refusal_phrase body = true
            <-> exists pre post,
                  body = (pre ++ "I can't generate" ++ post)%string
                  \/ body = (pre ++ "I'm not able to generate" ++ post)%string).
  { intros body. unfold has_refusal_phrase. rewrite orb_true_iff, !includes_iff.
    split.
    - intros [[pre [post H]]|[pre [post H]]]; exists pre, post; auto.
    - intros [pre [post [H|H]]]; [left|right]; exists pre, post; exact H. }
  assert (Hcheck : forall body,
            refusal_check (Some body)
            = if has_refusal_phrase body then Some REFUSAL_MESSAGE else None).
  { intros body. unfold refusal_check, has_refusal_phrase.
    destruct body; reflexivity. }
  split.
  - destruct text as [body|].
    + rewrite Hcheck. split.
      * destruct (has_refusal_phrase body) eqn:E; [|discriminate].
        intros _. apply Hbody in E. destruct E as [pre [post E]].
        exists body, pre, post. split; [reflexivity|exact E].
      * intros [b [pre [post [Hb E]]]]. inversion Hb; subst b.
        rewrite (proj2 (Hbody body)); [reflexivity|].
        exists pre, post. exact E.
    + split; [discriminate|]. intros [b [pre [post [Hb _]]]]. discriminate Hb.
  - destruct text as [body|]; [|right; reflexivity].
    rewrite Hcheck. destruct (has_refusal_phrase body); [left|right]; reflexivity.
Qed.

(** *** Files *)

(** X28: [removeWatermark] touches two paths only, the image at
    [filePath] and the temporary output at [filePath + ".clean.png"]:
    whatever the tool and the host do, every other file is as the tool
    left it -- or, when the tool is not installed, as it was. *)
Theorem removeWatermark_touches_two_paths (w : World) (filePath path : string)
    (s : St) :
  path <> filePath ->
  path <> tmp_path filePath ->
  files (snd (removeWatermark w filePath s)) !! path
  = match files s !! script w with
    | Some _ => tool_files (tool_run w filePath s) !! path
    | None => files s !! path
    end.
Proof.
  intros Hne Hne'.
  unfold removeWatermark, existsSync, execFileAsync, renameSync, unlinkSync,
    try_catch, bind, emit, set_files, modify, get, ret, throw.
  cbn.
  destruct (files s !! script w) as [code|]; cbn; [|reflexivity].
  unfold tool_run.
  set (run := run_tool w (files s) filePath (tmp_path filePath)).
  destruct (tool_exit run) as [out|status| |msg];
    destruct (tool_files run !! tmp_path filePath) as [cleaned|] eqn:Htmp;
    destruct (rename_failure w (tmp_path filePath) filePath) as [e1|];
    destruct (unlink_failure w (tmp_path filePath)) as [e2|];
    repeat (progress (cbn; rewrite ?Htmp));
    rewrite ?lookup_insert_ne, ?lookup_delete_ne by congruence;
    reflexivity.
Qed.

Lemma removeWatermark_touches_two_paths_witness :
  files (snd (removeWatermark Scenario.with_cleaning_tool "/tmp/out.png"
                (Scenario.connected Scenario.tool_installed)))
  !! "/home/user/code/WatermarkRemover-AI/remwm.py"%string
  = Some [Byte.x23].
Proof.
  rewrite (removeWatermark_touches_two_paths Scenario.with_cleaning_tool
             "/tmp/out.png" "/home/user/code/WatermarkRemover-AI/remwm.py").
  - vm_compute. reflexivity.
  - discriminate.
  - discriminate.
Defined.

End DataFacts.
